(** * Statistical reductions and scans of the torch backend

    A shallow embedding of [ivy/functional/backends/torch/statistical.py]
    (min, max, mean, _infer_dtype, prod, std, sum, var, cumprod, cumsum),
    of [trapz] and [nansum] from
    [ivy/functional/backends/torch/extensions/elementwise.py], of the
    method [trapz] from [ivy/array/extensions/elementwise.py], and of the
    strategies [_arrays_idx_n_dtypes] and [_array_idxes_n_dtype] of the
    torch frontend tests.

    The Python functions are translated statement by statement.  What
    they call in the tensor engine (torch.cumsum, torch.flip, torch.amin,
    ...) is modelled in [Module torch] from the documented behaviour of
    those primitives.  Element arithmetic itself is an interface
    ([Backend]): the development does not fix a rounding or overflow
    behaviour, and every law of arithmetic a theorem relies on is a named
    hypothesis of that theorem. *)

From Stdlib Require Import ZArith QArith Qcanon Bool String Sorted.
From stdpp Require Import base decidable option list.

Local Open Scope Z_scope.
Local Open Scope nat_scope.

(** ** Dtypes *)

Inductive dtype :=
  | bool_ | uint8 | uint16 | uint32 | uint64
  | int8 | int16 | int32 | int64
  | bfloat16 | float16 | float32 | float64.

#[global] Instance dtype_eq_dec : EqDecision dtype.
Proof. solve_decision. Defined.

Inductive dkind := KBool | KUint | KInt | KFloat.

Definition dtype_kind (d : dtype) : dkind :=
  match d with
  | bool_ => KBool
  | uint8 | uint16 | uint32 | uint64 => KUint
  | int8 | int16 | int32 | int64 => KInt
  | bfloat16 | float16 | float32 | float64 => KFloat
  end.

(** The floating-point dtypes: of the dtypes above, the only ones whose
    tensors torch takes a mean, a variance or a standard deviation of;
    for the others [torch.mean], [torch.var] and [torch.std] raise
    RuntimeError. *)
Definition is_floating (d : dtype) : bool :=
  match dtype_kind d with KFloat => true | _ => false end.

(** Modelled from the spec: [ivy.dtype_bits] (the [bit_width(dtype)] of the
    backend capability) is not among the sources; it is the width the
    name of the dtype carries, and 1 for booleans. *)
Definition dtype_bits (d : dtype) : nat :=
  match d with
  | bool_ => 1
  | uint8 | int8 => 8
  | uint16 | int16 | bfloat16 | float16 => 16
  | uint32 | int32 | float32 => 32
  | uint64 | int64 | float64 => 64
  end.

(** ** Exceptions and results *)

Inductive exn :=
  | IndexError
  | RuntimeError
  | TypeError (msg : string).

Inductive result (A : Type) :=
  | Ok (a : A)
  | Raise (e : exn).
Arguments Ok {A} a.
Arguments Raise {A} e.

#[global] Instance result_ret : MRet result := fun A a => Ok a.
#[global] Instance result_bind : MBind result := fun A B f m =>
  match m with
  | Ok a => f a
  | Raise e => Raise e
  end.
#[global] Instance result_fmap : FMap result := fun A B f m =>
  match m with
  | Ok a => Ok (f a)
  | Raise e => Raise e
  end.

(** ** The element arithmetic of the tensor engine *)

Class Backend (V : Type) := {
  vzero : V;
  vone : V;
  vnan : V;
  vadd : V → V → V;
  vsub : V → V → V;
  vmul : V → V → V;
  vdiv : V → V → V;
  vsqrt : V → V;
  vmin : V → V → V;
  vmax : V → V → V;
  (** a Python number handed to the engine *)
  of_Q : Q → V;
  (** [cast src dst v]: the element [v] of a [src] tensor converted to [dst] *)
  cast : dtype → dtype → V → V;
  (** the defaults [ivy.default_float_dtype()] and the like, and the
      dtypes the backend accepts ([ivy.valid_dtypes]) *)
  default_float_dtype : dtype;
  default_int_dtype : dtype;
  default_uint_dtype : dtype;
  valid_dtypes : list dtype
}.

Definition of_nat `{Backend V} (n : nat) : V := of_Q (inject_Z (Z.of_nat n)).

(** ** Tensors

    A tensor is what the functions below can observe of it: its dtype,
    its shape and the element found at a multi-index.  Two tensors are
    compared by [same]: equal dtype, shape and row-major contents. *)

Record tensor (V : Type) := Tensor {
  dtype_of : dtype;
  shape : list nat;
  item : list nat → V
}.
Arguments Tensor {V} _ _ _.
Arguments dtype_of {V} _.
Arguments shape {V} _.
Arguments item {V} _ _.

Definition rank {V} (x : tensor V) : nat := length (shape x).

(** All multi-indices of a shape, in row-major order. *)
Fixpoint indices (sh : list nat) : list (list nat) :=
  match sh with
  | [] => [[]]
  | n :: sh' => i ← seq 0 n; (cons i) <$> indices sh'
  end.

Definition values {V} (x : tensor V) : list V := item x <$> indices (shape x).

Definition same {V} (x y : tensor V) : Prop :=
  dtype_of x = dtype_of y ∧ shape x = shape y ∧ values x = values y.

(** The 1-D tensor [[a, b, c, ...]]. *)
Definition vector `{Backend V} (d : dtype) (l : list V) : tensor V :=
  Tensor d [length l] (λ idx, nth (idx !!! 0) l vzero).

(** ** Python values that the functions take

    [axis: Optional[Union[int, Sequence[int]]]], with the two sequences
    Python tells apart kept apart. *)
Inductive axis_arg :=
  | AxNone
  | AxInt (a : Z)
  | AxTuple (l : list Z)
  | AxList (l : list Z).

(** [axis == ()] *)
Definition eq_empty_tuple (axis : axis_arg) : bool :=
  match axis with AxTuple [] => true | _ => false end.

(** [axis == []] *)
Definition eq_empty_list (axis : axis_arg) : bool :=
  match axis with AxList [] => true | _ => false end.

(** [not axis] *)
Definition py_not (axis : axis_arg) : bool :=
  match axis with
  | AxNone => true
  | AxInt a => (a =? 0)%Z
  | AxTuple l | AxList l => match l with [] => true | _ => false end
  end.

(** [axis != 0] *)
Definition ne_zero (axis : axis_arg) : bool :=
  match axis with AxInt a => negb (a =? 0)%Z | _ => true end.

(** [x.shape[a]]: Python indexing, negative indices count from the end. *)
Definition py_index (sh : list nat) (a : Z) : result nat :=
  let n := Z.of_nat (length sh) in
  if (0 <=? a)%Z && (a <? n)%Z then Ok (sh !!! Z.to_nat a)
  else if (- n <=? a)%Z && (a <? 0)%Z then Ok (sh !!! Z.to_nat (n + a))
  else Raise IndexError.

(** [list(range(n))] *)
Definition range (n : nat) : list Z := Z.of_nat <$> seq 0 n.

(** The caller's output buffer: [None] when no [out=] is passed, else the
    tensor the buffer holds. *)
Definition buffer (V : Type) := option (tensor V).

(** Modelled from the spec: [ivy.exists] is not among the sources; it
    tells whether the optional argument was passed. *)
Definition exists_ {V} (out : buffer V) : bool :=
  match out with Some _ => true | None => false end.

(** Storing [r] in the buffer [out]: the object handed back is the
    buffer, which now holds [r] (its prior contents are overwritten in
    full).  Without a buffer the result is handed back itself.  A
    primitive that refuses a buffer does so before it stores: see
    [accepts_out].  The scans are taken to store into any buffer; what is
    stated of the buffer of a scan is stated of a call that returns, or
    for a buffer of the dtype of the result. *)
Definition write_out {V} (out : buffer V) (r : tensor V) : tensor V * buffer V :=
  match out with
  | Some _ => (r, Some r)
  | None => (r, None)
  end.

(** [torch.amin] and [torch.amax] take a buffer only if it has the dtype
    of the input. *)
Definition accepts_out {V} (out : buffer V) (d : dtype) : bool :=
  match out with
  | Some buf => bool_decide (dtype_of buf = d)
  | None => true
  end.

(** Modelled from the spec: [ivy.inplace_update] is not among the sources;
    it writes the full result into the buffer and hands the buffer
    back. *)
Definition inplace_update {V} (out : buffer V) (r : tensor V) : tensor V * buffer V :=
  write_out out r.

(** ** The tensor engine

    The primitives of torch that the source calls.  A dimension argument
    may be negative; it is wrapped against the rank, and a dimension out
    of range raises.  Which dtypes a primitive refuses is not part of the
    model. *)
Module torch.
Section primitives.
Context {V : Type} `{Backend V}.

(** A dimension in [[-r, r)] names axis [d mod r]; a 0-d tensor accepts
    [-1] and [0]. *)
Definition wrap_dim (r : nat) (d : Z) : result nat :=
  let n := Z.of_nat (Nat.max r 1) in
  if (- n <=? d)%Z && (d <? n)%Z then Ok (Z.to_nat (d mod n)) else Raise IndexError.

Fixpoint wrap_each (r : nat) (dims : list Z) : result (list nat) :=
  match dims with
  | [] => Ok []
  | d :: dims' => k ← wrap_dim r d; ks ← wrap_each r dims'; Ok (k :: ks)
  end.

(** The dimensions of a reduction: each one wrapped, none twice.  torch
    reads an empty list of dimensions as every dimension, which is why
    the source tests [axis == ()] before it calls a reduction. *)
Definition wrap_dims (r : nat) (dims : list Z) : result (list nat) :=
  ks ← wrap_each r dims;
  if bool_decide (NoDup ks)
  then Ok (match ks with [] => seq 0 r | _ => ks end)
  else Raise RuntimeError.

Definition dims_of (dim : axis_arg) : list Z :=
  match dim with
  | AxNone => []
  | AxInt a => [a]
  | AxTuple l | AxList l => l
  end.

(** *** Rearranging *)

Definition flip_index (sh : list nat) (k : nat) (idx : list nat) : list nat :=
  <[k := sh !!! k - 1 - idx !!! k]> idx.

(** [torch.flip(x, dims=(dim,))] *)
Definition flip (x : tensor V) (dim : Z) : result (tensor V) :=
  k ← wrap_dim (rank x) dim;
  Ok (Tensor (dtype_of x) (shape x) (λ idx, item x (flip_index (shape x) k idx))).

Definition swap (i j : nat) (l : list nat) : list nat :=
  <[i := l !!! j]> (<[j := l !!! i]> l).

(** [torch.transpose(x, dim0, dim1)] *)
Definition transpose (x : tensor V) (dim0 dim1 : Z) : result (tensor V) :=
  i ← wrap_dim (rank x) dim0;
  j ← wrap_dim (rank x) dim1;
  Ok (Tensor (dtype_of x) (swap i j (shape x)) (λ idx, item x (swap i j idx))).

(** [x[..., -1:]]: the last slice along the last axis (none when that
    axis is empty).  A 0-d tensor cannot be sliced. *)
Definition slice_last (x : tensor V) : result (tensor V) :=
  match rank x with
  | 0 => Raise IndexError
  | S p =>
      let n := shape x !!! p in
      Ok (Tensor (dtype_of x) (<[p := Nat.min n 1]> (shape x))
            (λ idx, item x (<[p := idx !!! p + (n - 1)]> idx)))
  end.

(** [x[..., :-1]]: all but the last slice along the last axis. *)
Definition slice_init (x : tensor V) : result (tensor V) :=
  match rank x with
  | 0 => Raise IndexError
  | S p =>
      Ok (Tensor (dtype_of x) (<[p := shape x !!! p - 1]> (shape x)) (item x))
  end.

Definition full (sh : list nat) (v : V) (d : dtype) : tensor V :=
  Tensor d sh (λ _, v).

(** [torch.zeros_like(x)], [torch.ones_like(x)] *)
Definition zeros_like (x : tensor V) : tensor V := full (shape x) vzero (dtype_of x).
Definition ones_like (x : tensor V) : tensor V := full (shape x) vone (dtype_of x).

(** [torch.cat((a, b), -1)] (also spelled [torch.concat]): the operands
    agree in rank and in every extent but the last.  The source only
    joins slices of one tensor, so the dtypes agree and the result has
    that dtype. *)
Definition cat (a b : tensor V) : result (tensor V) :=
  match rank a with
  | 0 => Raise RuntimeError
  | S p =>
      if bool_decide (<[p := 0]> (shape a) = <[p := 0]> (shape b)) then
        let n := shape a !!! p in
        Ok (Tensor (dtype_of a) (<[p := n + shape b !!! p]> (shape a))
              (λ idx, if idx !!! p <? n then item a idx
                      else item b (<[p := idx !!! p - n]> idx)))
      else Raise RuntimeError
  end.

(** [x.type(dtype)] and [x.to(dtype)]: the tensor itself when it already
    has the dtype, else its elements converted. *)
Definition to (x : tensor V) (d : dtype) : tensor V :=
  if bool_decide (dtype_of x = d) then x
  else Tensor d (shape x) (λ idx, cast (dtype_of x) d (item x idx)).

(** [torch.mul(x, s)] with a number [s] *)
Definition mul (x : tensor V) (s : V) : tensor V :=
  Tensor (dtype_of x) (shape x) (λ idx, vmul (item x idx) s).

(** *** Scans: the inclusive, forward cumulative operation *)

Fixpoint scan_at (op : V → V → V) (f : nat → V) (i : nat) : V :=
  match i with
  | 0 => f 0
  | S i' => op (scan_at op f i') (f i)
  end.

Definition scan (op : V → V → V) (x : tensor V) (dim : Z) (d : dtype) : result (tensor V) :=
  k ← wrap_dim (rank x) dim;
  Ok (Tensor d (shape x)
        (λ idx, scan_at op (λ j, cast (dtype_of x) d (item x (<[k := j]> idx))) (idx !!! k))).

(** [torch.cumsum(x, dim, dtype=d)] and [torch.cumprod(x, dim, dtype=d)] *)
Definition cumsum (x : tensor V) (dim : Z) (d : dtype) : result (tensor V) :=
  scan vadd x dim d.
Definition cumprod (x : tensor V) (dim : Z) (d : dtype) : result (tensor V) :=
  scan vmul x dim d.

(** The same with [out=out]. *)
Definition cumsum_out (x : tensor V) (dim : Z) (d : dtype) (out : buffer V)
  : result (tensor V * buffer V) :=
  r ← cumsum x dim d; Ok (write_out out r).
Definition cumprod_out (x : tensor V) (dim : Z) (d : dtype) (out : buffer V)
  : result (tensor V * buffer V) :=
  r ← cumprod x dim d; Ok (write_out out r).

(** *** Reductions

    Reducing the axes [D] of a tensor of shape [sh]: [reduced_shape] is
    the shape that is left, [lane_shape] the extents that are folded, and
    [weave] puts an index of the result and an index of the lane together
    into an index of the input.  [p] counts the axes passed. *)
Fixpoint reduced_shape (p : nat) (sh : list nat) (D : list nat) (keep : bool) : list nat :=
  match sh with
  | [] => []
  | n :: sh' =>
      if bool_decide (p ∈ D)
      then (if keep then [1] else []) ++ reduced_shape (S p) sh' D keep
      else n :: reduced_shape (S p) sh' D keep
  end.

Fixpoint lane_shape (p : nat) (sh : list nat) (D : list nat) : list nat :=
  match sh with
  | [] => []
  | n :: sh' =>
      if bool_decide (p ∈ D) then n :: lane_shape (S p) sh' D
      else lane_shape (S p) sh' D
  end.

Fixpoint weave (p : nat) (sh : list nat) (D : list nat) (keep : bool)
    (ridx sub : list nat) : list nat :=
  match sh with
  | [] => []
  | _ :: sh' =>
      if bool_decide (p ∈ D)
      then hd 0 sub :: weave (S p) sh' D keep (if keep then tl ridx else ridx) (tl sub)
      else hd 0 ridx :: weave (S p) sh' D keep (tl ridx) sub
  end.

(** The elements of the lane that ends up at index [ridx] of the result. *)
Definition lane (x : tensor V) (D : list nat) (keep : bool) (ridx : list nat) : list V :=
  (λ sub, item x (weave 0 (shape x) D keep ridx sub)) <$> indices (lane_shape 0 (shape x) D).

Definition reduce (f : list V → V) (x : tensor V) (D : list nat) (keep : bool)
    (d : dtype) : tensor V :=
  Tensor d (reduced_shape 0 (shape x) D keep) (λ ridx, f (lane x D keep ridx)).

Definition sum_lane (l : list V) : V := foldl vadd vzero l.
Definition prod_lane (l : list V) : V := foldl vmul vone l.
Definition min_lane (l : list V) : V :=
  match l with [] => vnan | v :: l' => foldl vmin v l' end.
Definition max_lane (l : list V) : V :=
  match l with [] => vnan | v :: l' => foldl vmax v l' end.
Definition mean_lane (l : list V) : V := vdiv (sum_lane l) (of_nat (length l)).

(** The variance of a lane of [n] elements divides the sum of squared
    deviations by [n - 1] (unbiased) or [n].  With a divisor that is not
    positive torch divides zero by zero: the result is NaN. *)
Definition squared_deviations (l : list V) : V :=
  let m := mean_lane l in
  sum_lane ((λ v, vmul (vsub v m) (vsub v m)) <$> l).
Definition var_lane (unbiased : bool) (l : list V) : V :=
  let n := length l in
  let c := if unbiased then 1 else 0 in
  if n <=? c then vnan
  else vdiv (squared_deviations l) (of_nat (n - c)).
Definition std_lane (unbiased : bool) (l : list V) : V := vsqrt (var_lane unbiased l).

(** [torch.sum(input=x, dim=dim, dtype=d, keepdim=keepdim)]; without
    [dim], every dimension. *)
Definition sum (x : tensor V) (dim : axis_arg) (d : dtype) (keepdim : bool)
  : result (tensor V) :=
  D ← wrap_dims (rank x) (dims_of dim);
  Ok (reduce sum_lane (to x d) D keepdim d).

(** [torch.prod(x, dim, keepdim=keepdim, dtype=d)] with one dimension, and
    [torch.prod(input=x, dtype=d)] over all of them. *)
Definition prod (x : tensor V) (dim : Z) (keepdim : bool) (d : dtype) : result (tensor V) :=
  k ← wrap_dim (rank x) dim;
  Ok (reduce prod_lane (to x d) [k] keepdim d).
Definition prod_all (x : tensor V) (d : dtype) : tensor V :=
  reduce prod_lane (to x d) (seq 0 (rank x)) false d.

(** What [torch.amin] and [torch.amax] ask of a tensor without elements,
    before they look at the dimensions otherwise: a dimension must be
    given (RuntimeError), and each one given, in turn, must be in range
    and of an extent other than 0 (IndexError): an empty lane has no
    minimum. *)
Fixpoint check_each (x : tensor V) (dims : list Z) : result unit :=
  match dims with
  | [] => Ok ()
  | d :: dims' =>
      k ← wrap_dim (rank x) d;
      if shape x !!! k =? 0 then Raise IndexError else check_each x dims'
  end.
Definition zero_numel_check_dims (x : tensor V) (dims : list Z) : result unit :=
  match dims with
  | [] => Raise RuntimeError
  | _ => check_each x dims
  end.

(** [torch.amin] and [torch.amax], in the order of their checks: the
    buffer must have the dtype of the input (RuntimeError), a tensor
    without elements must pass [zero_numel_check_dims], then the
    dimensions are wrapped. *)
Definition extremum (f : list V → V) (x : tensor V) (dim : axis_arg) (keepdim : bool)
    (out : buffer V) : result (tensor V * buffer V) :=
  if negb (accepts_out out (dtype_of x)) then Raise RuntimeError
  else
    _ ← (if bool_decide (0 ∈ shape x) then zero_numel_check_dims x (dims_of dim)
         else Ok ());
    D ← wrap_dims (rank x) (dims_of dim);
    Ok (write_out out (reduce f x D keepdim (dtype_of x))).
Definition amin := extremum min_lane.
Definition amax := extremum max_lane.

(** [torch.mean(x, dim=dim, keepdim=keepdim, out=out)].  torch refuses a
    tensor that is not floating-point (RuntimeError) before it looks at
    the dimensions.  With a buffer the mean is taken in the dtype of the
    buffer, which must be floating-point as well. *)
Definition mean (x : tensor V) (dim : axis_arg) (keepdim : bool) (out : buffer V)
  : result (tensor V * buffer V) :=
  if negb (is_floating (dtype_of x)) then Raise RuntimeError
  else
    D ← wrap_dims (rank x) (dims_of dim);
    match out with
    | None => Ok (reduce mean_lane x D keepdim (dtype_of x), None)
    | Some buf =>
        if is_floating (dtype_of buf) then
          let r := reduce mean_lane (to x (dtype_of buf)) D keepdim (dtype_of buf) in
          Ok (r, Some r)
        else Raise RuntimeError
    end.

(** [torch.var(x, dim=dim, unbiased=unbiased, keepdim=keepdim)] and
    [torch.std].  torch refuses a tensor that is not floating-point
    (RuntimeError) before it looks at the dimensions. *)
Definition var (x : tensor V) (dim : list Z) (unbiased keepdim : bool) : result (tensor V) :=
  if negb (is_floating (dtype_of x)) then Raise RuntimeError
  else
    D ← wrap_dims (rank x) dim;
    Ok (reduce (var_lane unbiased) x D keepdim (dtype_of x)).
Definition std (x : tensor V) (dim : list Z) (unbiased keepdim : bool) : result (tensor V) :=
  if negb (is_floating (dtype_of x)) then Raise RuntimeError
  else
    D ← wrap_dims (rank x) dim;
    Ok (reduce (std_lane unbiased) x D keepdim (dtype_of x)).

(** [torch.nansum(x, dim=dim, keepdim=keepdim, dtype=d)]: the sum with
    every NaN left out; [isnan] tells which elements are NaN.  Without a
    dtype torch sums integers and booleans as int64 and keeps a floating
    dtype. *)
Definition nansum_lane (isnan : V → bool) (l : list V) : V :=
  sum_lane (List.filter (λ v, negb (isnan v)) l).
Definition nansum (isnan : V → bool) (x : tensor V) (dim : axis_arg) (keepdim : bool)
    (d : option dtype) : result (tensor V) :=
  let d :=
    match d with
    | Some d => d
    | None => match dtype_kind (dtype_of x) with KFloat => dtype_of x | _ => int64 end
    end in
  D ← wrap_dims (rank x) (dims_of dim);
  Ok (reduce (nansum_lane isnan) (to x d) D keepdim d).

End primitives.
End torch.

(** ** What the source takes from the rest of ivy *)

(** Modelled from the spec: [ivy.as_native_dtype] is not among the sources;
    it names the torch dtype of an ivy dtype, and [None] stays [None].
    Both sides share the type [dtype] here. *)
Definition as_native_dtype {A} (dt : A) : A := dt.

(** Modelled from the spec: [ivy.infer_default_dtype] (the
    [default_dtype_for(dtype)] of the backend capability) is not among
    the sources; it gives the default dtype of the kind of its argument,
    and a boolean dtype stays. *)
Definition infer_default_dtype {V} `{Backend V} (dt : dtype) : dtype :=
  match dtype_kind dt with
  | KFloat => default_float_dtype
  | KUint => default_uint_dtype
  | KInt => default_int_dtype
  | KBool => dt
  end.

(** Modelled from the spec: [ivy.full(shape, fill_value, dtype=dtype)] is
    not among the sources; it is the tensor of that shape and dtype
    holding the value at every position. *)
Definition ivy_full {V} `{Backend V} (sh : list nat) (v : V) (dt : dtype) : tensor V :=
  torch.full sh v dt.

(** A [for] loop over a sequence, threading the variable the body
    assigns. *)
Fixpoint for_in {A S} (l : list A) (body : S → A → result S) (s : S) : result S :=
  match l with
  | [] => Ok s
  | i :: l' => s' ← body s i; for_in l' body s'
  end.

(** ** ivy/functional/backends/torch/statistical.py *)
Module statistical.
Section functions.
Context {V : Type} `{Backend V}.

Definition min (x : tensor V) (axis : axis_arg) (keepdims : bool) (out : buffer V)
  : result (tensor V * buffer V) :=
  if eq_empty_tuple axis then
    if exists_ out then Ok (inplace_update out x)
    else Ok (x, out)
  else if negb keepdims && py_not axis && ne_zero axis then
    torch.amin x AxNone false out
  else torch.amin x axis keepdims out.

Definition max (x : tensor V) (axis : axis_arg) (keepdims : bool) (out : buffer V)
  : result (tensor V * buffer V) :=
  if eq_empty_tuple axis then
    if exists_ out then Ok (inplace_update out x)
    else Ok (x, out)
  else if negb keepdims && py_not axis && ne_zero axis then
    torch.amax x AxNone false out
  else torch.amax x axis keepdims out.

Definition mean (x : tensor V) (axis : axis_arg) (keepdims : bool) (out : buffer V)
  : result (tensor V * buffer V) :=
  let axis :=
    match axis with
    | AxNone => let num_dims := length (shape x) in AxList (range num_dims)
    | _ => axis
    end in
  if eq_empty_tuple axis || eq_empty_list axis then
    if exists_ out then Ok (inplace_update out x)
    else Ok (x, out)
  else torch.mean x axis keepdims out.

Definition _infer_dtype (dt : dtype) : dtype :=
  let default_dtype := infer_default_dtype dt in
  if bool_decide (default_dtype ∈ valid_dtypes) then
    if dtype_bits dt <? dtype_bits default_dtype then as_native_dtype default_dtype
    else as_native_dtype dt
  else as_native_dtype dt.

(** The two lines every function with a [dtype] argument starts with:
    [dtype = ivy.as_native_dtype(dtype)], then
    [if dtype is None: dtype = _infer_dtype(x.dtype)]. *)
Definition resolve_dtype (x : tensor V) (dt : option dtype) : dtype :=
  match as_native_dtype dt with
  | None => _infer_dtype (dtype_of x)
  | Some d => d
  end.

Definition prod (x : tensor V) (axis : axis_arg) (dt : option dtype) (keepdims : bool)
  : result (tensor V) :=
  let dt := resolve_dtype x dt in
  if eq_empty_tuple axis then Ok (torch.to x dt)
  else
    match axis with
    | AxNone => Ok (torch.prod_all x dt)
    | AxTuple l | AxList l => for_in l (λ x i, torch.prod x i keepdims dt) x
    | AxInt a => torch.prod x a keepdims dt
    end.

(** [axis = (axis,) if isinstance(axis, int) else tuple(axis)] *)
Definition as_tuple (axis : axis_arg) : list Z :=
  match axis with
  | AxInt a => [a]
  | AxTuple l | AxList l => l
  | AxNone => []
  end.

(** [size = 1], then [for a in axis: size *= x.shape[a]] *)
Definition reduced_size (x : tensor V) (axis : list Z) : result nat :=
  for_in axis (λ size a, n ← py_index (shape x) a; Ok (size * n)) 1.

Definition std (x : tensor V) (axis : axis_arg) (correction : Q) (keepdims : bool)
    (out : buffer V) : result (tensor V * buffer V) :=
  let axis :=
    match axis with
    | AxNone => AxList (range (length (shape x)))
    | _ => axis
    end in
  if eq_empty_tuple axis then Ok (x, out)
  else
    let axis := as_tuple axis in
    if Qeq_bool correction 0 then
      ret ← torch.std x axis false keepdims; Ok (ret, out)
    else if Qeq_bool correction 1 then
      ret ← torch.std x axis true keepdims; Ok (ret, out)
    else
      size ← reduced_size x axis;
      let size := inject_Z (Z.of_nat size) in
      if Qle_bool (size - correction) 0 then
        ret ← torch.std x axis false keepdims;
        let ret := ivy_full (shape ret) vnan (dtype_of ret) in
        Ok (ret, out)
      else
        ret ← torch.std x axis false keepdims;
        let ret := torch.mul ret (vsqrt (of_Q (size / (size - correction)))) in
        Ok (ret, out).

Definition sum (x : tensor V) (axis : axis_arg) (dt : option dtype) (keepdims : bool)
    (out : buffer V) : result (tensor V * buffer V) :=
  let dt := resolve_dtype x dt in
  if eq_empty_tuple axis then Ok (torch.to x dt, out)
  else
    let axis := match axis with AxList l => AxTuple l | _ => axis end in
    match axis with
    | AxNone => ret ← torch.sum x AxNone dt false; Ok (ret, out)
    | _ => ret ← torch.sum x axis dt keepdims; Ok (ret, out)
    end.

Definition var (x : tensor V) (axis : axis_arg) (correction : Q) (keepdims : bool)
    (out : buffer V) : result (tensor V * buffer V) :=
  let axis :=
    match axis with
    | AxNone => AxList (range (length (shape x)))
    | _ => axis
    end in
  if eq_empty_tuple axis then Ok (x, out)
  else
    let axis := as_tuple axis in
    if Qeq_bool correction 0 then
      ret ← torch.var x axis false keepdims; Ok (ret, out)
    else if Qeq_bool correction 1 then
      ret ← torch.var x axis true keepdims; Ok (ret, out)
    else
      size ← reduced_size x axis;
      let size := inject_Z (Z.of_nat size) in
      if Qle_bool (size - correction) 0 then
        ret ← torch.var x axis false keepdims;
        let ret := ivy_full (shape ret) vnan (dtype_of ret) in
        Ok (ret, out)
      else
        ret ← torch.var x axis false keepdims;
        Ok (torch.to (torch.mul ret (of_Q (size / (size - correction)))) (dtype_of x), out).

Definition cumprod (x : tensor V) (axis : Z) (exclusive reverse : bool)
    (dt : option dtype) (out : buffer V) : result (tensor V * buffer V) :=
  let dt := resolve_dtype x dt in
  if negb (exclusive || reverse) then torch.cumprod_out x axis dt out
  else if exclusive && reverse then
    f ← torch.flip x axis;
    x ← torch.cumprod f axis dt;
    x ← torch.transpose x axis (-1);
    l ← torch.slice_last x;
    i ← torch.slice_init x;
    x ← torch.cat (torch.ones_like l) i;
    x ← torch.transpose x axis (-1);
    ret ← torch.flip x axis;
    Ok (ret, out)
  else if exclusive then
    x ← torch.transpose x axis (-1);
    l ← torch.slice_last x;
    i ← torch.slice_init x;
    x ← torch.cat (torch.ones_like l) i;
    x ← torch.cumprod x (-1) dt;
    ret ← torch.transpose x axis (-1);
    Ok (ret, out)
  else
    f ← torch.flip x axis;
    x ← torch.cumprod f axis dt;
    ret ← torch.flip x axis;
    Ok (ret, out).

Definition cumsum (x : tensor V) (axis : Z) (exclusive reverse : bool)
    (dt : option dtype) (out : buffer V) : result (tensor V * buffer V) :=
  let dt := resolve_dtype x dt in
  if exclusive || reverse then
    res ←
      (if exclusive && reverse then
         f ← torch.flip x axis;
         x ← torch.cumsum f axis dt;
         x ← torch.transpose x axis (-1);
         l ← torch.slice_last x;
         i ← torch.slice_init x;
         x ← torch.cat (torch.zeros_like l) i;
         x ← torch.transpose x axis (-1);
         torch.flip x axis
       else if exclusive then
         x ← torch.transpose x axis (-1);
         l ← torch.slice_last x;
         i ← torch.slice_init x;
         x ← torch.cat (torch.zeros_like l) i;
         x ← torch.cumsum x (-1) dt;
         torch.transpose x axis (-1)
       else
         f ← torch.flip x axis;
         x ← torch.cumsum f axis dt;
         torch.flip x axis);
    if exists_ out then Ok (inplace_update out res)
    else Ok (res, out)
  else torch.cumsum_out x axis dt out.

End functions.
End statistical.

(** ** ivy/functional/backends/torch/extensions/elementwise.py *)
Module elementwise.
Section functions.
Context {V : Type} `{Backend V}.

(** What a Python function hands back: a tensor, or [None] when it runs
    off its end. *)
Inductive returned :=
  | PyNone
  | PyTensor (t : tensor V).

(** [torch.trapezoid] is taken as it is: [trapz] only chooses how to call
    it.  The first form is [torch.trapezoid(y, dx=dx, dim=axis)], the
    second [torch.trapezoid(y, x=x, dim=axis)]. *)
Variable trapezoid_dx : tensor V → Q → option Z → result (tensor V).
Variable trapezoid_x : tensor V → tensor V → option Z → result (tensor V).

Definition trapz (y : tensor V) (x : option (tensor V)) (dx : option Q)
    (axis : option Z) (out : buffer V) : result returned :=
  match x with
  | None =>
      let dx := match dx with Some dx => dx | None => 1%Q end in
      PyTensor <$> trapezoid_dx y dx axis
  | Some x =>
      match dx with
      | Some _ =>
          (* the exception is built and dropped: there is no [raise] *)
          let _ := TypeError "trapezoid() received an invalid combination of arguments" in
          Ok PyNone
      | None => PyTensor <$> trapezoid_x y x axis
      end
  end.

(** [torch.isnan] on an element. *)
Variable isnan : V → bool.

Definition nansum (x : tensor V) (axis : axis_arg) (dt : option dtype) (keepdims : bool)
    (out : buffer V) : result (tensor V) :=
  torch.nansum isnan x axis keepdims dt.

End functions.
End elementwise.

(** ** ivy/array/extensions/elementwise.py *)
Module array_extensions.

(** A keyword argument of a call: left out, or passed. *)
Inductive keyword (A : Type) :=
  | Omitted
  | Passed (a : A).
Arguments Omitted {A}.
Arguments Passed {A} a.

Definition or_default {A} (k : keyword A) (default : A) : A :=
  match k with Omitted => default | Passed a => a end.

Section methods.
Context {V : Type} `{Backend V}.
Variable trapezoid_dx : tensor V → Q → option Z → result (tensor V).
Variable trapezoid_x : tensor V → tensor V → option Z → result (tensor V).

(** Modelled from the spec: [ivy.trapz] is not among the sources; the
    unified API forwards the call, with its arguments, to the function of
    the backend in use and hands back what that returns. *)
Definition ivy_trapz (y : tensor V) (x : option (tensor V)) (dx : option Q)
    (axis : option Z) (out : buffer V) : result (elementwise.returned (V := V)) :=
  elementwise.trapz trapezoid_dx trapezoid_x y x dx axis out.

(** The method [trapz] of an array, with the defaults of its signature:
    [x=None], [dx=1.0], [axis=-1], [out=None]. *)
Definition trapz (self : tensor V) (x : keyword (option (tensor V)))
    (dx : keyword (option Q)) (axis : keyword (option Z)) (out : keyword (buffer V))
  : result (elementwise.returned (V := V)) :=
  let x := or_default x None in
  let dx := or_default dx (Some 1%Q) in
  let axis := or_default axis (Some (-1)%Z) in
  let out := or_default out None in
  ivy_trapz self x dx axis out.

End methods.
End array_extensions.

(** ** ivy_tests/test_ivy/test_frontends/test_torch/test_indexing_slicing_joining_mutating_ops.py *)
Module test_strategies.

(** What [_arrays_idx_n_dtypes] draws before it builds the arrays. *)
Record draws := Draws {
  num_dims : nat;
  num_arrays : nat;
  common_shape : list nat;
  unique_idx : nat;
  unique_dims : list nat;
  input_dtypes : list dtype
}.

(** Modelled from the spec: [helpers.ints] and [helpers.lists] are not
    among the sources; they draw an integer from [min_value] to
    [max_value], both included, and a list of [min_size] to [max_size]
    draws of [arg].  These are the bounds they put on the draws. *)
Definition drawn (d : draws) : Prop :=
  1 ≤ num_dims d ≤ 4
  ∧ 2 ≤ num_arrays d ≤ 4
  ∧ length (common_shape d) = num_dims d - 1
  ∧ Forall (λ n, 2 ≤ n ≤ 3) (common_shape d)
  ∧ unique_idx d ≤ num_dims d - 1
  ∧ length (unique_dims d) = num_arrays d
  ∧ Forall (λ n, 2 ≤ n ≤ 3) (unique_dims d).

(** [common_shape[:unique_idx] + [ud] + common_shape[unique_idx:]] *)
Definition array_shape (d : draws) (ud : nat) : list nat :=
  take (unique_idx d) (common_shape d) ++ [ud] ++ drop (unique_idx d) (common_shape d).

(** The shapes of the arrays of [xs], one for each pair of
    [zip(unique_dims, input_dtypes)]. *)
Definition _arrays_idx_n_dtypes (d : draws) : list (list nat * dtype) * list dtype * nat :=
  ((λ p, (array_shape d p.1, p.2)) <$> zip (unique_dims d) (input_dtypes d),
   input_dtypes d, unique_idx d).

(** Modelled from the spec: [helpers.ints] is not among the sources (see
    [drawn]).  What [_array_idxes_n_dtype] asks of [idxes]: [num_dims]
    integers of [[0, num_dims - 1]], none twice. *)
Definition idxes_drawn (num_dims : nat) (idxes : list nat) : Prop :=
  length idxes = num_dims ∧ Forall (λ i, 0 ≤ i ≤ num_dims - 1) idxes ∧ NoDup idxes.

End test_strategies.

(** ** An engine with exact arithmetic

    Rational numbers and one NaN; nothing is rounded and nothing
    overflows.  Converting to an integer or boolean dtype truncates
    towards zero; division by zero and the square root of a negative
    number give NaN.  It serves to run the functions on concrete
    tensors. *)
Module exact.

Inductive num :=
  | Num (q : Qc)
  | NaN.

Definition lift2 (f : Qc → Qc → Qc) (a b : num) : num :=
  match a, b with
  | Num p, Num q => Num (f p q)
  | _, _ => NaN
  end.

Definition div (a b : num) : num :=
  match a, b with
  | Num p, Num q => if Qeq_bool q 0 then NaN else Num (p / q)
  | _, _ => NaN
  end.

(** The square root, rounded down to a multiple of [1/den]. *)
Definition sqrt (a : num) : num :=
  match a with
  | Num q =>
      if (Qnum q <? 0)%Z then NaN
      else Num (Q2Qc (Z.sqrt (Qnum q * Zpos (Qden q)) # Qden q))
  | NaN => NaN
  end.

Definition smaller (p q : Qc) : Qc := if Qle_bool p q then p else q.
Definition larger (p q : Qc) : Qc := if Qle_bool p q then q else p.

Definition truncate (q : Qc) : Qc := Q2Qc (inject_Z (Z.quot (Qnum q) (Zpos (Qden q)))).

Definition convert (src dst : dtype) (a : num) : num :=
  match a with
  | Num q =>
      match dtype_kind dst with
      | KFloat => Num q
      | KBool => Num (if Qeq_bool q 0 then 0%Qc else 1%Qc)
      | KInt | KUint => Num (truncate q)
      end
  | NaN => NaN
  end.

#[global] Instance backend : Backend num := {|
  vzero := Num 0%Qc;
  vone := Num 1%Qc;
  vnan := NaN;
  vadd := lift2 Qcplus;
  vsub := lift2 Qcminus;
  vmul := lift2 Qcmult;
  vdiv := div;
  vsqrt := sqrt;
  vmin := lift2 smaller;
  vmax := lift2 larger;
  of_Q := λ q, Num (Q2Qc q);
  cast := convert;
  default_float_dtype := float32;
  default_int_dtype := int32;
  default_uint_dtype := uint32;
  valid_dtypes := [int8; int16; int32; int64; uint8; bfloat16; float16; float32; float64; bool_]
|}.

(** An integer as an element. *)
Definition int (z : Z) : num := Num (Q2Qc (inject_Z z)).

(** The row-major contents of a tensor as fractions, for comparing. *)
Definition fractions (l : list num) : list (option Q) :=
  (λ a, match a with Num q => Some (this q) | NaN => None end) <$> l.

Definition isnan (a : num) : bool :=
  match a with NaN => true | Num _ => false end.

End exact.

(** ** What the theorems speak of *)

(** A call returns, without a buffer, a tensor of shape [sh] holding [l]
    in row-major order. *)
Definition gives {V} (m : result (tensor V * buffer V)) (sh : list nat) (l : list V)
  : Prop :=
  ∃ r, m = Ok (r, None) ∧ shape r = sh ∧ values r = l.

(** The number of elements of a shape. *)
Definition product (l : list nat) : nat := foldr Nat.mul 1 l.

(** Following the spec's words: the product of the extents of a shape
    along the axes [D]. *)
Definition extent_product (sh : list nat) (D : list nat) : nat :=
  product ((λ k, sh !!! k) <$> D).

(** The axes a call names and the dimensions they stand for: each one in
    range of the rank, none named twice. *)
Definition names_axes {V} (x : tensor V) (l : list Z) (D : list nat) : Prop :=
  Forall2 (λ a k, torch.wrap_dim (rank x) a = Ok k ∧ k < rank x) l D ∧ NoDup D.

(** The tuple of axes [std] and [var] work with, once an absent axis has
    become every axis. *)
Definition axes_of {V} (x : tensor V) (axis : axis_arg) : list Z :=
  match axis with
  | AxNone => range (length (shape x))
  | _ => statistical.as_tuple axis
  end.

Section specifications.
Context {V : Type} `{Backend V}.

(** Following the spec's words: the cumulative operation taken from the
    far end of a lane.  [suffix_fold op f i m] combines the [m + 1]
    elements [f (i + m)], ..., [f (i + 1)], [f i], in that order. *)
Fixpoint suffix_fold (op : V → V → V) (f : nat → V) (i m : nat) : V :=
  match m with
  | 0 => f i
  | S m' => op (suffix_fold op f (S i) m') (f i)
  end.

(** Following the spec's words: what a scan with the two flags leaves at
    position [i] of a lane [g] of [n] elements.  [c] converts an element
    to the output dtype, [e] is the identity element.  An exclusive scan
    is the inclusive one of the lane shifted by one position, with the
    identity element coming in. *)
Definition lane_scan (op : V → V → V) (e : V) (c : V → V) (g : nat → V)
    (exclusive reverse : bool) (n i : nat) : V :=
  match exclusive, reverse with
  | false, false => torch.scan_at op (λ j, c (g j)) i
  | false, true => suffix_fold op (λ j, c (g j)) i (n - 1 - i)
  | true, false =>
      torch.scan_at op (λ j, c (match j with 0 => e | S j' => g j' end)) i
  | true, true =>
      if S i <? n then suffix_fold op (λ j, c (g j)) (S i) (n - 2 - i) else e
  end.

(** The tensor that [cumsum] and [cumprod] build, for the operation [op]
    and its identity element [e], before [out] is looked at. *)
Definition emulated (op : V → V → V) (e : V) (x : tensor V) (axis : Z)
    (exclusive reverse : bool) (dt : dtype) : result (tensor V) :=
  if negb (exclusive || reverse) then torch.scan op x axis dt
  else if exclusive && reverse then
    f ← torch.flip x axis;
    x ← torch.scan op f axis dt;
    x ← torch.transpose x axis (-1);
    l ← torch.slice_last x;
    i ← torch.slice_init x;
    x ← torch.cat (torch.full (shape l) e (dtype_of l)) i;
    x ← torch.transpose x axis (-1);
    torch.flip x axis
  else if exclusive then
    x ← torch.transpose x axis (-1);
    l ← torch.slice_last x;
    i ← torch.slice_init x;
    x ← torch.cat (torch.full (shape l) e (dtype_of l)) i;
    x ← torch.scan op x (-1) dt;
    torch.transpose x axis (-1)
  else
    f ← torch.flip x axis;
    x ← torch.scan op f axis dt;
    torch.flip x axis.

(** The identity padded in front of all but the last slice: the tensor
    that the scans shift. *)
Definition shifted (e : V) (t : tensor V) (p : nat) : tensor V :=
  Tensor (dtype_of t) (shape t)
    (λ idx, if idx !!! p <? Nat.min (shape t !!! p) 1 then e
            else item t (<[p := idx !!! p - Nat.min (shape t !!! p) 1]> idx)).

(** What [var] and [std] compute once the axes are known to name the
    dimensions [D]: the four branches on [correction], with [native]
    standing for [torch.var] or [torch.std] on a lane and [scale] for
    what the custom branch multiplies with. *)
Definition estimator (native : bool → list V → V) (scale : Q → V)
    (x : tensor V) (D : list nat) (correction : Q) (keepdims : bool) : tensor V :=
  let size := inject_Z (Z.of_nat (extent_product (shape x) D)) in
  if Qeq_bool correction 0 then torch.reduce (native false) x D keepdims (dtype_of x)
  else if Qeq_bool correction 1 then torch.reduce (native true) x D keepdims (dtype_of x)
  else if Qle_bool (size - correction) 0 then
    torch.full (torch.reduced_shape 0 (shape x) D keepdims) vnan (dtype_of x)
  else torch.mul (torch.reduce (native false) x D keepdims (dtype_of x))
         (scale (size / (size - correction))%Q).

End specifications.

(** Along axis [k] the exclusive scans hold what the inclusive scans hold
    one position further: forward, position [i + 1] of the exclusive scan
    is position [i] of the inclusive one, and position 0 holds [e];
    reverse, position [i] of the exclusive scan is position [i + 1] of
    the inclusive one, and the last position holds [e]. *)
Definition moved_by_one {V} (e : V) (k : nat)
    (x excl_fwd incl_fwd excl_rev incl_rev : tensor V) : Prop :=
  ∀ idx, idx ∈ indices (shape x) →
    item excl_fwd (<[k := 0]> idx) = e
    ∧ (S (idx !!! k) < shape x !!! k →
       item excl_fwd (<[k := S (idx !!! k)]> idx) = item incl_fwd idx
       ∧ item excl_rev idx = item incl_rev (<[k := S (idx !!! k)]> idx))
    ∧ item excl_rev (<[k := shape x !!! k - 1]> idx) = e.

(** An index of a result with the reduced axes kept, without the
    positions of those axes. *)
Fixpoint drop_kept (p : nat) (sh D ridx : list nat) : list nat :=
  match sh with
  | [] => []
  | _ :: sh' =>
      if bool_decide (p ∈ D) then drop_kept (S p) sh' D (tl ridx)
      else hd 0 ridx :: drop_kept (S p) sh' D (tl ridx)
  end.

(** ** Concrete tensors, over the exact engine *)

(** The 1-D tensor [[1, 2, 3, 4]]. *)
Definition x4 : tensor exact.num :=
  vector float32 [exact.int 1; exact.int 2; exact.int 3; exact.int 4].

(** The 1-D tensor [[3, 1, 2]]. *)
Definition x3 : tensor exact.num :=
  vector int32 [exact.int 3; exact.int 1; exact.int 2].

(** A 2 x 3 x 4 tensor holding 1, 2, ..., 24. *)
Definition x234 : tensor exact.num :=
  Tensor int32 [2; 3; 4]
    (λ idx, exact.int (Z.of_nat (idx !!! 0 * 12 + idx !!! 1 * 4 + idx !!! 2 + 1))).

(** A 2 x 1 tensor. *)
Definition x21 : tensor exact.num :=
  Tensor float32 [2; 1] (λ idx, exact.int (Z.of_nat (idx !!! 0 + 5))).

(** A buffer of one element. *)
Definition buf1 : tensor exact.num := vector float32 [exact.int 0].

(** A buffer of four elements. *)
Definition buf4 : tensor exact.num :=
  vector float32 [exact.int 0; exact.int 0; exact.int 0; exact.int 0].



(** A 2 x 3 x 4 tensor of floats holding 1, 2, ..., 24. *)
Definition f234 : tensor exact.num :=
  Tensor float32 [2; 3; 4]
    (λ idx, exact.int (Z.of_nat (idx !!! 0 * 12 + idx !!! 1 * 4 + idx !!! 2 + 1))).

(** A 0 x 2 tensor: it has no elements. *)
Definition e02 : tensor exact.num := Tensor float32 [0; 2] (λ _, exact.int 0).

(** One draw of [_arrays_idx_n_dtypes]: two arrays of three axes. *)
Definition cat_draws : test_strategies.draws :=
  test_strategies.Draws 3 2 [2; 3] 1 [3; 2] [float32; float64].

(** ** Tactics *)

(** Case analysis on the first call of a chain of calls that may raise. *)
Ltac first_call :=
  match goal with
  | |- context [match ?m with Ok _ => _ | Raise _ => _ end] =>
      lazymatch m with
      | context [match _ with Ok _ => _ | Raise _ => _ end] => fail
      | _ => destruct m; simpl; try reflexivity
      end
  end.

(** Case analysis on whatever a chain of calls branches on next. *)
Ltac next_branch :=
  match goal with
  | |- context [match torch.wrap_dim ?r ?d with _ => _ end] =>
      destruct (torch.wrap_dim r d); simpl
  | |- context [match torch.wrap_dims ?r ?d with _ => _ end] =>
      destruct (torch.wrap_dims r d); simpl
  | |- context [match rank ?x with _ => _ end] => destruct (rank x); simpl
  | |- context [if bool_decide ?P then _ else _] => destruct (bool_decide P); simpl
  end.

(** * Properties *)

(** ** Indices and axes *)

Lemma elem_of_indices (sh idx : list nat) :
  idx ∈ indices sh ↔ Forall2 lt idx sh.
Proof.
  revert idx. induction sh as [|n sh IH]; intros idx; simpl.
  - rewrite list_elem_of_singleton. split.
    + intros ->. constructor.
    + intros Hf. by inversion Hf.
  - rewrite list_elem_of_bind. split.
    + intros (i & Hin & Hi). apply list_elem_of_fmap in Hin as (tl' & -> & Htl).
      apply elem_of_seq in Hi. constructor; [lia|]. by apply IH.
    + intros Hf. inversion Hf as [|i n' idx' sh' Hlt Hrest]; subst.
      exists i. split.
      * apply list_elem_of_fmap. exists idx'. split; [done|]. by apply IH.
      * apply elem_of_seq. lia.
Qed.

Lemma indices_length (sh idx : list nat) :
  idx ∈ indices sh → length idx = length sh.
Proof. rewrite elem_of_indices. apply Forall2_length. Qed.

Lemma indices_bound (sh idx : list nat) (k : nat) :
  idx ∈ indices sh → k < length sh → idx !!! k < sh !!! k.
Proof.
  rewrite elem_of_indices. intros Hf Hk.
  destruct (lookup_lt_is_Some_2 sh k Hk) as [n Hn].
  destruct (Forall2_lookup_r _ _ _ _ _ Hf Hn) as (i & Hi & Hlt).
  by rewrite (list_lookup_total_correct _ _ _ Hi), (list_lookup_total_correct _ _ _ Hn).
Qed.


Lemma indices_insert (sh idx : list nat) (k n j : nat) :
  idx ∈ indices sh → j < n → <[k := j]> idx ∈ indices (<[k := n]> sh).
Proof.
  rewrite !elem_of_indices. intros Hf Hj. revert k.
  induction Hf as [|i m idx sh Him Hf IH]; intros k; [constructor|].
  destruct k as [|k]; simpl; constructor; auto.
Qed.

Lemma insert_total_id (l : list nat) (i : nat) : <[i := l !!! i]> l = l.
Proof.
  apply list_insert_id'. intros Hi. by apply list_lookup_lookup_total_lt.
Qed.

Lemma swap_length (i j : nat) (l : list nat) : length (torch.swap i j l) = length l.
Proof. unfold torch.swap. by rewrite !length_insert. Qed.

Lemma swap_total_l (i j : nat) (l : list nat) :
  i < length l → torch.swap i j l !!! i = l !!! j.
Proof.
  intros Hi. unfold torch.swap.
  rewrite list_lookup_total_insert_eq; [done|by rewrite length_insert].
Qed.

Lemma swap_total_r (i j : nat) (l : list nat) :
  j < length l → torch.swap i j l !!! j = l !!! i.
Proof.
  intros Hj. unfold torch.swap.
  destruct (decide (i = j)) as [->|Hne].
  - rewrite list_lookup_total_insert_eq; [done|by rewrite length_insert].
  - rewrite list_lookup_total_insert_ne by done.
    by rewrite list_lookup_total_insert_eq.
Qed.

Lemma swap_same (i : nat) (l : list nat) : torch.swap i i l = l.
Proof. unfold torch.swap. by rewrite list_insert_insert_eq, insert_total_id. Qed.

Lemma swap_insert_r (i j v : nat) (l : list nat) :
  i < length l → j < length l →
  torch.swap i j (<[j := v]> (torch.swap i j l)) = <[i := v]> l.
Proof.
  intros Hi Hj. destruct (decide (i = j)) as [->|Hne].
  - by rewrite !swap_same.
  - assert (Hv : <[j := v]> (torch.swap i j l) !!! j = v).
    { rewrite list_lookup_total_insert_eq; [done|by rewrite swap_length]. }
    assert (Hw : <[j := v]> (torch.swap i j l) !!! i = l !!! j).
    { rewrite list_lookup_total_insert_ne by done. by apply swap_total_l. }
    unfold torch.swap at 1. rewrite Hv, Hw. unfold torch.swap.
    apply list_eq. intros m.
    rewrite !list_lookup_insert, !length_insert.
    repeat case_decide; try done; try lia.
    destruct_and?. subst m. by rewrite list_lookup_lookup_total_lt.
Qed.

Lemma swap_involutive (i j : nat) (l : list nat) :
  i < length l → j < length l → torch.swap i j (torch.swap i j l) = l.
Proof.
  intros Hi Hj.
  rewrite <- (insert_total_id (torch.swap i j l) j) at 1.
  rewrite swap_insert_r by done.
  rewrite swap_total_r by done. apply insert_total_id.
Qed.

Lemma swap_indices (i j : nat) (sh idx : list nat) :
  i < length sh → j < length sh →
  idx ∈ indices sh → torch.swap i j idx ∈ indices (torch.swap i j sh).
Proof.
  intros Hi Hj Hin. unfold torch.swap.
  apply indices_insert; [apply indices_insert; [done|]|]; by apply indices_bound.
Qed.

(** ** Dimensions *)

Lemma wrap_dim_last (r : nat) : torch.wrap_dim r (-1) = Ok (r - 1).
Proof.
  unfold torch.wrap_dim.
  assert (Hn : (1 ≤ Z.of_nat (Nat.max r 1))%Z) by lia.
  destruct (Z.leb_spec (- Z.of_nat (Nat.max r 1)) (-1)); [|lia].
  destruct (Z.ltb_spec (-1) (Z.of_nat (Nat.max r 1))); [|lia].
  simpl. f_equal.
  rewrite <- (Z.mod_unique (-1) (Z.of_nat (Nat.max r 1)) (-1) (Z.of_nat (Nat.max r 1) - 1));
    [lia|lia|lia].
Qed.

Lemma wrap_dim_lt (r : nat) (d : Z) (k : nat) :
  0 < r → torch.wrap_dim r d = Ok k → k < r.
Proof.
  unfold torch.wrap_dim. intros Hr.
  replace (Nat.max r 1) with r by lia.
  destruct (_ && _); [|discriminate]. intros [= <-].
  pose proof (Z.mod_pos_bound d (Z.of_nat r)). lia.
Qed.

Lemma wrap_dim_of_nat (r k : nat) :
  k < r → torch.wrap_dim r (Z.of_nat k) = Ok k.
Proof.
  intros Hk. unfold torch.wrap_dim.
  replace (Nat.max r 1) with r by lia.
  destruct (Z.leb_spec (- Z.of_nat r) (Z.of_nat k)); [|lia].
  destruct (Z.ltb_spec (Z.of_nat k) (Z.of_nat r)); [|lia].
  simpl. f_equal. rewrite Z.mod_small by lia. lia.
Qed.

(** ** Scans along a lane *)

Section scan_lemmas.
Context {V : Type} `{Backend V}.
Implicit Types (x : tensor V) (op : V → V → V).

Lemma scan_at_ext op (f g : nat → V) (i : nat) :
  (∀ j, j ≤ i → f j = g j) → torch.scan_at op f i = torch.scan_at op g i.
Proof.
  induction i as [|i IH]; intros Hfg; simpl.
  - apply Hfg. lia.
  - rewrite IH, Hfg; [done|lia|]. intros j Hj. apply Hfg. lia.
Qed.

Lemma scan_at_reverse op (g : nat → V) (n i : nat) :
  i < n →
  torch.scan_at op (λ j, g (n - 1 - j)) (n - 1 - i) = suffix_fold op g i (n - 1 - i).
Proof.
  intros Hi. remember (n - 1 - i) as m eqn:Hm.
  revert i Hi Hm. induction m as [|m IH]; intros i Hi Hm; simpl.
  - f_equal. lia.
  - rewrite (IH (S i)) by lia. do 2 f_equal. lia.
Qed.

Lemma flip_index_total (sh idx : list nat) (k : nat) :
  k < length idx → torch.flip_index sh k idx !!! k = sh !!! k - 1 - idx !!! k.
Proof. intros Hk. unfold torch.flip_index. by rewrite list_lookup_total_insert_eq. Qed.

Lemma flip_index_insert (sh idx : list nat) (k j : nat) :
  k < length idx →
  torch.flip_index sh k (<[k := j]> idx) = <[k := sh !!! k - 1 - j]> idx.
Proof.
  intros Hk. unfold torch.flip_index.
  by rewrite list_lookup_total_insert_eq, list_insert_insert_eq.
Qed.

Lemma flip_index_involutive (sh idx : list nat) (k : nat) :
  idx ∈ indices sh → k < length sh →
  torch.flip_index sh k (torch.flip_index sh k idx) = idx.
Proof.
  intros Hin Hk. pose proof (indices_length _ _ Hin) as Hlen.
  pose proof (indices_bound _ _ _ Hin Hk) as Hb.
  unfold torch.flip_index at 2. rewrite flip_index_insert by lia.
  replace (sh !!! k - 1 - (sh !!! k - 1 - idx !!! k)) with (idx !!! k) by lia.
  apply insert_total_id.
Qed.

Lemma flip_index_indices (sh idx : list nat) (k : nat) :
  idx ∈ indices sh → k < length sh → torch.flip_index sh k idx ∈ indices sh.
Proof.
  intros Hin Hk. pose proof (indices_bound _ _ _ Hin Hk) as Hb.
  rewrite <- (insert_total_id sh k) at 2.
  apply indices_insert; [done|lia].
Qed.

End scan_lemmas.

Section emulation.
Context {V : Type} `{Backend V}.
Implicit Types (x : tensor V) (op : V → V → V).

Lemma flip_Ok x (axis : Z) (k : nat) :
  torch.wrap_dim (rank x) axis = Ok k →
  torch.flip x axis
  = Ok (Tensor (dtype_of x) (shape x) (λ idx, item x (torch.flip_index (shape x) k idx))).
Proof. intros Hk. unfold torch.flip. by rewrite Hk. Qed.

Lemma scan_Ok op x (axis : Z) (k : nat) (dt : dtype) :
  torch.wrap_dim (rank x) axis = Ok k →
  torch.scan op x axis dt
  = Ok (Tensor dt (shape x)
          (λ idx, torch.scan_at op
                    (λ j, cast (dtype_of x) dt (item x (<[k := j]> idx))) (idx !!! k))).
Proof. intros Hk. unfold torch.scan. by rewrite Hk. Qed.

Lemma transpose_last_Ok x (axis : Z) (k : nat) :
  torch.wrap_dim (rank x) axis = Ok k →
  torch.transpose x axis (-1)
  = Ok (Tensor (dtype_of x) (torch.swap k (rank x - 1) (shape x))
          (λ idx, item x (torch.swap k (rank x - 1) idx))).
Proof. intros Hk. unfold torch.transpose. by rewrite Hk, wrap_dim_last. Qed.

Lemma slice_last_Ok x (p : nat) :
  rank x = S p →
  torch.slice_last x
  = Ok (Tensor (dtype_of x) (<[p := Nat.min (shape x !!! p) 1]> (shape x))
          (λ idx, item x (<[p := idx !!! p + (shape x !!! p - 1)]> idx))).
Proof. intros Hp. unfold torch.slice_last. by rewrite Hp. Qed.

Lemma slice_init_Ok x (p : nat) :
  rank x = S p →
  torch.slice_init x
  = Ok (Tensor (dtype_of x) (<[p := shape x !!! p - 1]> (shape x)) (item x)).
Proof. intros Hp. unfold torch.slice_init. by rewrite Hp. Qed.

Lemma cat_Ok (a b : tensor V) (p : nat) :
  rank a = S p → <[p := 0]> (shape a) = <[p := 0]> (shape b) →
  torch.cat a b
  = Ok (Tensor (dtype_of a) (<[p := shape a !!! p + shape b !!! p]> (shape a))
          (λ idx, if idx !!! p <? shape a !!! p then item a idx
                  else item b (<[p := idx !!! p - shape a !!! p]> idx))).
Proof.
  intros Hp Hsh. unfold torch.cat. rewrite Hp.
  by rewrite bool_decide_eq_true_2.
Qed.

Lemma shift_Ok {A} (e : V) (t : tensor V) (p : nat) (K : tensor V → result A) :
  rank t = S p →
  (l ← torch.slice_last t; i ← torch.slice_init t;
   x ← torch.cat (torch.full (shape l) e (dtype_of l)) i; K x) = K (shifted e t p).
Proof.
  intros Hp. unfold rank in Hp.
  rewrite (slice_last_Ok t p), (slice_init_Ok t p) by done. simpl.
  rewrite (cat_Ok _ _ p); simpl.
  - unfold shifted. f_equal. simpl.
    rewrite !list_lookup_total_insert_eq by lia.
    rewrite list_insert_insert_eq.
    replace (Nat.min (shape t !!! p) 1 + (shape t !!! p - 1)) with (shape t !!! p) by lia.
    by rewrite insert_total_id.
  - unfold rank. simpl. by rewrite length_insert.
  - by rewrite !list_insert_insert_eq.
Qed.

Lemma emulated_spec op (e : V) x (axis : Z) (k : nat) (exclusive reverse : bool)
    (dt : dtype) :
  torch.wrap_dim (rank x) axis = Ok k → k < rank x →
  ∃ res, emulated op e x axis exclusive reverse dt = Ok res
    ∧ dtype_of res = dt
    ∧ shape res = shape x
    ∧ ∀ idx, idx ∈ indices (shape x) →
        item res idx
        = lane_scan op e (cast (dtype_of x) dt) (λ j, item x (<[k := j]> idx))
            exclusive reverse (shape x !!! k) (idx !!! k).
Proof.
  intros Hk Hr.
  destruct (rank x) as [|p] eqn:Hrank; [lia|].
  assert (Hlen_x : length (shape x) = S p) by exact Hrank.
  assert (Hp : p < length (shape x)) by (unfold rank in Hrank; lia).
  assert (Hk' : k < length (shape x)) by (unfold rank in Hrank; lia).
  assert (Hlast : ∀ t : tensor V, length (shape t) = length (shape x) →
            torch.wrap_dim (rank t) axis = Ok k ∧ rank t = S p ∧ rank t - 1 = p).
  { intros t Ht. unfold rank in *. rewrite Ht, Hrank. split; [done|lia]. }
  unfold emulated. destruct exclusive, reverse; simpl.
  - (* exclusive, reverse *)
    rewrite (flip_Ok x axis k) by (by rewrite Hrank). simpl.
    match goal with |- context [torch.scan op ?f axis dt] =>
      destruct (Hlast f eq_refl) as (Hf & _ & _); rewrite (scan_Ok op f axis k dt Hf); clear Hf end.
    simpl.
    match goal with |- context [torch.transpose ?c axis (-1)] =>
      destruct (Hlast c eq_refl) as (Hc & _ & Hc'); rewrite (transpose_last_Ok c axis k Hc), Hc'; clear Hc Hc' end.
    simpl.
    match goal with |- context [torch.slice_last ?t] =>
      rewrite (shift_Ok e t p) by (unfold rank; simpl; rewrite swap_length; lia) end.
    unfold shifted; simpl.
    match goal with |- context [torch.transpose ?c axis (-1)] =>
      destruct (Hlast c) as (Hc2 & _ & Hc2'); [simpl; unfold torch.swap; by rewrite ?length_insert|];
      rewrite (transpose_last_Ok c axis k Hc2), Hc2'; clear Hc2 Hc2' end.
    simpl.
    rewrite swap_involutive by done.
    match goal with |- context [torch.flip ?c axis] =>
      destruct (Hlast c eq_refl) as (Hc3 & _ & _); rewrite (flip_Ok c axis k Hc3); clear Hc3 end.
    simpl. eexists. split; [reflexivity|]. simpl. split; [done|]. split; [done|].
    intros idx Hin.
    pose proof (indices_length _ _ Hin) as Hlen.
    pose proof (indices_bound _ _ _ Hin Hk') as Hb.
    assert (HF : length (torch.flip_index (shape x) k idx) = length (shape x))
      by (unfold torch.flip_index; rewrite length_insert; lia).
    rewrite !(swap_total_r k p (torch.flip_index (shape x) k idx)) by lia.
    rewrite (swap_total_r k p (shape x)) by lia.
    rewrite flip_index_total by lia.
    rewrite swap_insert_r by lia.
    rewrite list_lookup_total_insert_eq by lia.
    destruct (Nat.ltb_spec (S (idx !!! k)) (shape x !!! k)) as [Hlt|Hge].
    + destruct (Nat.ltb_spec (shape x !!! k - 1 - idx !!! k) (Nat.min (shape x !!! k) 1));
        [lia|].
      replace (shape x !!! k - 1 - idx !!! k - Nat.min (shape x !!! k) 1)
        with (shape x !!! k - 1 - S (idx !!! k)) by lia.
      replace (shape x !!! k - 2 - idx !!! k) with (shape x !!! k - 1 - S (idx !!! k)) by lia.
      rewrite <- scan_at_reverse by lia.
      apply scan_at_ext. intros j Hj.
      rewrite list_insert_insert_eq. unfold torch.flip_index at 2.
      by rewrite list_insert_insert_eq, flip_index_insert by lia.
    + destruct (Nat.ltb_spec (shape x !!! k - 1 - idx !!! k) (Nat.min (shape x !!! k) 1));
        [done|lia].
  - (* exclusive *)
    rewrite (transpose_last_Ok x axis k) by (by rewrite Hrank).
    rewrite Hrank. replace (S p - 1) with p by lia. simpl.
    match goal with |- context [torch.slice_last ?t] =>
      rewrite (shift_Ok e t p) by (unfold rank; simpl; rewrite swap_length; lia) end.
    unfold shifted; simpl.
    match goal with |- context [torch.scan op ?c (-1) dt] =>
      rewrite (scan_Ok op c (-1) p dt)
        by (rewrite wrap_dim_last; unfold rank; simpl; rewrite swap_length; do 2 f_equal; lia) end.
    simpl.
    match goal with |- context [torch.transpose ?c axis (-1)] =>
      destruct (Hlast c) as (Hc2 & _ & Hc2'); [simpl; unfold torch.swap; by rewrite ?length_insert|];
      rewrite (transpose_last_Ok c axis k Hc2), Hc2'; clear Hc2 Hc2' end.
    simpl. rewrite swap_involutive by done.
    eexists. split; [reflexivity|]. simpl. split; [done|]. split; [done|].
    intros idx Hin.
    pose proof (indices_length _ _ Hin) as Hlen.
    pose proof (indices_bound _ _ _ Hin Hk') as Hb.
    rewrite swap_total_r by lia.
    rewrite swap_total_r by lia.
    apply scan_at_ext. intros j Hj. f_equal.
    rewrite list_lookup_total_insert_eq by (rewrite swap_length; lia).
    destruct j as [|j].
    + destruct (Nat.ltb_spec 0 (Nat.min (shape x !!! k) 1)); [done|lia].
    + destruct (Nat.ltb_spec (S j) (Nat.min (shape x !!! k) 1)); [lia|].
      rewrite list_insert_insert_eq, swap_insert_r by lia.
      do 2 f_equal. lia.
  - (* reverse *)
    rewrite (flip_Ok x axis k) by (by rewrite Hrank). simpl.
    match goal with |- context [torch.scan op ?f axis dt] =>
      destruct (Hlast f eq_refl) as (Hf & _ & _); rewrite (scan_Ok op f axis k dt Hf); clear Hf end.
    simpl.
    match goal with |- context [torch.flip ?c axis] =>
      destruct (Hlast c eq_refl) as (Hc3 & _ & _); rewrite (flip_Ok c axis k Hc3); clear Hc3 end.
    simpl. eexists. split; [reflexivity|]. simpl. split; [done|]. split; [done|].
    intros idx Hin.
    pose proof (indices_length _ _ Hin) as Hlen.
    pose proof (indices_bound _ _ _ Hin Hk') as Hb.
    rewrite flip_index_total by lia.
    rewrite <- scan_at_reverse by lia.
    apply scan_at_ext. intros j Hj.
    unfold torch.flip_index at 2. rewrite list_insert_insert_eq.
    by rewrite flip_index_insert by lia.
  - (* neither *)
    rewrite (scan_Ok op x axis k dt) by (by rewrite Hrank).
    eexists. split; [reflexivity|]. simpl. done.
Qed.

End emulation.

Section scans_of_the_source.
Context {V : Type} `{Backend V}.
Implicit Types (x : tensor V).

Lemma cumsum_emulated x (axis : Z) (exclusive reverse : bool) (dt : option dtype)
    (out : buffer V) :
  statistical.cumsum x axis exclusive reverse dt out
  = res ← emulated vadd vzero x axis exclusive reverse (statistical.resolve_dtype x dt);
    Ok (write_out out res).
Proof.
  unfold statistical.cumsum, emulated.
  destruct exclusive, reverse, out; reflexivity.
Qed.

Lemma cumprod_emulated x (axis : Z) (exclusive reverse : bool) (dt : option dtype)
    (out : buffer V) :
  statistical.cumprod x axis exclusive reverse dt out
  = res ← emulated vmul vone x axis exclusive reverse (statistical.resolve_dtype x dt);
    Ok (if negb (exclusive || reverse) then write_out out res else (res, out)).
Proof.
  unfold statistical.cumprod, emulated, torch.cumprod_out, torch.cumprod, torch.ones_like.
  destruct exclusive, reverse; simpl; try reflexivity;
    unfold mbind, result_bind; repeat first_call.
Qed.

End scans_of_the_source.

Section scan_claims.
Context {V : Type} `{Backend V}.
Implicit Types (x : tensor V).

Lemma flip_flip x (axis : Z) (k : nat) :
  torch.wrap_dim (rank x) axis = Ok k → k < rank x →
  ∃ f x', torch.flip x axis = Ok f ∧ torch.flip f axis = Ok x' ∧ same x' x.
Proof.
  intros Hk Hr.
  eexists _, _. split; [by apply flip_Ok|]. split.
  - by apply (flip_Ok _ axis k).
  - split; [done|]. split; [done|]. unfold values. simpl.
    apply list_fmap_ext. intros i idx Hidx.
    apply list_elem_of_lookup_2 in Hidx.
    by rewrite flip_index_involutive.
Qed.

(** C8. Flipping a tensor twice along a valid axis gives the tensor back,
    and the reverse inclusive scans are built from it: flip, the native
    inclusive forward scan, flip back.  What that leaves at a position of
    a lane is the cumulative sum (product) of the lane taken from its far
    end down to that position. *)
Theorem flip_involutive_reverse_scan x (axis : Z) (k : nat) :
  torch.wrap_dim (rank x) axis = Ok k → k < rank x →
  (∃ f x', torch.flip x axis = Ok f ∧ torch.flip f axis = Ok x' ∧ same x' x)
  ∧ (∀ dt out, ∃ f c r,
        torch.flip x axis = Ok f
        ∧ torch.cumsum f axis (statistical.resolve_dtype x dt) = Ok c
        ∧ torch.flip c axis = Ok r
        ∧ statistical.cumsum x axis false true dt out = Ok (write_out out r)
        ∧ shape r = shape x
        ∧ ∀ idx, idx ∈ indices (shape x) →
            item r idx
            = suffix_fold vadd
                (λ j, cast (dtype_of x) (statistical.resolve_dtype x dt)
                        (item x (<[k := j]> idx)))
                (idx !!! k) (shape x !!! k - 1 - idx !!! k))
  ∧ (∀ dt out, ∃ f c r,
        torch.flip x axis = Ok f
        ∧ torch.cumprod f axis (statistical.resolve_dtype x dt) = Ok c
        ∧ torch.flip c axis = Ok r
        ∧ statistical.cumprod x axis false true dt out = Ok (r, out)
        ∧ shape r = shape x
        ∧ ∀ idx, idx ∈ indices (shape x) →
            item r idx
            = suffix_fold vmul
                (λ j, cast (dtype_of x) (statistical.resolve_dtype x dt)
                        (item x (<[k := j]> idx)))
                (idx !!! k) (shape x !!! k - 1 - idx !!! k)).
Proof.
  intros Hk Hr. split; [by apply (flip_flip x axis k)|].
  split; intros dt out.
  - destruct (emulated_spec vadd vzero x axis k false true
                (statistical.resolve_dtype x dt) Hk Hr) as (r & Hem & _ & Hsh & Hit).
    rewrite cumsum_emulated, Hem. revert Hem. unfold emulated. simpl.
    rewrite (flip_Ok x axis k Hk). simpl.
    erewrite (scan_Ok vadd) by exact Hk. simpl.
    erewrite flip_Ok by exact Hk. intros [= <-].
    do 3 eexists. split; [reflexivity|]. split; [by apply scan_Ok|].
    split; [by apply flip_Ok|]. by split.
  - destruct (emulated_spec vmul vone x axis k false true
                (statistical.resolve_dtype x dt) Hk Hr) as (r & Hem & _ & Hsh & Hit).
    rewrite cumprod_emulated, Hem. revert Hem. unfold emulated. simpl.
    rewrite (flip_Ok x axis k Hk). simpl.
    erewrite (scan_Ok vmul) by exact Hk. simpl.
    erewrite flip_Ok by exact Hk. intros [= <-].
    do 3 eexists. split; [reflexivity|]. split; [by apply scan_Ok|].
    split; [by apply flip_Ok|]. by split.
Qed.



End scan_claims.

Section three_elements.
Context {V : Type} `{Backend V}.

Lemma scan_of_three (op : V → V → V) (e : V) (d dt : dtype) (a b c : V)
    (exclusive reverse : bool) :
  ∃ r, emulated op e (vector d [a; b; c]) 0 exclusive reverse dt = Ok r
    ∧ shape r = [3]
    ∧ values r
      = (λ i, lane_scan op e (cast d dt) (λ j, nth j [a; b; c] vzero)
                exclusive reverse 3 i) <$> [0; 1; 2].
Proof.
  destruct (emulated_spec op e (vector d [a; b; c]) 0 0 exclusive reverse dt)
    as (r & Hem & _ & Hsh & Hit); [done|simpl; unfold rank; simpl; lia|].
  exists r. split; [done|]. split; [done|].
  unfold values. rewrite Hsh. simpl.
  rewrite !Hit by (apply elem_of_indices; repeat constructor; lia).
  reflexivity.
Qed.

(** C1. On a 1-D tensor [[a, b, c]], cumsum gives [[0, a, a+b]] when
    exclusive, [[a+b+c, b+c, c]] when reverse, [[b+c, c, 0]] when both,
    and the inclusive forward scan [[a, a+b, a+b+c]] when neither; cumprod
    gives the same with the product and 1.  Addition and multiplication
    are taken associative and commutative with 0 and 1 neutral on the
    left, and the conversion to the inferred dtype lossless. *)
Theorem scans_of_three_elements (d : dtype) (a b c : V) :
  (∀ u v w, vadd (vadd u v) w = vadd u (vadd v w)) → (∀ u v, vadd u v = vadd v u) →
  (∀ v, vadd vzero v = v) →
  (∀ u v w, vmul (vmul u v) w = vmul u (vmul v w)) → (∀ u v, vmul u v = vmul v u) →
  (∀ v, vmul vone v = v) →
  (∀ v, cast d (statistical._infer_dtype d) v = v) →
  gives (statistical.cumsum (vector d [a; b; c]) 0 true false None None)
    [3] [vzero; a; vadd a b]
  ∧ gives (statistical.cumsum (vector d [a; b; c]) 0 false true None None)
      [3] [vadd (vadd a b) c; vadd b c; c]
  ∧ gives (statistical.cumsum (vector d [a; b; c]) 0 true true None None)
      [3] [vadd b c; c; vzero]
  ∧ gives (statistical.cumsum (vector d [a; b; c]) 0 false false None None)
      [3] [a; vadd a b; vadd (vadd a b) c]
  ∧ gives (statistical.cumprod (vector d [a; b; c]) 0 true false None None)
      [3] [vone; a; vmul a b]
  ∧ gives (statistical.cumprod (vector d [a; b; c]) 0 false true None None)
      [3] [vmul (vmul a b) c; vmul b c; c]
  ∧ gives (statistical.cumprod (vector d [a; b; c]) 0 true true None None)
      [3] [vmul b c; c; vone]
  ∧ gives (statistical.cumprod (vector d [a; b; c]) 0 false false None None)
      [3] [a; vmul a b; vmul (vmul a b) c].
Proof.
  intros Hadd_assoc Hadd_comm Hadd_zero Hmul_assoc Hmul_comm Hmul_one Hcast.
  set (x := vector d [a; b; c]).
  assert (Hsum : ∀ exclusive reverse l,
    (λ i, lane_scan vadd vzero (cast d (statistical._infer_dtype d))
            (λ j, nth j [a; b; c] vzero) exclusive reverse 3 i) <$> [0; 1; 2] = l →
    gives (statistical.cumsum x 0 exclusive reverse None None) [3] l).
  { intros exclusive reverse l <-.
    destruct (scan_of_three vadd vzero d (statistical._infer_dtype d) a b c exclusive reverse)
      as (r & Hem & Hsh & Hval).
    exists r. rewrite cumsum_emulated. unfold statistical.resolve_dtype. simpl.
    fold x in Hem. by rewrite Hem. }
  assert (Hprod : ∀ exclusive reverse l,
    (λ i, lane_scan vmul vone (cast d (statistical._infer_dtype d))
            (λ j, nth j [a; b; c] vzero) exclusive reverse 3 i) <$> [0; 1; 2] = l →
    gives (statistical.cumprod x 0 exclusive reverse None None) [3] l).
  { intros exclusive reverse l <-.
    destruct (scan_of_three vmul vone d (statistical._infer_dtype d) a b c exclusive reverse)
      as (r & Hem & Hsh & Hval).
    exists r. rewrite cumprod_emulated. unfold statistical.resolve_dtype. simpl.
    fold x in Hem. rewrite Hem. simpl. by destruct (negb _). }
  repeat split; [apply Hsum..|apply Hprod|apply Hprod|apply Hprod|apply Hprod]; simpl;
    rewrite ?Hcast, ?Hadd_zero, ?Hmul_one; try reflexivity.
  - by rewrite (Hadd_comm c b), (Hadd_comm (vadd b c) a), Hadd_assoc.
  - by rewrite (Hadd_comm c b).
  - by rewrite (Hmul_comm c b), (Hmul_comm (vmul b c) a), Hmul_assoc.
  - by rewrite (Hmul_comm c b).
Qed.

End three_elements.

(** ** Reductions *)

Lemma product_Permutation (l1 l2 : list nat) : l1 ≡ₚ l2 → product l1 = product l2.
Proof.
  induction 1 as [|a l1 l2 _ IH|a b l|l1 l2 l3 _ IH1 _ IH2]; simpl; lia.
Qed.

Lemma indices_count (sh : list nat) : length (indices sh) = product sh.
Proof.
  induction sh as [|n sh IH]; [done|]. simpl.
  generalize 0 as s. induction n as [|n IHn]; intros s; simpl; [done|].
  rewrite length_app, length_fmap, IH, IHn. done.
Qed.

Lemma lane_shape_ext (sh : list nat) (p : nat) (D D' : list nat) :
  (∀ q, p ≤ q → q ∈ D ↔ q ∈ D') →
  torch.lane_shape p sh D = torch.lane_shape p sh D'.
Proof.
  revert p. induction sh as [|n sh IH]; intros p Hq; [done|]. simpl.
  rewrite (IH (S p)) by (intros q Hle; apply Hq; lia).
  destruct (decide (p ∈ D)) as [Hin|Hin].
  - rewrite !bool_decide_eq_true_2; [done| |done]. by apply Hq.
  - rewrite !bool_decide_eq_false_2; [done| |done]. intros Hin'. apply Hin. by apply Hq.
Qed.

Lemma lane_shape_product (sh : list nat) (p : nat) (D : list nat) :
  NoDup D → (∀ k, k ∈ D → p ≤ k < p + length sh) →
  product (torch.lane_shape p sh D) = product ((λ k, sh !!! (k - p)) <$> D).
Proof.
  revert p D. induction sh as [|n sh IH]; intros p D Hnd Hin; simpl.
  - destruct D as [|k D]; [done|].
    specialize (Hin k (proj2 (elem_of_cons _ _ _) (or_introl eq_refl))). simpl in Hin. lia.
  - destruct (decide (p ∈ D)) as [Hp|Hp].
    + rewrite bool_decide_eq_true_2 by done.
      apply elem_of_Permutation in Hp as [D' HD'].
      rewrite (product_Permutation ((λ k, (n :: sh) !!! (k - p)) <$> D)
                 ((λ k, (n :: sh) !!! (k - p)) <$> (p :: D')))
        by (by apply fmap_Permutation).
      rewrite HD' in Hnd. apply NoDup_cons in Hnd as [Hp' Hnd'].
      assert (Hin' : ∀ k, k ∈ D' → S p ≤ k < S p + length sh).
      { intros k Hk. specialize (Hin k). rewrite HD' in Hin.
        specialize (Hin (proj2 (elem_of_cons _ _ _) (or_intror Hk))). simpl in Hin.
        assert (k ≠ p) by (intros ->; done). lia. }
      simpl. rewrite Nat.sub_diag. simpl.
      rewrite (lane_shape_ext sh (S p) D D').
      * rewrite (IH (S p) D' Hnd' Hin'). f_equal. f_equal.
        apply list_fmap_ext. intros i k Hk.
        apply list_elem_of_lookup_2, Hin' in Hk.
        replace (k - p) with (S (k - S p)) by lia. done.
      * intros q Hq. rewrite HD', elem_of_cons. split; [|by right].
        intros [->|?]; [lia|done].
    + rewrite bool_decide_eq_false_2 by done.
      assert (Hin' : ∀ k, k ∈ D → S p ≤ k < S p + length sh).
      { intros k Hk. specialize (Hin k Hk). simpl in Hin.
        assert (k ≠ p) by (intros ->; done). lia. }
      rewrite (IH (S p) D Hnd Hin'). f_equal.
      apply list_fmap_ext. intros i k Hk.
      apply list_elem_of_lookup_2, Hin' in Hk.
      replace (k - p) with (S (k - S p)) by lia. done.
Qed.

Lemma lane_count (sh : list nat) (D : list nat) :
  NoDup D → (∀ k, k ∈ D → k < length sh) →
  length (indices (torch.lane_shape 0 sh D)) = extent_product sh D.
Proof.
  intros Hnd Hin. rewrite indices_count, lane_shape_product; [|done|].
  - unfold extent_product. f_equal. apply list_fmap_ext. intros i k _.
    by rewrite Nat.sub_0_r.
  - intros k Hk. specialize (Hin k Hk). lia.
Qed.

Section reductions.
Context {V : Type} `{Backend V}.
Implicit Types (x : tensor V).

Lemma lane_length x (D : list nat) (keep : bool) (ridx : list nat) :
  NoDup D → (∀ k, k ∈ D → k < rank x) →
  length (torch.lane x D keep ridx) = extent_product (shape x) D.
Proof.
  intros Hnd Hin. unfold torch.lane. rewrite length_fmap. by apply lane_count.
Qed.

Lemma names_axes_bound x (l : list Z) (D : list nat) :
  names_axes x l D → ∀ k, k ∈ D → k < rank x.
Proof.
  intros [Hf _] k Hk. apply list_elem_of_lookup_1 in Hk as [i Hi].
  destruct (Forall2_lookup_r _ _ _ _ _ Hf Hi) as (a & _ & _ & Hlt). done.
Qed.

Lemma wrap_each_Ok x (l : list Z) (D : list nat) :
  names_axes x l D → torch.wrap_each (rank x) l = Ok D.
Proof.
  intros [Hf _]. induction Hf as [|a k l D [Ha _] _ IH]; [done|].
  simpl. by rewrite Ha, IH.
Qed.

Lemma wrap_dims_Ok x (l : list Z) (D : list nat) :
  names_axes x l D → l ≠ [] ∨ rank x = 0 → torch.wrap_dims (rank x) l = Ok D.
Proof.
  intros Hn Hl. unfold torch.wrap_dims. rewrite (wrap_each_Ok x l D Hn). simpl.
  destruct Hn as [Hf Hnd]. rewrite bool_decide_eq_true_2 by done.
  destruct D as [|k D]; [|done].
  apply Forall2_nil_inv_r in Hf. destruct Hl as [Hl|Hl]; [done|]. by rewrite Hl.
Qed.

Lemma py_index_wrap (sh : list nat) (a : Z) (k : nat) :
  torch.wrap_dim (length sh) a = Ok k → k < length sh → py_index sh a = Ok (sh !!! k).
Proof.
  unfold torch.wrap_dim, py_index. intros Hw Hk.
  replace (Nat.max (length sh) 1) with (length sh) in Hw by lia.
  set (n := Z.of_nat (length sh)) in *.
  assert (Hrange : (- n ≤ a < n)%Z ∧ k = Z.to_nat (a mod n)).
  { revert Hw. destruct (Z.leb_spec (- n) a), (Z.ltb_spec a n); simpl;
      intros [= <-] || discriminate. lia. }
  destruct Hrange as [Hrange ->]. clear Hw Hk.
  destruct (Z.leb_spec 0 a); simpl.
  - destruct (Z.ltb_spec a n); [|lia]. by rewrite Z.mod_small by lia.
  - destruct (Z.leb_spec (- n) a); [|lia].
    destruct (Z.ltb_spec a 0); [|lia]. simpl. do 3 f_equal.
    apply (Z.mod_unique a n (-1) (n + a)); lia.
Qed.

Lemma reduced_size_Ok x (l : list Z) (D : list nat) :
  names_axes x l D → statistical.reduced_size x l = Ok (extent_product (shape x) D).
Proof.
  intros [Hf _]. unfold statistical.reduced_size, extent_product.
  enough (Hgen : ∀ s, for_in l (λ size a, n ← py_index (shape x) a; Ok (size * n)) s
                      = Ok (s * product ((λ k, shape x !!! k) <$> D))).
  { rewrite Hgen. f_equal. lia. }
  induction Hf as [|a k l D [Ha Hk] _ IH]; intros s; simpl.
  - f_equal. lia.
  - rewrite (py_index_wrap _ a k Ha Hk). simpl. rewrite IH. f_equal.
    symmetry. apply Nat.mul_assoc.
Qed.

Lemma names_axes_range x :
  names_axes x (range (length (shape x))) (seq 0 (rank x)).
Proof.
  unfold names_axes, range, rank. split; [|apply NoDup_seq].
  apply Forall2_fmap_l, Forall_Forall2_diag, Forall_forall.
  intros k Hk%elem_of_seq. split; [apply wrap_dim_of_nat|]; lia.
Qed.

End reductions.

(** ** Variance and standard deviation *)

Lemma degenerate_population (size : nat) (c : Q) :
  Qeq_bool c 0 = true → (inject_Z (Z.of_nat size) - c <= 0)%Q → size ≤ 0.
Proof.
  intros Hc%Qeq_bool_iff Hd. rewrite Hc in Hd.
  unfold Qle, Qminus, Qplus, Qopp, inject_Z in Hd. simpl in Hd. lia.
Qed.

Lemma degenerate_sample (size : nat) (c : Q) :
  Qeq_bool c 1 = true → (inject_Z (Z.of_nat size) - c <= 0)%Q → size ≤ 1.
Proof.
  intros Hc%Qeq_bool_iff Hd. rewrite Hc in Hd.
  unfold Qle, Qminus, Qplus, Qopp, inject_Z in Hd. simpl in Hd. lia.
Qed.

Section variance.
Context {V : Type} `{Backend V}.
Implicit Types (x : tensor V).

Lemma axes_of_spec x (axis : axis_arg) (D : list nat) :
  eq_empty_tuple axis = false → eq_empty_list axis = false →
  names_axes x (axes_of x axis) D →
  torch.wrap_dims (rank x) (axes_of x axis) = Ok D
  ∧ statistical.reduced_size x (axes_of x axis) = Ok (extent_product (shape x) D).
Proof.
  intros Ht Hl Hn. split; [|by apply reduced_size_Ok].
  apply wrap_dims_Ok; [done|].
  destruct axis as [|a|[|a l]|[|a l]]; simpl in *; try discriminate; auto.
  unfold rank, range. destruct (shape x); simpl; auto.
Qed.

Lemma var_estimator x (axis : axis_arg) (correction : Q) (keepdims : bool)
    (out : buffer V) (D : list nat) :
  is_floating (dtype_of x) = true →
  eq_empty_tuple axis = false → eq_empty_list axis = false →
  names_axes x (axes_of x axis) D →
  statistical.var x axis correction keepdims out
  = Ok (estimator torch.var_lane of_Q x D correction keepdims, out).
Proof.
  intros Hf Ht Hl Hn. destruct (axes_of_spec x axis D Ht Hl Hn) as [Hw Hs].
  unfold statistical.var, estimator.
  replace (eq_empty_tuple _) with false by (by destruct axis).
  replace (statistical.as_tuple _) with (axes_of x axis) by (by destruct axis).
  unfold torch.var. rewrite Hf, Hw, Hs. simpl.
  destruct (Qeq_bool correction 0); [done|].
  destruct (Qeq_bool correction 1); [done|].
  destruct (Qle_bool _ 0); [done|].
  unfold torch.to. simpl. by rewrite bool_decide_eq_true_2.
Qed.

Lemma std_estimator x (axis : axis_arg) (correction : Q) (keepdims : bool)
    (out : buffer V) (D : list nat) :
  is_floating (dtype_of x) = true →
  eq_empty_tuple axis = false → eq_empty_list axis = false →
  names_axes x (axes_of x axis) D →
  statistical.std x axis correction keepdims out
  = Ok (estimator torch.std_lane (λ q, vsqrt (of_Q q)) x D correction keepdims, out).
Proof.
  intros Hf Ht Hl Hn. destruct (axes_of_spec x axis D Ht Hl Hn) as [Hw Hs].
  unfold statistical.std, estimator.
  replace (eq_empty_tuple _) with false by (by destruct axis).
  replace (statistical.as_tuple _) with (axes_of x axis) by (by destruct axis).
  unfold torch.std. rewrite Hf, Hw, Hs. simpl.
  destruct (Qeq_bool correction 0); [done|].
  destruct (Qeq_bool correction 1); [done|].
  by destruct (Qle_bool _ 0).
Qed.

(** torch takes no variance of a tensor that is not floating-point: once
    the axes have passed [x.shape[a]], var and std raise RuntimeError
    under every correction. *)
Lemma var_refuses x (axis : axis_arg) (correction : Q) (keepdims : bool)
    (out : buffer V) (D : list nat) :
  is_floating (dtype_of x) = false →
  eq_empty_tuple axis = false →
  names_axes x (axes_of x axis) D →
  statistical.var x axis correction keepdims out = Raise RuntimeError.
Proof.
  intros Hf Ht Hn. pose proof (reduced_size_Ok x _ D Hn) as Hs.
  unfold statistical.var.
  replace (eq_empty_tuple _) with false by (by destruct axis).
  replace (statistical.as_tuple _) with (axes_of x axis) by (by destruct axis).
  unfold torch.var. rewrite Hf, Hs. simpl.
  destruct (Qeq_bool correction 0); [done|].
  destruct (Qeq_bool correction 1); [done|].
  by destruct (Qle_bool _ 0).
Qed.

Lemma std_refuses x (axis : axis_arg) (correction : Q) (keepdims : bool)
    (out : buffer V) (D : list nat) :
  is_floating (dtype_of x) = false →
  eq_empty_tuple axis = false →
  names_axes x (axes_of x axis) D →
  statistical.std x axis correction keepdims out = Raise RuntimeError.
Proof.
  intros Hf Ht Hn. pose proof (reduced_size_Ok x _ D Hn) as Hs.
  unfold statistical.std.
  replace (eq_empty_tuple _) with false by (by destruct axis).
  replace (statistical.as_tuple _) with (axes_of x axis) by (by destruct axis).
  unfold torch.std. rewrite Hf, Hs. simpl.
  destruct (Qeq_bool correction 0); [done|].
  destruct (Qeq_bool correction 1); [done|].
  by destruct (Qle_bool _ 0).
Qed.

Lemma estimator_shape native scale x D correction keepdims :
  shape (estimator native scale x D correction keepdims)
  = torch.reduced_shape 0 (shape x) D keepdims.
Proof.
  unfold estimator.
  destruct (Qeq_bool correction 0); [done|].
  destruct (Qeq_bool correction 1); [done|].
  by destruct (Qle_bool _ 0).
Qed.

Lemma estimator_degenerate (native : bool → list V → V) scale x (l : list Z)
    (D : list nat) correction keepdims :
  (∀ ub lane, length lane ≤ (if ub : bool then 1 else 0) → native ub lane = vnan) →
  names_axes x l D →
  (inject_Z (Z.of_nat (extent_product (shape x) D)) - correction <= 0)%Q →
  ∀ v, v ∈ values (estimator native scale x D correction keepdims) → v = vnan.
Proof.
  intros Hnative Hn Hd v Hv. unfold values in Hv.
  apply list_elem_of_fmap in Hv as (ridx & -> & _).
  pose proof (lane_length x D keepdims ridx (proj2 Hn) (names_axes_bound x l D Hn)) as Hlen.
  unfold estimator.
  destruct (Qeq_bool correction 0) eqn:H0.
  { simpl. apply Hnative. rewrite Hlen. by apply (degenerate_population _ correction). }
  destruct (Qeq_bool correction 1) eqn:H1.
  { simpl. apply Hnative. rewrite Hlen. by apply (degenerate_sample _ correction). }
  apply Qle_bool_iff in Hd. by rewrite Hd.
Qed.

Lemma var_lane_degenerate (ub : bool) (lane : list V) :
  length lane ≤ (if ub then 1 else 0) → torch.var_lane ub lane = vnan.
Proof.
  intros Hle. unfold torch.var_lane.
  by destruct (Nat.leb_spec (length lane) (if ub then 1 else 0)); [|lia].
Qed.

End variance.

Section variance_claims.
Context {V : Type} `{Backend V}.
Implicit Types (x : tensor V).

(** C3, as amended. For every axis argument but the explicit empty
    sequence, naming valid axes [D] without repetition: when the product
    of the extents along [D] minus the correction is not positive, var and
    std of a floating-point tensor return, and every element of the
    result is NaN, whichever branch the correction takes.  Of a tensor
    that is not floating-point they raise RuntimeError.  With the empty
    tuple as axis they return the input, whatever it holds. *)
Theorem degenerate_sample_gives_nan x (axis : axis_arg) (correction : Q)
    (keepdims : bool) (out : buffer V) (D : list nat) :
  vsqrt vnan = vnan →
  eq_empty_tuple axis = false → eq_empty_list axis = false →
  names_axes x (axes_of x axis) D →
  (inject_Z (Z.of_nat (extent_product (shape x) D)) - correction <= 0)%Q →
  (is_floating (dtype_of x) = true →
   (∃ r, statistical.var x axis correction keepdims out = Ok (r, out)
      ∧ shape r = torch.reduced_shape 0 (shape x) D keepdims
      ∧ ∀ v, v ∈ values r → v = vnan)
   ∧ (∃ r, statistical.std x axis correction keepdims out = Ok (r, out)
        ∧ shape r = torch.reduced_shape 0 (shape x) D keepdims
        ∧ ∀ v, v ∈ values r → v = vnan))
  ∧ (is_floating (dtype_of x) = false →
     statistical.var x axis correction keepdims out = Raise RuntimeError
     ∧ statistical.std x axis correction keepdims out = Raise RuntimeError)
  ∧ statistical.var x (AxTuple []) correction keepdims out = Ok (x, out)
  ∧ statistical.std x (AxTuple []) correction keepdims out = Ok (x, out).
Proof.
  intros Hsqrt Ht Hl Hn Hd. split; [|split; [|done]].
  - intros Hf. split; eexists.
    + split; [by apply var_estimator|]. split; [apply estimator_shape|].
      apply (estimator_degenerate _ _ x (axes_of x axis)); [|done..].
      apply var_lane_degenerate.
    + split; [by apply std_estimator|]. split; [apply estimator_shape|].
      apply (estimator_degenerate _ _ x (axes_of x axis)); [|done..].
      intros ub lane Hlane. unfold torch.std_lane.
      by rewrite var_lane_degenerate.
  - intros Hf. split; [by apply (var_refuses x axis _ _ _ D)|].
    by apply (std_refuses x axis _ _ _ D).
Qed.

Lemma estimator_custom native scale x D (correction : Q) keepdims :
  ¬ (correction == 0)%Q → ¬ (correction == 1)%Q →
  (0 < inject_Z (Z.of_nat (extent_product (shape x) D)) - correction)%Q →
  estimator native scale x D correction keepdims
  = torch.mul (torch.reduce (native false) x D keepdims (dtype_of x))
      (scale (inject_Z (Z.of_nat (extent_product (shape x) D))
              / (inject_Z (Z.of_nat (extent_product (shape x) D)) - correction))%Q).
Proof.
  intros H0 H1 Hpos. unfold estimator.
  destruct (Qeq_bool correction 0) eqn:E0; [by apply Qeq_bool_iff in E0|].
  destruct (Qeq_bool correction 1) eqn:E1; [by apply Qeq_bool_iff in E1|].
  destruct (Qle_bool _ 0) eqn:E2; [|done].
  apply Qle_bool_iff in E2. by apply Qlt_not_le in Hpos.
Qed.

End variance_claims.

(** C4, as amended. Of a floating-point tensor: with a correction other
    than 0 and 1 that leaves [size - correction] positive, var is the
    population variance scaled element by element with
    [size / (size - correction)], and std the population standard
    deviation scaled with the square root of that factor.  A correction
    of 0 divides the squared deviations by [size], a correction of 1 by
    [size - 1]; std is the square root of that.  On [[1, 2, 3, 4]] this
    makes 5/3 with a correction of 1 and 5/4 with a correction of 0.  Of
    a tensor that is not floating-point var and std raise
    RuntimeError. *)
Theorem correction_rescales {V : Type} `{Backend V} (x : tensor V) (axis : axis_arg)
    (correction : Q) (keepdims : bool) (out : buffer V) (D : list nat) :
  eq_empty_tuple axis = false → eq_empty_list axis = false →
  names_axes x (axes_of x axis) D →
  (is_floating (dtype_of x) = true →
   (¬ (correction == 0)%Q → ¬ (correction == 1)%Q →
    (0 < inject_Z (Z.of_nat (extent_product (shape x) D)) - correction)%Q →
    ∃ population_var population_std factor,
      torch.var x (axes_of x axis) false keepdims = Ok population_var
      ∧ torch.std x (axes_of x axis) false keepdims = Ok population_std
      ∧ factor = (inject_Z (Z.of_nat (extent_product (shape x) D))
                  / (inject_Z (Z.of_nat (extent_product (shape x) D)) - correction))%Q
      ∧ statistical.var x axis correction keepdims out
        = Ok (torch.mul population_var (of_Q factor), out)
      ∧ statistical.std x axis correction keepdims out
        = Ok (torch.mul population_std (vsqrt (of_Q factor)), out)
      ∧ (∀ idx, item (torch.mul population_var (of_Q factor)) idx
                = vmul (item population_var idx) (of_Q factor))
      ∧ (∀ idx, item (torch.mul population_std (vsqrt (of_Q factor))) idx
                = vmul (item population_std idx) (vsqrt (of_Q factor)))
      ∧ (∀ idx, item population_std idx = vsqrt (item population_var idx)))
   ∧ ((correction == 0)%Q → 0 < extent_product (shape x) D →
      (∃ r, statistical.var x axis correction keepdims out = Ok (r, out)
         ∧ ∀ idx, item r idx
             = vdiv (torch.squared_deviations (torch.lane x D keepdims idx))
                 (of_nat (extent_product (shape x) D)))
      ∧ (∃ r, statistical.std x axis correction keepdims out = Ok (r, out)
           ∧ ∀ idx, item r idx
               = vsqrt (vdiv (torch.squared_deviations (torch.lane x D keepdims idx))
                          (of_nat (extent_product (shape x) D)))))
   ∧ ((correction == 1)%Q → 1 < extent_product (shape x) D →
      (∃ r, statistical.var x axis correction keepdims out = Ok (r, out)
         ∧ ∀ idx, item r idx
             = vdiv (torch.squared_deviations (torch.lane x D keepdims idx))
                 (of_nat (extent_product (shape x) D - 1)))
      ∧ (∃ r, statistical.std x axis correction keepdims out = Ok (r, out)
           ∧ ∀ idx, item r idx
               = vsqrt (vdiv (torch.squared_deviations (torch.lane x D keepdims idx))
                          (of_nat (extent_product (shape x) D - 1))))))
  ∧ (is_floating (dtype_of x) = false →
     statistical.var x axis correction keepdims out = Raise RuntimeError
     ∧ statistical.std x axis correction keepdims out = Raise RuntimeError)
  ∧ (∃ r, statistical.var x4 AxNone 1 false None = Ok (r, None)
       ∧ exact.fractions (values r) = [Some (5 # 3)%Q])
  ∧ (∃ r, statistical.var x4 AxNone 0 false None = Ok (r, None)
       ∧ exact.fractions (values r) = [Some (5 # 4)%Q]).
Proof.
  intros Ht Hl Hn.
  destruct (axes_of_spec x axis D Ht Hl Hn) as [Hw _].
  pose proof (λ idx, lane_length x D keepdims idx (proj2 Hn)
                       (names_axes_bound x (axes_of x axis) D Hn)) as Hlen.
  split; [|split; [|split]].
  - intros Hf. split; [|split].
    + intros H0 H1 Hpos. do 3 eexists.
      split; [unfold torch.var; by rewrite Hf, Hw|].
      split; [unfold torch.std; by rewrite Hf, Hw|].
      split; [reflexivity|].
      split; [by rewrite (var_estimator x axis _ _ _ D), estimator_custom|].
      split; [by rewrite (std_estimator x axis _ _ _ D), estimator_custom|].
      done.
    + intros H0 Hsize.
      assert (Hlane : ∀ idx, torch.var_lane false (torch.lane x D keepdims idx)
                = vdiv (torch.squared_deviations (torch.lane x D keepdims idx))
                    (of_nat (extent_product (shape x) D))).
      { intros idx. unfold torch.var_lane. rewrite Hlen.
        destruct (Nat.leb_spec (extent_product (shape x) D) 0); [lia|].
        by rewrite Nat.sub_0_r. }
      apply Qeq_bool_iff in H0.
      split; eexists.
      * split; [by apply var_estimator|]. intros idx. unfold estimator.
        rewrite H0. simpl. apply Hlane.
      * split; [by apply std_estimator|]. intros idx. unfold estimator.
        rewrite H0. simpl. unfold torch.std_lane. by rewrite Hlane.
    + intros H1 Hsize.
      assert (Hlane : ∀ idx, torch.var_lane true (torch.lane x D keepdims idx)
                = vdiv (torch.squared_deviations (torch.lane x D keepdims idx))
                    (of_nat (extent_product (shape x) D - 1))).
      { intros idx. unfold torch.var_lane. rewrite Hlen.
        by destruct (Nat.leb_spec (extent_product (shape x) D) 1); [lia|]. }
      assert (E0 : Qeq_bool correction 0 = false).
      { destruct (Qeq_bool correction 0) eqn:E0; [|done].
        apply Qeq_bool_iff in E0. rewrite E0 in H1. discriminate. }
      apply Qeq_bool_iff in H1.
      split; eexists.
      * split; [by apply var_estimator|]. intros idx. unfold estimator.
        rewrite E0, H1. simpl. apply Hlane.
      * split; [by apply std_estimator|]. intros idx. unfold estimator.
        rewrite E0, H1. simpl. unfold torch.std_lane. by rewrite Hlane.
  - intros Hf. split; [by apply (var_refuses x axis _ _ _ D)|].
    by apply (std_refuses x axis _ _ _ D).
  - eexists. split; [vm_compute; reflexivity|]. vm_compute. reflexivity.
  - eexists. split; [vm_compute; reflexivity|]. vm_compute. reflexivity.
Qed.

Section dtypes.
Context {V : Type} `{Backend V}.
Implicit Types (x r : tensor V).

Lemma to_dtype x (d : dtype) : dtype_of (torch.to x d) = d.
Proof. unfold torch.to. by case_bool_decide. Qed.

Lemma infer_dtype_cases (d : dtype) :
  statistical._infer_dtype d = d
  ∨ (statistical._infer_dtype d = infer_default_dtype d
     ∧ infer_default_dtype d ∈ valid_dtypes
     ∧ dtype_bits d < dtype_bits (infer_default_dtype d)).
Proof.
  unfold statistical._infer_dtype, as_native_dtype.
  case_bool_decide; [|by left].
  destruct (Nat.ltb_spec (dtype_bits d) (dtype_bits (infer_default_dtype d)));
    [by right|by left].
Qed.


Lemma emulated_dtype (op : V → V → V) (e : V) x (axis : Z) (exclusive reverse : bool)
    (dt : dtype) r :
  emulated op e x axis exclusive reverse dt = Ok r → dtype_of r = dt.
Proof.
  unfold emulated, torch.flip, torch.scan, torch.transpose, torch.slice_last,
    torch.slice_init, torch.cat, mbind, result_bind.
  destruct exclusive, reverse; simpl; repeat next_branch;
    try discriminate; by intros [= <-].
Qed.

Lemma cumsum_dtype x (axis : Z) (exclusive reverse : bool) (dt : option dtype)
    (out : buffer V) r b :
  statistical.cumsum x axis exclusive reverse dt out = Ok (r, b) →
  dtype_of r = statistical.resolve_dtype x dt.
Proof.
  rewrite cumsum_emulated.
  destruct (emulated _ _ _ _ _ _ _) as [res|] eqn:Hem; [|discriminate].
  apply emulated_dtype in Hem. simpl. destruct out; by intros [= <- _].
Qed.

Lemma cumprod_dtype x (axis : Z) (exclusive reverse : bool) (dt : option dtype)
    (out : buffer V) r b :
  statistical.cumprod x axis exclusive reverse dt out = Ok (r, b) →
  dtype_of r = statistical.resolve_dtype x dt.
Proof.
  rewrite cumprod_emulated.
  destruct (emulated _ _ _ _ _ _ _) as [res|] eqn:Hem; [|discriminate].
  apply emulated_dtype in Hem. simpl.
  destruct (negb _), out; by intros [= <- _].
Qed.

Lemma sum_dtype x (axis : axis_arg) (dt : option dtype) (keepdims : bool)
    (out : buffer V) r b :
  statistical.sum x axis dt keepdims out = Ok (r, b) →
  dtype_of r = statistical.resolve_dtype x dt.
Proof.
  unfold statistical.sum, torch.sum, mbind, result_bind.
  destruct (eq_empty_tuple axis); [intros [= <- _]; apply to_dtype|].
  destruct axis; simpl; repeat next_branch; try discriminate; by intros [= <- _].
Qed.

Lemma prod_one_dtype x (dim : Z) (keepdim : bool) (dt : dtype) r :
  torch.prod x dim keepdim dt = Ok r → dtype_of r = dt.
Proof.
  unfold torch.prod, mbind, result_bind. next_branch; [|discriminate].
  by intros [= <-].
Qed.

Lemma prod_loop_dtype (l : list Z) (keepdims : bool) (dt : dtype) x r :
  l ≠ [] → for_in l (λ x i, torch.prod x i keepdims dt) x = Ok r → dtype_of r = dt.
Proof.
  intros Hl. revert x. induction l as [|i l IH]; [done|]. intros x. simpl.
  destruct (torch.prod x i keepdims dt) as [y|] eqn:Hy; simpl; [|discriminate].
  destruct l as [|j l]; [|by apply IH].
  simpl. intros [= <-]. by apply prod_one_dtype in Hy.
Qed.

Lemma prod_dtype x (axis : axis_arg) (dt : option dtype) (keepdims : bool) r :
  statistical.prod x axis dt keepdims = Ok r →
  dtype_of r = statistical.resolve_dtype x dt ∨ (axis = AxList [] ∧ r = x).
Proof.
  unfold statistical.prod.
  destruct (eq_empty_tuple axis) eqn:Ht; [intros [= <-]; left; apply to_dtype|].
  destruct axis as [|a|l|l]; simpl.
  - intros [= <-]. by left.
  - intros Hr. left. by apply prod_one_dtype in Hr.
  - destruct l; [discriminate|]. intros Hr. left.
    by apply prod_loop_dtype in Hr.
  - destruct l as [|i l]; [intros [= <-]; by right|]. intros Hr. left.
    by apply prod_loop_dtype in Hr.
Qed.

Lemma extremum_returns (f : list V → V) x (dim : axis_arg) (keepdim : bool)
    (out : buffer V) r b :
  torch.extremum f x dim keepdim out = Ok (r, b) →
  accepts_out out (dtype_of x) = true
  ∧ ∃ D, torch.wrap_dims (rank x) (torch.dims_of dim) = Ok D
      ∧ (r, b) = write_out out (torch.reduce f x D keepdim (dtype_of x)).
Proof.
  unfold torch.extremum, mbind, result_bind.
  destruct (accepts_out out (dtype_of x)); simpl; [|discriminate].
  destruct (if bool_decide (0 ∈ shape x) then _ else _); [|discriminate].
  destruct (torch.wrap_dims _ _) as [D|]; [|discriminate].
  intros [= <-]. split; [done|]. by exists D.
Qed.






End dtypes.

Section out_buffer.
Context {V : Type} `{Backend V}.
Implicit Types (x r : tensor V).

Lemma extremum_written (f : list V → V) x (dim : axis_arg) (keepdim : bool)
    (buf : tensor V) r b :
  torch.extremum f x dim keepdim (Some buf) = Ok (r, b) → b = Some r.
Proof. intros (_ & D & _ & Hr)%extremum_returns. by injection Hr as -> ->. Qed.

Lemma extremum_refuses (f : list V → V) x (dim : axis_arg) (keepdim : bool)
    (buf : tensor V) :
  dtype_of buf ≠ dtype_of x →
  torch.extremum f x dim keepdim (Some buf) = Raise RuntimeError.
Proof.
  intros Hd. unfold torch.extremum. simpl. by rewrite bool_decide_eq_false_2.
Qed.

(** C9, as amended. With an output buffer, min, max, mean, cumsum under
    every combination of the flags, and cumprod with both flags off, store
    their result in the buffer and hand the buffer back whenever they
    return: what is returned is what the buffer then holds.  std, var and
    sum take the buffer and leave it as it was.  min and max, but for
    the empty tuple as axis, raise RuntimeError on a buffer whose dtype
    is not the dtype of the input. *)
Theorem out_buffer_written x (buf : tensor V) :
  (∀ axis keepdims r b,
     statistical.min x axis keepdims (Some buf) = Ok (r, b) → b = Some r)
  ∧ (∀ axis keepdims r b,
       statistical.max x axis keepdims (Some buf) = Ok (r, b) → b = Some r)
  ∧ (∀ axis keepdims r b,
       statistical.mean x axis keepdims (Some buf) = Ok (r, b) → b = Some r)
  ∧ (∀ axis exclusive reverse dt r b,
       statistical.cumsum x axis exclusive reverse dt (Some buf) = Ok (r, b) →
       b = Some r)
  ∧ (∀ axis dt r b,
       statistical.cumprod x axis false false dt (Some buf) = Ok (r, b) → b = Some r)
  ∧ (∀ axis correction keepdims r b,
       statistical.std x axis correction keepdims (Some buf) = Ok (r, b) →
       b = Some buf)
  ∧ (∀ axis correction keepdims r b,
       statistical.var x axis correction keepdims (Some buf) = Ok (r, b) →
       b = Some buf)
  ∧ (∀ axis dt keepdims r b,
       statistical.sum x axis dt keepdims (Some buf) = Ok (r, b) → b = Some buf)
  ∧ (∀ axis keepdims,
       eq_empty_tuple axis = false → dtype_of buf ≠ dtype_of x →
       statistical.min x axis keepdims (Some buf) = Raise RuntimeError
       ∧ statistical.max x axis keepdims (Some buf) = Raise RuntimeError).
Proof.
  split; [|split; [|split; [|split; [|split; [|split; [|split; [|split]]]]]]].
  - intros axis keepdims r b. unfold statistical.min.
    destruct (eq_empty_tuple axis); [by intros [= <- <-]|].
    destruct (_ && _); apply extremum_written.
  - intros axis keepdims r b. unfold statistical.max.
    destruct (eq_empty_tuple axis); [by intros [= <- <-]|].
    destruct (_ && _); apply extremum_written.
  - intros axis keepdims r b. unfold statistical.mean.
    destruct (_ || _); [by intros [= <- <-]|].
    unfold torch.mean, mbind, result_bind.
    destruct (is_floating (dtype_of x)); simpl; [|discriminate].
    destruct (torch.wrap_dims _ _); [|discriminate].
    destruct (is_floating (dtype_of buf)); [|discriminate].
    by intros [= <- <-].
  - intros axis exclusive reverse dt r b. rewrite cumsum_emulated.
    destruct (emulated _ _ _ _ _ _ _); simpl; [|discriminate]. by intros [= <- <-].
  - intros axis dt r b. rewrite cumprod_emulated.
    destruct (emulated _ _ _ _ _ _ _); simpl; [|discriminate]. by intros [= <- <-].
  - intros axis correction keepdims r b.
    unfold statistical.std, torch.std, mbind, result_bind.
    destruct (eq_empty_tuple _); [by intros [= _ <-]|].
    destruct (is_floating (dtype_of x)); simpl;
      [|repeat case_match; discriminate].
    destruct (Qeq_bool correction 0); [next_branch; [|discriminate]; by intros [= _ <-]|].
    destruct (Qeq_bool correction 1); [next_branch; [|discriminate]; by intros [= _ <-]|].
    destruct (statistical.reduced_size _ _); [|discriminate].
    destruct (Qle_bool _ _); next_branch; try discriminate; by intros [= _ <-].
  - intros axis correction keepdims r b.
    unfold statistical.var, torch.var, mbind, result_bind.
    destruct (eq_empty_tuple _); [by intros [= _ <-]|].
    destruct (is_floating (dtype_of x)); simpl;
      [|repeat case_match; discriminate].
    destruct (Qeq_bool correction 0); [next_branch; [|discriminate]; by intros [= _ <-]|].
    destruct (Qeq_bool correction 1); [next_branch; [|discriminate]; by intros [= _ <-]|].
    destruct (statistical.reduced_size _ _); [|discriminate].
    destruct (Qle_bool _ _); next_branch; try discriminate; by intros [= _ <-].
  - intros axis dt keepdims r b.
    unfold statistical.sum, torch.sum, mbind, result_bind.
    destruct (eq_empty_tuple axis); [by intros [= _ <-]|].
    destruct axis; simpl; repeat next_branch; try discriminate; by intros [= _ <-].
  - intros axis keepdims Ht Hd. unfold statistical.min, statistical.max.
    rewrite Ht. split; destruct (_ && _); by apply extremum_refuses.
Qed.

(** With the empty tuple as axis nothing is reduced: min, max and mean
    return the input, through the buffer if there is one, std and var
    return it and leave the buffer, sum and prod return it converted to
    the resolved dtype.  mean treats the empty list alike. *)
Lemma empty_tuple_is_identity x (keepdims : bool) (correction : Q) (dt : option dtype)
    (out : buffer V) :
  statistical.min x (AxTuple []) keepdims out = Ok (write_out out x)
  ∧ statistical.max x (AxTuple []) keepdims out = Ok (write_out out x)
  ∧ statistical.mean x (AxTuple []) keepdims out = Ok (write_out out x)
  ∧ statistical.mean x (AxList []) keepdims out = Ok (write_out out x)
  ∧ statistical.std x (AxTuple []) correction keepdims out = Ok (x, out)
  ∧ statistical.var x (AxTuple []) correction keepdims out = Ok (x, out)
  ∧ statistical.sum x (AxTuple []) dt keepdims out
    = Ok (torch.to x (statistical.resolve_dtype x dt), out)
  ∧ statistical.prod x (AxTuple []) dt keepdims
    = Ok (torch.to x (statistical.resolve_dtype x dt))
  ∧ shape (torch.to x (statistical.resolve_dtype x dt)) = shape x
  ∧ ∀ idx, item (torch.to x (statistical.resolve_dtype x dt)) idx
           = item x idx
             ∨ item (torch.to x (statistical.resolve_dtype x dt)) idx
               = cast (dtype_of x) (statistical.resolve_dtype x dt) (item x idx).
Proof.
  unfold statistical.min, statistical.max, statistical.mean, statistical.std,
    statistical.var, statistical.sum, statistical.prod. simpl.
  repeat split; try by destruct out.
  - unfold torch.to. by case_bool_decide.
  - intros idx. unfold torch.to. case_bool_decide; auto.
Qed.

End out_buffer.

(** C10. Called with both the sample points [x] and the spacing [dx],
    trapz returns [None] and raises nothing: the TypeError is built and
    dropped. *)
Theorem trapz_both_returns_none {V : Type} `{Backend V}
    (trapezoid_dx : tensor V → Q → option Z → result (tensor V))
    (trapezoid_x : tensor V → tensor V → option Z → result (tensor V))
    (y x : tensor V) (dx : Q) (axis : option Z) (out : buffer V) :
  elementwise.trapz trapezoid_dx trapezoid_x y (Some x) (Some dx) axis out
  = Ok elementwise.PyNone
  ∧ elementwise.trapz trapezoid_dx trapezoid_x y (Some x) None axis out
    = elementwise.PyTensor <$> trapezoid_x y x axis
  ∧ elementwise.trapz trapezoid_dx trapezoid_x y None (Some dx) axis out
    = elementwise.PyTensor <$> trapezoid_dx y dx axis
  ∧ elementwise.trapz trapezoid_dx trapezoid_x y None None axis out
    = elementwise.PyTensor <$> trapezoid_dx y 1%Q axis.
Proof. done. Qed.

(** C2, at the failing input. With the empty list as axis, min of the
    1-D tensor [[3, 1, 2]] is the 0-d tensor holding 1, max the one
    holding 3 and sum the one holding 6; var of the floating-point tensor
    [[1, 2, 3, 4]] is the 0-d tensor holding 5/4 and std a 0-d tensor
    too: they reduce over every axis.  var of the [int32] tensor raises
    RuntimeError.  prod hands the [int32] tensor back without converting
    it to the [float64] asked for.  With the empty tuple the input comes
    back. *)
Theorem empty_list_axis_reduces :
  (∃ r, statistical.min x3 (AxList []) false None = Ok (r, None)
     ∧ shape r = [] ∧ exact.fractions (values r) = [Some 1%Q])
  ∧ (∃ r, statistical.max x3 (AxList []) false None = Ok (r, None)
       ∧ shape r = [] ∧ exact.fractions (values r) = [Some 3%Q])
  ∧ (∃ r, statistical.sum x3 (AxList []) None false None = Ok (r, None)
       ∧ shape r = [] ∧ exact.fractions (values r) = [Some 6%Q])
  ∧ (∃ r, statistical.var x4 (AxList []) 0 false None = Ok (r, None)
       ∧ shape r = [] ∧ exact.fractions (values r) = [Some (5 # 4)%Q])
  ∧ (∃ r, statistical.std x4 (AxList []) 0 false None = Ok (r, None)
       ∧ shape r = [])
  ∧ statistical.var x3 (AxList []) 0 false None = Raise RuntimeError
  ∧ statistical.prod x3 (AxList []) (Some float64) false = Ok x3
  ∧ dtype_of x3 = int32
  ∧ statistical.min x3 (AxTuple []) false None = Ok (x3, None)
  ∧ statistical.var x4 (AxTuple []) 0 false None = Ok (x4, None)
  ∧ shape x3 = [3]
  ∧ exact.fractions (values x3) = [Some 3%Q; Some 1%Q; Some 2%Q]
  ∧ shape x4 = [4]
  ∧ exact.fractions (values x4) = [Some 1%Q; Some 2%Q; Some 3%Q; Some 4%Q].
Proof.
  repeat split; try (eexists; split; [vm_compute; reflexivity|]); by vm_compute.
Qed.

(** C6, at the failing input. prod over the axes (0, 1) of a tensor of
    shape (2, 3, 4) without keepdims has shape (3), not (4): the second
    pass reduces axis 1 of what the first pass left.  Over the axes
    (0, 2) it raises.  sum over (0, 1) has shape (4). *)
Theorem prod_over_axes_shape :
  shape <$> statistical.prod x234 (AxTuple [0; 1]%Z) None false = Ok [3]
  ∧ torch.reduced_shape 0 (shape x234) [0; 1] false = [4]
  ∧ statistical.prod x234 (AxTuple [0; 2]%Z) None false = Raise IndexError
  ∧ (shape ∘ fst) <$> statistical.sum x234 (AxTuple [0; 1]%Z) None false None = Ok [4]
  ∧ shape <$> statistical.prod x234 (AxTuple [0; 1]%Z) None true = Ok [1; 1; 4].
Proof. repeat split; by vm_compute. Qed.

(** C3 as stated fails: with the empty tuple as axis nothing is reduced,
    the product of no extents is 1, and a correction of 1 leaves
    [1 - 1 <= 0]; var and std return the input, whose elements are not
    NaN. *)
Lemma empty_axis_is_not_nan :
  statistical.reduced_size x3 [] = Ok 1
  ∧ (inject_Z (Z.of_nat 1) - 1 <= 0)%Q
  ∧ statistical.var x3 (AxTuple []) 1 false None = Ok (x3, None)
  ∧ statistical.std x3 (AxTuple []) 1 false None = Ok (x3, None)
  ∧ exact.fractions (values x3) = [Some 3%Q; Some 1%Q; Some 2%Q]
  ∧ ∀ v, v ∈ values x3 → v ≠ vnan.
Proof.
  repeat split; try done.
  intros v Hv. vm_compute in Hv.
  repeat (apply elem_of_cons in Hv as [->|Hv]; [discriminate|]).
  by apply elem_of_nil in Hv.
Qed.

(** C9 as stated fails: var of [[1, 2, 3, 4]] with an output buffer
    returns the variance 5/4 and leaves the buffer holding what it held,
    and so does std. *)
Lemma var_ignores_out :
  (∃ r, statistical.var x4 AxNone 0 false (Some buf1) = Ok (r, Some buf1)
     ∧ exact.fractions (values r) = [Some (5 # 4)%Q]
     ∧ exact.fractions (values buf1) = [Some 0%Q]
     ∧ shape r ≠ shape buf1)
  ∧ (∃ r, statistical.std x4 AxNone 0 false (Some buf1) = Ok (r, Some buf1)
       ∧ shape r ≠ shape buf1).
Proof.
  split; eexists; (split; [vm_compute; reflexivity|]); by vm_compute.
Qed.

(** ** The laws of the exact engine *)

Lemma exact_add_assoc (u v w : exact.num) : vadd (vadd u v) w = vadd u (vadd v w).
Proof. destruct u, v, w; simpl; try done. f_equal. symmetry. apply Qcplus_assoc. Qed.

Lemma exact_add_comm (u v : exact.num) : vadd u v = vadd v u.
Proof. destruct u, v; simpl; try done. f_equal. apply Qcplus_comm. Qed.

Lemma exact_add_zero (v : exact.num) : vadd vzero v = v.
Proof. destruct v; simpl; try done. f_equal. apply Qcplus_0_l. Qed.

Lemma exact_mul_assoc (u v w : exact.num) : vmul (vmul u v) w = vmul u (vmul v w).
Proof. destruct u, v, w; simpl; try done. f_equal. symmetry. apply Qcmult_assoc. Qed.

Lemma exact_mul_comm (u v : exact.num) : vmul u v = vmul v u.
Proof. destruct u, v; simpl; try done. f_equal. apply Qcmult_comm. Qed.

Lemma exact_mul_one (v : exact.num) : vmul vone v = v.
Proof. destruct v; simpl; try done. f_equal. apply Qcmult_1_l. Qed.

Lemma exact_cast_float (v : exact.num) :
  cast float32 (statistical._infer_dtype (V := exact.num) float32) v = v.
Proof. by destruct v. Qed.

Lemma exact_cast_zero (s d : dtype) : cast s d (vzero : exact.num) = vzero.
Proof. by destruct d. Qed.

Lemma exact_cast_one (s d : dtype) : cast s d (vone : exact.num) = vone.
Proof. by destruct d. Qed.

Lemma exact_sqrt_nan : vsqrt (vnan : exact.num) = vnan.
Proof. reflexivity. Qed.

(** ** The theorems at concrete tensors *)

(** C1 on [[1, 2, 3]]. *)
Lemma scans_of_three_elements_witness :
  gives (statistical.cumsum (vector float32 [exact.int 1; exact.int 2; exact.int 3])
           0 true false None None)
    [3] [vzero; exact.int 1; vadd (exact.int 1) (exact.int 2)]
  ∧ gives (statistical.cumprod (vector float32 [exact.int 1; exact.int 2; exact.int 3])
             0 true true None None)
      [3] [vmul (exact.int 2) (exact.int 3); exact.int 3; vone].
Proof.
  pose proof (scans_of_three_elements float32 (exact.int 1) (exact.int 2) (exact.int 3)
                exact_add_assoc exact_add_comm exact_add_zero
                exact_mul_assoc exact_mul_comm exact_mul_one exact_cast_float)
    as (Hsum & _ & _ & _ & _ & _ & Hprod & _).
  exact (conj Hsum Hprod).
Defined.


(** C8 on [[1, 2, 3, 4]]. *)
Lemma flip_involutive_reverse_scan_witness :
  (∃ f x', torch.flip x4 0 = Ok f ∧ torch.flip f 0 = Ok x' ∧ same x' x4)
  ∧ ∃ f c r, torch.flip x4 0 = Ok f
      ∧ torch.cumsum f 0 (statistical.resolve_dtype x4 None) = Ok c
      ∧ torch.flip c 0 = Ok r
      ∧ statistical.cumsum x4 0 false true None None = Ok (write_out None r)
      ∧ shape r = shape x4.
Proof.
  assert (Hk : torch.wrap_dim (rank x4) 0 = Ok 0) by reflexivity.
  assert (Hr : 0 < rank x4) by (unfold rank; simpl; lia).
  destruct (flip_involutive_reverse_scan x4 0 0 Hk Hr) as (Hflip & Hsum & _).
  split; [exact Hflip|].
  destruct (Hsum None None) as (f & c & r & H1 & H2 & H3 & H4 & H5 & _).
  exists f, c, r. auto.
Defined.

Lemma x4_axis_0 : names_axes x4 (axes_of x4 (AxInt 0)) [0].
Proof.
  split; [|apply NoDup_singleton].
  constructor; [|constructor]. split; [reflexivity|]. unfold rank; simpl; lia.
Qed.

Lemma x4_every_axis : names_axes x4 (axes_of x4 AxNone) [0].
Proof. exact x4_axis_0. Qed.

(** C3, as amended, on [[1, 2, 3, 4]] with a correction of 4. *)
Lemma degenerate_sample_gives_nan_witness :
  (∃ r, statistical.var x4 (AxInt 0) 4 false None = Ok (r, None)
     ∧ shape r = torch.reduced_shape 0 (shape x4) [0] false
     ∧ ∀ v, v ∈ values r → v = vnan)
  ∧ (∃ r, statistical.std x4 (AxInt 0) 4 false None = Ok (r, None)
     ∧ shape r = torch.reduced_shape 0 (shape x4) [0] false
     ∧ ∀ v, v ∈ values r → v = vnan).
Proof.
  assert (Hd : (inject_Z (Z.of_nat (extent_product (shape x4) [0%nat])) - 4 <= 0)%Q)
    by (by vm_compute).
  destruct (degenerate_sample_gives_nan x4 (AxInt 0) 4 false None [0]
              exact_sqrt_nan eq_refl eq_refl x4_axis_0 Hd) as [Hfloat _].
  exact (Hfloat eq_refl).
Defined.

(** C4, as amended, on [[1, 2, 3, 4]] with a correction of 5/2. *)
Lemma correction_rescales_witness :
  ∃ population_var population_std factor,
    torch.var x4 (axes_of x4 AxNone) false false = Ok population_var
    ∧ torch.std x4 (axes_of x4 AxNone) false false = Ok population_std
    ∧ factor = (inject_Z (Z.of_nat (extent_product (shape x4) [0%nat]))
                / (inject_Z (Z.of_nat (extent_product (shape x4) [0%nat])) - (5 # 2)))%Q
    ∧ statistical.var x4 AxNone (5 # 2) false None
      = Ok (torch.mul population_var (of_Q factor), None)
    ∧ statistical.std x4 AxNone (5 # 2) false None
      = Ok (torch.mul population_std (vsqrt (of_Q factor)), None)
    ∧ (∀ idx, item (torch.mul population_var (of_Q factor)) idx
              = vmul (item population_var idx) (of_Q factor))
    ∧ (∀ idx, item (torch.mul population_std (vsqrt (of_Q factor))) idx
              = vmul (item population_std idx) (vsqrt (of_Q factor)))
    ∧ (∀ idx, item population_std idx = vsqrt (item population_var idx)).
Proof.
  destruct (correction_rescales x4 AxNone (5 # 2) false None [0]
              eq_refl eq_refl x4_every_axis) as [Hfloat _].
  destruct (Hfloat eq_refl) as [Hcustom _].
  apply Hcustom; by vm_compute.
Defined.

(** C4 as stated fails on a tensor of integers: with corrections that
    leave [size - correction] positive, var and std of the [int32] tensor
    [[3, 1, 2]] raise RuntimeError, since torch takes no variance of
    integers. *)
Lemma var_refuses_integers :
  dtype_of x3 = int32
  ∧ statistical.reduced_size x3 [0%Z] = Ok 3
  ∧ (0 < inject_Z (Z.of_nat 3) - (1 # 2))%Q
  ∧ statistical.var x3 (AxInt 0) (1 # 2) false None = Raise RuntimeError
  ∧ statistical.std x3 (AxInt 0) (1 # 2) false None = Raise RuntimeError
  ∧ statistical.var x3 (AxInt 0) 0 false None = Raise RuntimeError
  ∧ statistical.var x3 (AxInt 0) 1 false None = Raise RuntimeError.
Proof. repeat split; by vm_compute. Qed.



(** C9, as amended, with buffers of the dtype and of the shape of the
    result: of one element for the min of [[1, 2, 3, 4]] under keepdims,
    of four for its cumsum.  The buffer is refused for the [int32] tensor
    [[3, 1, 2]]. *)
Lemma out_buffer_written_witness :
  (∃ r b, statistical.min x4 (AxInt 0) true (Some buf1) = Ok (r, b) ∧ b = Some r
     ∧ dtype_of r = dtype_of buf1 ∧ shape r = shape buf1
     ∧ exact.fractions (values r) = [Some 1%Q])
  ∧ (∃ r b, statistical.cumsum x4 0 true true None (Some buf4) = Ok (r, b)
       ∧ b = Some r
       ∧ dtype_of r = dtype_of buf4 ∧ shape r = shape buf4
       ∧ exact.fractions (values r) = [Some 9%Q; Some 7%Q; Some 4%Q; Some 0%Q])
  ∧ (∃ r b, statistical.var x4 AxNone 0 false (Some buf1) = Ok (r, b)
       ∧ b = Some buf1)
  ∧ dtype_of x3 ≠ dtype_of buf1
  ∧ statistical.min x3 (AxInt 0) false (Some buf1) = Raise RuntimeError.
Proof.
  pose proof (out_buffer_written x4 buf1) as (Hmin & _ & _ & _ & _ & _ & Hvar & _).
  pose proof (out_buffer_written x4 buf4) as (_ & _ & _ & Hcumsum & _).
  pose proof (out_buffer_written x3 buf1) as (_ & _ & _ & _ & _ & _ & _ & _ & Href).
  split; [|split; [|split; [|split]]].
  - eexists _, _. split; [reflexivity|].
    split; [eapply (Hmin (AxInt 0) true); reflexivity|]. by vm_compute.
  - eexists _, _. split; [reflexivity|].
    split; [eapply (Hcumsum 0%Z true true None); reflexivity|]. by vm_compute.
  - eexists _, _. split; [reflexivity|]. eapply (Hvar AxNone 0%Q false). reflexivity.
  - discriminate.
  - apply (Href (AxInt 0) false); [reflexivity|discriminate].
Defined.

Section shapes_and_scans.
Context {V : Type} `{Backend V}.
Implicit Types (x r : tensor V).

Lemma to_shape x (d : dtype) : shape (torch.to x d) = shape x.
Proof. unfold torch.to. by case_bool_decide. Qed.

Lemma explicit_axes_wrap x (axis : axis_arg) (D : list nat) :
  axis ≠ AxNone → statistical.as_tuple axis ≠ [] →
  names_axes x (statistical.as_tuple axis) D →
  torch.wrap_dims (rank x) (torch.dims_of axis) = Ok D.
Proof.
  intros Hnone Hl Hn.
  replace (torch.dims_of axis) with (statistical.as_tuple axis) by (by destruct axis).
  apply wrap_dims_Ok; auto.
Qed.

Lemma mean_Ok x (dim : axis_arg) (keepdim : bool) (out : buffer V) (D : list nat) :
  is_floating (dtype_of x) = true → accepts_out out (dtype_of x) = true →
  torch.wrap_dims (rank x) (torch.dims_of dim) = Ok D →
  torch.mean x dim keepdim out
  = Ok (write_out out (torch.reduce torch.mean_lane x D keepdim (dtype_of x))).
Proof.
  intros Hf Hacc Hw. unfold torch.mean. rewrite Hf, Hw. simpl.
  destruct out as [buf|]; [|done]. simpl in Hacc. apply bool_decide_eq_true in Hacc.
  rewrite Hacc, Hf. unfold torch.to. by rewrite bool_decide_eq_true_2.
Qed.

Lemma mean_refuses x (dim : axis_arg) (keepdim : bool) (out : buffer V) :
  is_floating (dtype_of x) = false → torch.mean x dim keepdim out = Raise RuntimeError.
Proof. intros Hf. unfold torch.mean. by rewrite Hf. Qed.

Lemma mean_returns x (dim : axis_arg) (keepdim : bool) (out : buffer V) r b :
  torch.mean x dim keepdim out = Ok (r, b) →
  is_floating (dtype_of x) = true
  ∧ ∃ D, torch.wrap_dims (rank x) (torch.dims_of dim) = Ok D
      ∧ shape r = torch.reduced_shape 0 (shape x) D keepdim.
Proof.
  unfold torch.mean, mbind, result_bind.
  destruct (is_floating (dtype_of x)); simpl; [|discriminate].
  destruct (torch.wrap_dims _ _) as [D|]; [|discriminate].
  destruct out as [buf|].
  - destruct (is_floating (dtype_of buf)); [|discriminate].
    intros [= <- _]. split; [done|]. exists D. split; [done|]. simpl.
    by rewrite to_shape.
  - intros [= <- _]. split; [done|]. by exists D.
Qed.

Lemma extremum_Ok (f : list V → V) x (dim : axis_arg) (keepdim : bool) (D : list nat) :
  0 ∉ shape x →
  torch.wrap_dims (rank x) (torch.dims_of dim) = Ok D →
  torch.extremum f x dim keepdim None
  = Ok (torch.reduce f x D keepdim (dtype_of x), None).
Proof.
  intros H0 Hw. unfold torch.extremum. simpl.
  by rewrite bool_decide_eq_false_2, Hw by done.
Qed.

(** The shape of a reduction over explicitly given axes: the input shape
    with the axes [D] removed, or kept with extent 1 under keepdims.
    This holds for min, max, mean, sum, std and var whenever they return;
    prod is not among them.  sum always returns; min and max return on a
    tensor that has elements; mean, std and var return on a
    floating-point tensor and raise RuntimeError on any other. *)
Theorem reduction_shape x (axis : axis_arg) (keepdims : bool) (D : list nat) :
  axis ≠ AxNone → statistical.as_tuple axis ≠ [] →
  names_axes x (statistical.as_tuple axis) D →
  (∀ out r b, statistical.min x axis keepdims out = Ok (r, b) →
              shape r = torch.reduced_shape 0 (shape x) D keepdims)
  ∧ (∀ out r b, statistical.max x axis keepdims out = Ok (r, b) →
                shape r = torch.reduced_shape 0 (shape x) D keepdims)
  ∧ (∀ out r b, statistical.mean x axis keepdims out = Ok (r, b) →
                shape r = torch.reduced_shape 0 (shape x) D keepdims)
  ∧ (∀ dt out, ∃ r b, statistical.sum x axis dt keepdims out = Ok (r, b)
                ∧ shape r = torch.reduced_shape 0 (shape x) D keepdims)
  ∧ (0 ∉ shape x →
     (∃ r, statistical.min x axis keepdims None = Ok (r, None)
        ∧ shape r = torch.reduced_shape 0 (shape x) D keepdims)
     ∧ (∃ r, statistical.max x axis keepdims None = Ok (r, None)
          ∧ shape r = torch.reduced_shape 0 (shape x) D keepdims))
  ∧ (is_floating (dtype_of x) = true →
     (∃ r, statistical.mean x axis keepdims None = Ok (r, None)
        ∧ shape r = torch.reduced_shape 0 (shape x) D keepdims)
     ∧ (∀ correction out, ∃ r,
          statistical.std x axis correction keepdims out = Ok (r, out)
          ∧ shape r = torch.reduced_shape 0 (shape x) D keepdims)
     ∧ (∀ correction out, ∃ r,
          statistical.var x axis correction keepdims out = Ok (r, out)
          ∧ shape r = torch.reduced_shape 0 (shape x) D keepdims))
  ∧ (is_floating (dtype_of x) = false →
     (∀ out, statistical.mean x axis keepdims out = Raise RuntimeError)
     ∧ (∀ correction out,
          statistical.std x axis correction keepdims out = Raise RuntimeError)
     ∧ (∀ correction out,
          statistical.var x axis correction keepdims out = Raise RuntimeError)).
Proof.
  intros Hnone Hl Hn.
  pose proof (explicit_axes_wrap x axis D Hnone Hl Hn) as Hw.
  assert (Ht : eq_empty_tuple axis = false) by (by destruct axis as [| |[]|]).
  assert (Hel : eq_empty_list axis = false) by (by destruct axis as [| | |[]]).
  assert (Hax : axes_of x axis = statistical.as_tuple axis) by (by destruct axis).
  assert (Hgate : negb keepdims && py_not axis && ne_zero axis = false).
  { destruct axis as [|a|[]|[]]; simpl in *; try done; try by rewrite andb_false_r.
    by destruct keepdims, (a =? 0)%Z. }
  assert (Hmean : ∀ out, statistical.mean x axis keepdims out
                         = torch.mean x axis keepdims out).
  { intros out. unfold statistical.mean.
    replace (match axis with AxNone => _ | _ => axis end) with axis by (by destruct axis).
    by rewrite Ht, Hel. }
  split; [|split; [|split; [|split; [|split; [|split]]]]].
  - intros out r b. unfold statistical.min. rewrite Ht, Hgate.
    intros (_ & D' & HD' & Hr)%extremum_returns.
    rewrite Hw in HD'. injection HD' as <-. destruct out; by injection Hr as -> _.
  - intros out r b. unfold statistical.max. rewrite Ht, Hgate.
    intros (_ & D' & HD' & Hr)%extremum_returns.
    rewrite Hw in HD'. injection HD' as <-. destruct out; by injection Hr as -> _.
  - intros out r b. rewrite Hmean. intros (_ & D' & HD' & Hs)%mean_returns.
    rewrite Hw in HD'. by injection HD' as <-.
  - intros dt out. unfold statistical.sum. rewrite Ht.
    unfold torch.sum.
    destruct axis as [|a|l|l]; [done|..]; simpl in *; rewrite Hw; simpl;
      eexists _, _; (split; [reflexivity|]); simpl; by rewrite to_shape.
  - intros H0. unfold statistical.min, statistical.max. rewrite Ht, Hgate.
    unfold torch.amin, torch.amax. rewrite !(extremum_Ok _ x axis keepdims D H0 Hw).
    split; by eexists.
  - intros Hf. split; [|split].
    + rewrite Hmean, (mean_Ok x axis keepdims None D Hf eq_refl Hw). by eexists.
    + intros correction out. eexists. rewrite <- Hax in Hn.
      split; [by apply std_estimator|apply estimator_shape].
    + intros correction out. eexists. rewrite <- Hax in Hn.
      split; [by apply var_estimator|apply estimator_shape].
  - intros Hf. split; [|split].
    + intros out. rewrite Hmean. by apply mean_refuses.
    + intros correction out. rewrite <- Hax in Hn. by apply (std_refuses x axis _ _ _ D).
    + intros correction out. rewrite <- Hax in Hn. by apply (var_refuses x axis _ _ _ D).
Qed.


(** cumprod with a flag set never looks at [out]. *)
Lemma cumprod_flags_ignore_out x (axis : Z) (exclusive reverse : bool)
    (dt : option dtype) (out : buffer V) r b :
  exclusive || reverse = true →
  statistical.cumprod x axis exclusive reverse dt out = Ok (r, b) → b = out.
Proof.
  intros Hf. rewrite cumprod_emulated, Hf.
  destruct (emulated _ _ _ _ _ _ _); simpl; [|discriminate]. by intros [= _ <-].
Qed.

End shapes_and_scans.

Lemma x234_axes : names_axes x234 (statistical.as_tuple (AxTuple [0; -1]%Z)) [0; 2].
Proof.
  split; [|by apply NoDup_ListNoDup; repeat constructor; simpl; intuition lia].
  repeat constructor; simpl; unfold rank; simpl; lia.
Qed.

(** The sum of a 2 x 3 x 4 tensor over its first and last axis. *)
Lemma reduction_shape_witness :
  ∃ r b, statistical.sum x234 (AxTuple [0; -1]%Z) None false None = Ok (r, b)
    ∧ shape r = [3].
Proof.
  assert (Hn : AxTuple [0; -1]%Z ≠ AxNone) by discriminate.
  assert (Hl : statistical.as_tuple (AxTuple [0; -1]%Z) ≠ []) by discriminate.
  destruct (reduction_shape x234 (AxTuple [0; -1]%Z) false [0; 2] Hn Hl x234_axes)
    as (_ & _ & _ & Hsum & _).
  exact (Hsum None None).
Defined.


(** ** Axes out of range, and tensors without axes *)

Lemma wrap_dim_out_of_range (r : nat) (d : Z) :
  (d < - Z.of_nat (Nat.max r 1) ∨ Z.of_nat (Nat.max r 1) ≤ d)%Z →
  torch.wrap_dim r d = Raise IndexError.
Proof.
  intros Hd. unfold torch.wrap_dim.
  destruct (Z.leb_spec (- Z.of_nat (Nat.max r 1)) d); [|done].
  destruct (Z.ltb_spec d (Z.of_nat (Nat.max r 1))); [lia|done].
Qed.

Section scan_edges.
Context {V : Type} `{Backend V}.
Implicit Types (x r : tensor V).

Lemma emulated_bad_axis (op : V → V → V) (e : V) x (axis : Z)
    (exclusive reverse : bool) (dt : dtype) :
  torch.wrap_dim (rank x) axis = Raise IndexError →
  emulated op e x axis exclusive reverse dt = Raise IndexError.
Proof.
  intros Hw. unfold emulated, torch.scan, torch.flip, torch.transpose.
  destruct exclusive, reverse; simpl; by rewrite Hw.
Qed.

(** An axis outside [[-rank, rank)] makes cumsum and cumprod raise
    IndexError, under every combination of the flags, with or without a
    dtype and a buffer. *)
Theorem scan_rejects_bad_axis x (axis : Z) (exclusive reverse : bool)
    (dt : option dtype) (out : buffer V) :
  (axis < - Z.of_nat (Nat.max (rank x) 1) ∨ Z.of_nat (Nat.max (rank x) 1) ≤ axis)%Z →
  statistical.cumsum x axis exclusive reverse dt out = Raise IndexError
  ∧ statistical.cumprod x axis exclusive reverse dt out = Raise IndexError.
Proof.
  intros Hw%wrap_dim_out_of_range.
  rewrite cumsum_emulated, cumprod_emulated.
  by rewrite !emulated_bad_axis.
Qed.



End scan_edges.

Lemma scan_rejects_bad_axis_witness :
  statistical.cumsum x4 1 true false None None = Raise IndexError
  ∧ statistical.cumprod x234 (-4) false true None None = Raise IndexError.
Proof.
  split.
  - apply (scan_rejects_bad_axis x4 1 true false None None). right. by vm_compute.
  - apply (scan_rejects_bad_axis x234 (-4) false true None None). left. by vm_compute.
Defined.


(** ** How the two flags of a scan compose *)

Section scan_composition.
Context {V : Type} `{Backend V}.
Implicit Types (x r : tensor V).

Lemma scan_at_shifted (op : V → V → V) (e : V) (c : V → V) (g : nat → V) (i : nat) :
  (∀ v, op e v = v) → c e = e →
  torch.scan_at op (λ j, c (match j with 0 => e | S j' => g j' end)) (S i)
  = torch.scan_at op (λ j, c (g j)) i.
Proof.
  intros Hid Hc. induction i as [|i IH].
  - simpl. by rewrite Hc, Hid.
  - change (torch.scan_at op (λ j, c (match j with 0 => e | S j' => g j' end)) (S (S i)))
      with (op (torch.scan_at op (λ j, c (match j with 0 => e | S j' => g j' end)) (S i))
              (c (g (S i)))).
    by rewrite IH.
Qed.

Lemma suffix_fold_ext (op : V → V → V) (f g : nat → V) (i m : nat) :
  (∀ j, f j = g j) → suffix_fold op f i m = suffix_fold op g i m.
Proof.
  intros Hfg. revert i. induction m as [|m IH]; intros i; simpl; [done|].
  by rewrite IH, Hfg.
Qed.

Lemma lane_scan_exclusive_forward (op : V → V → V) (e : V) (c : V → V) (g : nat → V)
    (n i : nat) :
  (∀ v, op e v = v) → c e = e →
  lane_scan op e c g true false n 0 = e
  ∧ lane_scan op e c g true false n (S i) = lane_scan op e c g false false n i.
Proof.
  intros Hid Hc. split; [exact Hc|]. by apply scan_at_shifted.
Qed.

Lemma lane_scan_exclusive_reverse (op : V → V → V) (e : V) (c : V → V) (g : nat → V)
    (n i : nat) :
  (S i < n → lane_scan op e c g true true n i = lane_scan op e c g false true n (S i))
  ∧ (S i = n → lane_scan op e c g true true n i = e).
Proof.
  unfold lane_scan. split; intros Hi.
  - destruct (Nat.ltb_spec (S i) n); [|lia]. f_equal. lia.
  - by destruct (Nat.ltb_spec (S i) n); [lia|].
Qed.

Lemma emulated_exclusive_shift (op : V → V → V) (e : V) x (axis : Z) (k : nat)
    (dt : dtype) (excl_fwd incl_fwd excl_rev incl_rev : tensor V) :
  (∀ v, op e v = v) → (∀ s d, cast s d e = e) →
  torch.wrap_dim (rank x) axis = Ok k → k < rank x →
  emulated op e x axis true false dt = Ok excl_fwd →
  emulated op e x axis false false dt = Ok incl_fwd →
  emulated op e x axis true true dt = Ok excl_rev →
  emulated op e x axis false true dt = Ok incl_rev →
  ∀ idx, idx ∈ indices (shape x) →
    item excl_fwd (<[k := 0]> idx) = e
    ∧ (S (idx !!! k) < shape x !!! k →
       item excl_fwd (<[k := S (idx !!! k)]> idx) = item incl_fwd idx
       ∧ item excl_rev idx = item incl_rev (<[k := S (idx !!! k)]> idx))
    ∧ item excl_rev (<[k := shape x !!! k - 1]> idx) = e.
Proof.
  intros Hid Hc Hk Hr H1 H2 H3 H4 idx Hin.
  destruct (emulated_spec op e x axis k true false dt Hk Hr) as (r1 & E1 & _ & _ & I1).
  destruct (emulated_spec op e x axis k false false dt Hk Hr) as (r2 & E2 & _ & _ & I2).
  destruct (emulated_spec op e x axis k true true dt Hk Hr) as (r3 & E3 & _ & _ & I3).
  destruct (emulated_spec op e x axis k false true dt Hk Hr) as (r4 & E4 & _ & _ & I4).
  rewrite H1 in E1. rewrite H2 in E2. rewrite H3 in E3. rewrite H4 in E4.
  injection E1 as <-. injection E2 as <-. injection E3 as <-. injection E4 as <-.
  pose proof (indices_length _ _ Hin) as Hlen.
  pose proof (indices_bound _ _ k Hin Hr) as Hb.
  assert (Hins : ∀ j, j < shape x !!! k → <[k := j]> idx ∈ indices (shape x)).
  { intros j Hj. rewrite <- (insert_total_id (shape x) k) at 1.
    by apply indices_insert. }
  unfold rank in Hr.
  split; [|split].
  - rewrite I1 by (apply Hins; lia).
    rewrite list_lookup_total_insert_eq by lia. apply Hc.
  - intros Hlt. split.
    + rewrite I1 by (by apply Hins).
      rewrite list_lookup_total_insert_eq by lia. rewrite I2 by done.
      destruct (lane_scan_exclusive_forward op e (cast (dtype_of x) dt)
                  (λ j, item x (<[k := j]> (<[k := S (idx !!! k)]> idx)))
                  (shape x !!! k) (idx !!! k) Hid (Hc _ _)) as [_ ->].
      unfold lane_scan. apply scan_at_ext. intros j _.
      by rewrite list_insert_insert_eq.
    + rewrite I3 by done. rewrite I4 by (by apply Hins).
      rewrite list_lookup_total_insert_eq by lia.
      rewrite (proj1 (lane_scan_exclusive_reverse op e (cast (dtype_of x) dt)
                        (λ j, item x (<[k := j]> idx)) (shape x !!! k) (idx !!! k)))
        by done.
      unfold lane_scan. apply suffix_fold_ext. intros j.
      by rewrite list_insert_insert_eq.
  - rewrite I3 by (apply Hins; lia).
    rewrite list_lookup_total_insert_eq by lia.
    apply (proj2 (lane_scan_exclusive_reverse op e (cast (dtype_of x) dt)
                    (λ j, item x (<[k := j]> (<[k := shape x !!! k - 1]> idx)))
                    (shape x !!! k) (shape x !!! k - 1))). lia.
Qed.

End scan_composition.

Section scan_composition_of_the_source.
Context {V : Type} `{Backend V}.
Implicit Types (x r : tensor V).

(** An exclusive scan is the inclusive scan moved by one position along
    the axis, with the identity element coming in at the end it moves
    away from.  The identity element is taken neutral on the left and
    unchanged by the conversion between dtypes. *)
Theorem exclusive_is_shifted_inclusive x (axis : Z) (k : nat) (dt : option dtype) :
  (∀ v, vadd vzero v = v) → (∀ v, vmul vone v = v) →
  (∀ s d, cast s d vzero = vzero) → (∀ s d, cast s d vone = vone) →
  torch.wrap_dim (rank x) axis = Ok k → k < rank x →
  (∃ excl_fwd incl_fwd excl_rev incl_rev,
     statistical.cumsum x axis true false dt None = Ok (excl_fwd, None)
     ∧ statistical.cumsum x axis false false dt None = Ok (incl_fwd, None)
     ∧ statistical.cumsum x axis true true dt None = Ok (excl_rev, None)
     ∧ statistical.cumsum x axis false true dt None = Ok (incl_rev, None)
     ∧ moved_by_one vzero k x excl_fwd incl_fwd excl_rev incl_rev)
  ∧ (∃ excl_fwd incl_fwd excl_rev incl_rev,
       statistical.cumprod x axis true false dt None = Ok (excl_fwd, None)
       ∧ statistical.cumprod x axis false false dt None = Ok (incl_fwd, None)
       ∧ statistical.cumprod x axis true true dt None = Ok (excl_rev, None)
       ∧ statistical.cumprod x axis false true dt None = Ok (incl_rev, None)
       ∧ moved_by_one vone k x excl_fwd incl_fwd excl_rev incl_rev).
Proof.
  intros Hadd Hmul Hzero Hone Hk Hr. split.
  - destruct (emulated_spec vadd vzero x axis k true false
                (statistical.resolve_dtype x dt) Hk Hr) as (r1 & E1 & _).
    destruct (emulated_spec vadd vzero x axis k false false
                (statistical.resolve_dtype x dt) Hk Hr) as (r2 & E2 & _).
    destruct (emulated_spec vadd vzero x axis k true true
                (statistical.resolve_dtype x dt) Hk Hr) as (r3 & E3 & _).
    destruct (emulated_spec vadd vzero x axis k false true
                (statistical.resolve_dtype x dt) Hk Hr) as (r4 & E4 & _).
    exists r1, r2, r3, r4. rewrite !cumsum_emulated, E1, E2, E3, E4.
    repeat (split; [done|]).
    exact (emulated_exclusive_shift vadd vzero x axis k (statistical.resolve_dtype x dt)
             r1 r2 r3 r4 Hadd Hzero Hk Hr E1 E2 E3 E4).
  - destruct (emulated_spec vmul vone x axis k true false
                (statistical.resolve_dtype x dt) Hk Hr) as (r1 & E1 & _).
    destruct (emulated_spec vmul vone x axis k false false
                (statistical.resolve_dtype x dt) Hk Hr) as (r2 & E2 & _).
    destruct (emulated_spec vmul vone x axis k true true
                (statistical.resolve_dtype x dt) Hk Hr) as (r3 & E3 & _).
    destruct (emulated_spec vmul vone x axis k false true
                (statistical.resolve_dtype x dt) Hk Hr) as (r4 & E4 & _).
    exists r1, r2, r3, r4. rewrite !cumprod_emulated, E1, E2, E3, E4.
    repeat (split; [done|]).
    exact (emulated_exclusive_shift vmul vone x axis k (statistical.resolve_dtype x dt)
             r1 r2 r3 r4 Hmul Hone Hk Hr E1 E2 E3 E4).
Qed.

Lemma emulated_reverse_flip (op : V → V → V) (e : V) x (axis : Z) (k : nat)
    (exclusive : bool) (dt : dtype) :
  (∀ v, op e v = v) → (∀ s d, cast s d e = e) →
  torch.wrap_dim (rank x) axis = Ok k → k < rank x →
  ∃ f c r r', torch.flip x axis = Ok f
    ∧ dtype_of f = dtype_of x
    ∧ emulated op e f axis exclusive false dt = Ok c
    ∧ torch.flip c axis = Ok r'
    ∧ emulated op e x axis exclusive true dt = Ok r
    ∧ same r r'.
Proof.
  intros Hid Hc Hk Hr.
  set (f := Tensor (dtype_of x) (shape x)
              (λ idx, item x (torch.flip_index (shape x) k idx))).
  assert (Hf : torch.flip x axis = Ok f) by (by apply flip_Ok).
  destruct (emulated_spec op e f axis k exclusive false dt Hk Hr)
    as (c & Ec & Dc & Sc & Ic).
  destruct (emulated_spec op e x axis k exclusive true dt Hk Hr)
    as (r & Er & Dr & Sr & Ir).
  change (shape f) with (shape x) in Sc, Ic.
  change (dtype_of f) with (dtype_of x) in Ic.
  assert (Hkc : torch.wrap_dim (rank c) axis = Ok k) by (unfold rank; by rewrite Sc).
  exists f, c, r. eexists.
  split; [done|]. split; [done|]. split; [done|].
  split; [by apply flip_Ok|]. split; [done|].
  split; [simpl; congruence|]. split; [simpl; congruence|].
  unfold values. rewrite Sr. simpl. rewrite Sc. simpl.
  apply list_fmap_ext. intros n idx Hidx%list_elem_of_lookup_2.
  pose proof (indices_length _ _ Hidx) as Hlen.
  pose proof (indices_bound _ _ k Hidx Hr) as Hb.
  unfold rank in Hr.
  rewrite Ir by done. rewrite Ic by (by apply flip_index_indices).
  subst f. simpl. rewrite flip_index_total by lia.
  assert (Hg : ∀ j, torch.flip_index (shape x) k (<[k := j]> (torch.flip_index (shape x) k idx))
                    = <[k := shape x !!! k - 1 - j]> idx).
  { intros j. unfold torch.flip_index at 2. rewrite list_insert_insert_eq.
    by rewrite flip_index_insert by lia. }
  destruct exclusive; unfold lane_scan.
  - destruct (Nat.ltb_spec (S (idx !!! k)) (shape x !!! k)) as [Hlt|Hge].
    + replace (shape x !!! k - 1 - idx !!! k) with (S (shape x !!! k - 1 - S (idx !!! k)))
        by lia.
      rewrite (scan_at_shifted op e _ (λ j, item x (torch.flip_index (shape x) k
                 (<[k := j]> (torch.flip_index (shape x) k idx))))) by done.
      replace (shape x !!! k - 2 - idx !!! k) with (shape x !!! k - 1 - S (idx !!! k)) by lia.
      rewrite <- scan_at_reverse by lia.
      apply scan_at_ext. intros j _. by rewrite Hg.
    + replace (shape x !!! k - 1 - idx !!! k) with 0 by lia. simpl. by rewrite Hc.
  - rewrite <- scan_at_reverse by lia.
    apply scan_at_ext. intros j _. by rewrite Hg.
Qed.

(** The two flags act independently: a reverse scan, exclusive or not, is
    the forward scan with the same exclusive flag of the flipped tensor,
    flipped back.  The identity element is taken neutral on the left and
    unchanged by the conversion between dtypes. *)
Theorem reverse_is_flip_scan_flip x (axis : Z) (k : nat) (exclusive : bool)
    (dt : option dtype) :
  (∀ v, vadd vzero v = v) → (∀ v, vmul vone v = v) →
  (∀ s d, cast s d vzero = vzero) → (∀ s d, cast s d vone = vone) →
  torch.wrap_dim (rank x) axis = Ok k → k < rank x →
  (∃ f c r r', torch.flip x axis = Ok f
     ∧ statistical.cumsum f axis exclusive false dt None = Ok (c, None)
     ∧ torch.flip c axis = Ok r'
     ∧ statistical.cumsum x axis exclusive true dt None = Ok (r, None)
     ∧ same r r')
  ∧ (∃ f c r r', torch.flip x axis = Ok f
       ∧ statistical.cumprod f axis exclusive false dt None = Ok (c, None)
       ∧ torch.flip c axis = Ok r'
       ∧ statistical.cumprod x axis exclusive true dt None = Ok (r, None)
       ∧ same r r').
Proof.
  intros Hadd Hmul Hzero Hone Hk Hr. split.
  - destruct (emulated_reverse_flip vadd vzero x axis k exclusive
                (statistical.resolve_dtype x dt) Hadd Hzero Hk Hr)
      as (f & c & r & r' & Hf & Hd & Hc & Hr' & Hrr & Hsame).
    exists f, c, r, r'. rewrite !cumsum_emulated.
    unfold statistical.resolve_dtype in *. rewrite Hd, Hc, Hrr. done.
  - destruct (emulated_reverse_flip vmul vone x axis k exclusive
                (statistical.resolve_dtype x dt) Hmul Hone Hk Hr)
      as (f & c & r & r' & Hf & Hd & Hc & Hr' & Hrr & Hsame).
    exists f, c, r, r'. rewrite !cumprod_emulated.
    unfold statistical.resolve_dtype in *. rewrite Hd, Hc, Hrr. simpl.
    split; [done|]. split; [by destruct (negb _)|]. split; [done|].
    split; [by destruct exclusive|done].
Qed.

End scan_composition_of_the_source.

Lemma exclusive_is_shifted_inclusive_witness :
  ∃ excl_fwd incl_fwd excl_rev incl_rev,
    statistical.cumsum x234 1 true false None None = Ok (excl_fwd, None)
    ∧ statistical.cumsum x234 1 false false None None = Ok (incl_fwd, None)
    ∧ statistical.cumsum x234 1 true true None None = Ok (excl_rev, None)
    ∧ statistical.cumsum x234 1 false true None None = Ok (incl_rev, None)
    ∧ moved_by_one vzero 1 x234 excl_fwd incl_fwd excl_rev incl_rev.
Proof.
  apply (exclusive_is_shifted_inclusive x234 1 1 None
           exact_add_zero exact_mul_one exact_cast_zero exact_cast_one eq_refl).
  unfold rank; simpl; lia.
Defined.

Lemma reverse_is_flip_scan_flip_witness :
  ∃ f c r r', torch.flip x234 (-1) = Ok f
    ∧ statistical.cumprod f (-1) true false None None = Ok (c, None)
    ∧ torch.flip c (-1) = Ok r'
    ∧ statistical.cumprod x234 (-1) true true None None = Ok (r, None)
    ∧ same r r'.
Proof.
  apply (reverse_is_flip_scan_flip x234 (-1) 2 true None
           exact_add_zero exact_mul_one exact_cast_zero exact_cast_one eq_refl).
  unfold rank; simpl; lia.
Defined.

(** ** Negative, invalid and repeated axes *)



Lemma py_index_out_of_range (sh : list nat) (a : Z) :
  (a < - Z.of_nat (Nat.max (length sh) 1) ∨ Z.of_nat (Nat.max (length sh) 1) ≤ a)%Z →
  py_index sh a = Raise IndexError.
Proof.
  intros Ha. unfold py_index.
  destruct (Z.leb_spec 0 a), (Z.ltb_spec a (Z.of_nat (length sh))),
    (Z.leb_spec (- Z.of_nat (length sh)) a), (Z.ltb_spec a 0); simpl; try done; lia.
Qed.

Section axes.
Context {V : Type} `{Backend V}.
Implicit Types (x r : tensor V).


(** A single axis outside [[-rank, rank)]: min, max, sum and prod raise
    IndexError, and so do std and var with a correction other than 0 and
    1, where [x.shape[a]] comes first.  mean, and std and var with a
    correction of 0 or 1, hand the axis to torch at once: IndexError for
    a floating-point tensor, RuntimeError for any other, since torch
    looks at the dtype first.  min and max are given no buffer or one of
    the dtype of the input, and so is mean. *)
Theorem reduction_rejects_bad_axis x (a : Z) (keepdims : bool) :
  (a < - Z.of_nat (Nat.max (rank x) 1) ∨ Z.of_nat (Nat.max (rank x) 1) ≤ a)%Z →
  (∀ out, accepts_out out (dtype_of x) = true →
     statistical.min x (AxInt a) keepdims out = Raise IndexError
     ∧ statistical.max x (AxInt a) keepdims out = Raise IndexError)
  ∧ (∀ dt out, statistical.sum x (AxInt a) dt keepdims out = Raise IndexError)
  ∧ (∀ dt, statistical.prod x (AxInt a) dt keepdims = Raise IndexError)
  ∧ (∀ correction out,
       Qeq_bool correction 0 = false → Qeq_bool correction 1 = false →
       statistical.std x (AxInt a) correction keepdims out = Raise IndexError
       ∧ statistical.var x (AxInt a) correction keepdims out = Raise IndexError)
  ∧ (is_floating (dtype_of x) = true →
     (∀ out, accepts_out out (dtype_of x) = true →
        statistical.mean x (AxInt a) keepdims out = Raise IndexError)
     ∧ (∀ correction out,
          statistical.std x (AxInt a) correction keepdims out = Raise IndexError
          ∧ statistical.var x (AxInt a) correction keepdims out = Raise IndexError))
  ∧ (is_floating (dtype_of x) = false →
     (∀ out, statistical.mean x (AxInt a) keepdims out = Raise RuntimeError)
     ∧ (∀ correction out,
          Qeq_bool correction 0 = true ∨ Qeq_bool correction 1 = true →
          statistical.std x (AxInt a) correction keepdims out = Raise RuntimeError
          ∧ statistical.var x (AxInt a) correction keepdims out = Raise RuntimeError)).
Proof.
  intros Ha. pose proof (wrap_dim_out_of_range (rank x) a Ha) as Hw.
  pose proof (py_index_out_of_range (shape x) a Ha) as Hpy.
  assert (Hgate : negb keepdims && (a =? 0)%Z && negb (a =? 0)%Z = false).
  { by destruct keepdims, (a =? 0)%Z. }
  assert (Hext : ∀ f out, accepts_out out (dtype_of x) = true →
            torch.extremum f x (AxInt a) keepdims out = Raise IndexError).
  { intros f out Hacc. unfold torch.extremum, torch.wrap_dims. rewrite Hacc. simpl.
    rewrite Hw. simpl. by case_bool_decide. }
  split; [|split; [|split; [|split; [|split]]]].
  - intros out Hacc. unfold statistical.min, statistical.max. simpl. rewrite Hgate.
    split; by apply Hext.
  - intros dt out. unfold statistical.sum, torch.sum, torch.wrap_dims. simpl.
    by rewrite Hw.
  - intros dt. unfold statistical.prod, torch.prod. simpl. by rewrite Hw.
  - intros correction out H0 H1.
    unfold statistical.std, statistical.var, statistical.reduced_size. simpl.
    by rewrite H0, H1, Hpy.
  - intros Hf. split.
    + intros out Hacc. unfold statistical.mean, torch.mean, torch.wrap_dims. simpl.
      by rewrite Hf, Hw.
    + intros correction out.
      unfold statistical.std, statistical.var, statistical.reduced_size, torch.std,
        torch.var, torch.wrap_dims.
      simpl. rewrite Hf, Hw, Hpy. simpl.
      by destruct (Qeq_bool correction 0), (Qeq_bool correction 1).
  - intros Hf. split.
    + intros out. unfold statistical.mean, torch.mean. simpl. by rewrite Hf.
    + intros correction out Hc.
      unfold statistical.std, statistical.var, torch.std, torch.var.
      simpl. rewrite Hf. simpl.
      destruct (Qeq_bool correction 0); [done|].
      destruct (Qeq_bool correction 1); [done|]. by destruct Hc.
Qed.

Lemma check_each_spec x (l : list Z) (D : list nat) :
  Forall2 (λ a k, torch.wrap_dim (rank x) a = Ok k ∧ k < rank x) l D →
  torch.check_each x l
  = if bool_decide (Exists (λ k, shape x !!! k = 0) D) then Raise IndexError else Ok ().
Proof.
  induction 1 as [|a k l D [Ha _] _ IH].
  - done.
  - simpl.
    rewrite Ha. simpl. destruct (Nat.eqb_spec (shape x !!! k) 0) as [H0|H0].
    + rewrite bool_decide_eq_true_2; [done|]. by apply Exists_cons_hd.
    + rewrite IH.
      rewrite (bool_decide_ext (Exists (λ k, shape x !!! k = 0) (k :: D))
                 (Exists (λ k, shape x !!! k = 0) D)); [done|].
      rewrite Exists_cons. split; [by intros [?|?]|by right].
Qed.

(** Naming an axis twice, be it under two spellings, makes mean, sum, std
    and var raise RuntimeError.  So do min and max, given no buffer or
    one of the dtype of the input, unless one of the named axes has
    extent 0: torch looks at the extents of a tensor without elements
    first, and they raise IndexError. *)
Theorem repeated_axis_is_rejected x (l : list Z) (D : list nat) (keepdims : bool) :
  Forall2 (λ a k, torch.wrap_dim (rank x) a = Ok k ∧ k < rank x) l D → ¬ NoDup D →
  (∀ out, accepts_out out (dtype_of x) = true →
     (Forall (λ k, shape x !!! k ≠ 0) D →
      statistical.min x (AxTuple l) keepdims out = Raise RuntimeError
      ∧ statistical.max x (AxTuple l) keepdims out = Raise RuntimeError)
     ∧ (Exists (λ k, shape x !!! k = 0) D →
        statistical.min x (AxTuple l) keepdims out = Raise IndexError
        ∧ statistical.max x (AxTuple l) keepdims out = Raise IndexError))
  ∧ (∀ out, statistical.mean x (AxTuple l) keepdims out = Raise RuntimeError)
  ∧ (∀ dt out, statistical.sum x (AxTuple l) dt keepdims out = Raise RuntimeError)
  ∧ (∀ correction out, statistical.std x (AxTuple l) correction keepdims out
                       = Raise RuntimeError)
  ∧ (∀ correction out, statistical.var x (AxTuple l) correction keepdims out
                       = Raise RuntimeError).
Proof.
  intros Hf Hdup.
  assert (Hne : l ≠ []).
  { intros ->. apply Forall2_nil_inv_l in Hf as ->. apply Hdup, NoDup_nil_2. }
  assert (Hw : torch.wrap_dims (rank x) l = Raise RuntimeError).
  { unfold torch.wrap_dims.
    assert (He : torch.wrap_each (rank x) l = Ok D).
    { clear Hdup Hne. induction Hf as [|a k l D [Ha _] _ IH]; [done|].
      simpl. by rewrite Ha, IH. }
    rewrite He. simpl. by rewrite bool_decide_eq_false_2. }
  assert (Hs : ∃ n, statistical.reduced_size x l = Ok n).
  { unfold statistical.reduced_size. generalize 1. clear Hdup Hne Hw.
    induction Hf as [|a k l D [Ha Hk] _ IH]; intros s; simpl; [by eexists|].
    rewrite (py_index_wrap _ a k Ha Hk). simpl. apply IH. }
  destruct Hs as [n Hs].
  pose proof (check_each_spec x l D Hf) as Hc.
  destruct l as [|a l]; [done|].
  assert (Hext : ∀ f out, accepts_out out (dtype_of x) = true →
     (Forall (λ k, shape x !!! k ≠ 0) D →
      torch.extremum f x (AxTuple (a :: l)) keepdims out = Raise RuntimeError)
     ∧ (Exists (λ k, shape x !!! k = 0) D →
        torch.extremum f x (AxTuple (a :: l)) keepdims out = Raise IndexError)).
  { intros f out Hacc. unfold torch.extremum, torch.zero_numel_check_dims.
    rewrite Hacc. simpl torch.dims_of. cbv iota. rewrite Hc, Hw. split.
    - intros Hall. rewrite (bool_decide_eq_false_2 (Exists _ D)).
      + simpl. by destruct (bool_decide (0 ∈ shape x)).
      + intros Hex%Exists_exists. destruct Hex as (k & Hk & H0).
        rewrite Forall_forall in Hall. by apply (Hall k Hk).
    - intros Hex. rewrite (bool_decide_eq_true_2 (Exists _ D)) by done.
      rewrite bool_decide_eq_true_2; [done|].
      apply Exists_exists in Hex as (k & Hk & H0).
      apply list_elem_of_lookup_1 in Hk as [i Hi].
      destruct (Forall2_lookup_r _ _ _ _ _ Hf Hi) as (a' & _ & _ & Hlt).
      rewrite <- H0. apply list_elem_of_lookup_total_2. done. }
  split; [|split; [|split; [|split]]].
  - intros out Hacc. unfold statistical.min, statistical.max. simpl.
    rewrite andb_false_r. unfold torch.amin, torch.amax.
    destruct (Hext torch.min_lane out Hacc) as [A B].
    destruct (Hext torch.max_lane out Hacc) as [A' B'].
    split; intros HD; split; auto.
  - intros out. unfold statistical.mean. simpl. unfold torch.mean.
    simpl torch.dims_of. rewrite Hw. by destruct (is_floating _).
  - intros dt out. unfold statistical.sum. simpl. unfold torch.sum.
    simpl torch.dims_of. by rewrite Hw.
  - intros correction out. unfold statistical.std. simpl eq_empty_tuple. cbv iota.
    simpl statistical.as_tuple. unfold torch.std. rewrite Hw, Hs. simpl.
    by repeat case_match.
  - intros correction out. unfold statistical.var. simpl eq_empty_tuple. cbv iota.
    simpl statistical.as_tuple. unfold torch.var. rewrite Hw, Hs. simpl.
    by repeat case_match.
Qed.

End axes.


Lemma reduction_rejects_bad_axis_witness :
  statistical.min x234 (AxInt 3) false None = Raise IndexError
  ∧ statistical.var x4 (AxInt (-2)) 1 false None = Raise IndexError
  ∧ statistical.var x3 (AxInt (-2)) 1 false None = Raise RuntimeError
  ∧ statistical.var x3 (AxInt (-2)) (1 # 2) false None = Raise IndexError.
Proof.
  assert (H1 : (3 < - Z.of_nat (Nat.max (rank x234) 1)
                ∨ Z.of_nat (Nat.max (rank x234) 1) ≤ 3)%Z) by (right; by vm_compute).
  assert (H2 : (-2 < - Z.of_nat (Nat.max (rank x4) 1)
                ∨ Z.of_nat (Nat.max (rank x4) 1) ≤ -2)%Z) by (left; by vm_compute).
  assert (H3 : (-2 < - Z.of_nat (Nat.max (rank x3) 1)
                ∨ Z.of_nat (Nat.max (rank x3) 1) ≤ -2)%Z) by (left; by vm_compute).
  destruct (reduction_rejects_bad_axis x234 3 false H1) as (Hmin & _).
  destruct (reduction_rejects_bad_axis x4 (-2) false H2)
    as (_ & _ & _ & _ & Hfloat & _).
  destruct (reduction_rejects_bad_axis x3 (-2) false H3)
    as (_ & _ & _ & Hcustom & _ & Hint).
  split; [exact (proj1 (Hmin None eq_refl))|].
  split; [exact (proj2 (proj2 (Hfloat eq_refl) 1%Q None))|].
  split; [exact (proj2 (proj2 (Hint eq_refl) 1%Q None (or_intror eq_refl)))|].
  exact (proj2 (Hcustom (1 # 2)%Q None eq_refl eq_refl)).
Defined.

Lemma repeated_axis_is_rejected_witness :
  statistical.sum x234 (AxTuple [0; -3]%Z) None false None = Raise RuntimeError
  ∧ statistical.min x234 (AxTuple [0; -3]%Z) false None = Raise RuntimeError
  ∧ statistical.std f234 (AxTuple [0; -3]%Z) 2 false None = Raise RuntimeError
  ∧ statistical.min e02 (AxTuple [0; 0]%Z) false None = Raise IndexError.
Proof.
  assert (Hf : Forall2 (λ a k, torch.wrap_dim (rank x234) a = Ok k ∧ k < rank x234)
                 [0; -3]%Z [0; 0]).
  { repeat constructor; unfold rank; simpl; lia. }
  assert (Hf' : Forall2 (λ a k, torch.wrap_dim (rank f234) a = Ok k ∧ k < rank f234)
                  [0; -3]%Z [0; 0]).
  { repeat constructor; unfold rank; simpl; lia. }
  assert (He : Forall2 (λ a k, torch.wrap_dim (rank e02) a = Ok k ∧ k < rank e02)
                 [0; 0]%Z [0; 0]).
  { repeat constructor; unfold rank; simpl; lia. }
  assert (Hd : ¬ NoDup [0; 0]).
  { intros Hn. apply NoDup_cons in Hn as [Hn _]. apply Hn. by left. }
  destruct (repeated_axis_is_rejected x234 [0; -3]%Z [0; 0] false Hf Hd)
    as (Hmin & _ & Hsum & _).
  destruct (repeated_axis_is_rejected f234 [0; -3]%Z [0; 0] false Hf' Hd)
    as (_ & _ & _ & Hstd & _).
  destruct (repeated_axis_is_rejected e02 [0; 0]%Z [0; 0] false He Hd)
    as (Hempty & _).
  split; [exact (Hsum None None)|].
  split.
  { apply (proj1 (Hmin None eq_refl)). repeat constructor; simpl; lia. }
  split; [exact (Hstd 2%Q None)|].
  apply (proj2 (Hempty None eq_refl)). by apply Exists_cons_hd.
Defined.

(** ** Reductions over every axis *)

Lemma reduced_shape_every (p : nat) (sh D : list nat) (keep : bool) :
  (∀ q, p ≤ q < p + length sh → q ∈ D) →
  torch.reduced_shape p sh D keep = if keep then replicate (length sh) 1 else [].
Proof.
  revert p. induction sh as [|n sh IH]; intros p Hq; simpl; [by destruct keep|].
  rewrite bool_decide_eq_true_2 by (apply Hq; simpl; lia).
  rewrite IH by (intros q Hle; apply Hq; simpl; lia). by destruct keep.
Qed.

Lemma lane_shape_every (p : nat) (sh D : list nat) :
  (∀ q, p ≤ q < p + length sh → q ∈ D) → torch.lane_shape p sh D = sh.
Proof.
  revert p. induction sh as [|n sh IH]; intros p Hq; simpl; [done|].
  rewrite bool_decide_eq_true_2 by (apply Hq; simpl; lia).
  by rewrite IH by (intros q Hle; apply Hq; simpl; lia).
Qed.

Lemma weave_every (p : nat) (sh D : list nat) (keep : bool) (ridx sub : list nat) :
  (∀ q, p ≤ q < p + length sh → q ∈ D) → length sub = length sh →
  torch.weave p sh D keep ridx sub = sub.
Proof.
  revert p ridx sub. induction sh as [|n sh IH]; intros p ridx sub Hq Hlen; simpl.
  - by destruct sub.
  - destruct sub as [|i sub]; [done|]. simpl in *.
    rewrite bool_decide_eq_true_2 by (apply Hq; lia).
    by rewrite IH by (by intros q Hle; apply Hq; lia) || lia.
Qed.

Lemma indices_ones (n : nat) : indices (replicate n 1) = [replicate n 0].
Proof. induction n as [|n IH]; [done|]. simpl. by rewrite IH. Qed.

Section every_axis.
Context {V : Type} `{Backend V}.
Implicit Types (x r : tensor V).

Lemma lane_every x (D : list nat) (keep : bool) (ridx : list nat) :
  (∀ q, q < rank x → q ∈ D) → torch.lane x D keep ridx = values x.
Proof.
  intros Hq. unfold torch.lane, values.
  rewrite lane_shape_every by (intros q Hle; apply Hq; unfold rank; lia).
  apply list_fmap_ext. intros i sub Hsub%list_elem_of_lookup_2. f_equal.
  apply weave_every; [intros q Hle; apply Hq; unfold rank; lia|].
  by apply indices_length.
Qed.

Lemma reduce_every (f : list V → V) x (D : list nat) (keep : bool) (d : dtype) :
  (∀ q, q < rank x → q ∈ D) →
  shape (torch.reduce f x D keep d) = (if keep then replicate (rank x) 1 else [])
  ∧ values (torch.reduce f x D keep d) = [f (values x)].
Proof.
  intros Hq.
  assert (Hs : shape (torch.reduce f x D keep d)
               = if keep then replicate (rank x) 1 else []).
  { simpl. apply reduced_shape_every. intros q Hle. apply Hq. unfold rank. lia. }
  split; [done|]. unfold values. rewrite Hs. simpl.
  destruct keep; [rewrite indices_ones|]; simpl; by rewrite lane_every.
Qed.

Lemma seq_every (r q : nat) : q < r → q ∈ seq 0 r.
Proof. intros Hq. apply elem_of_seq. lia. Qed.

(** With no axis given, sum and prod fold the whole tensor, converted to
    the output dtype, in row-major order into a 0-d tensor.  Neither looks
    at keepdims, and sum does not look at [out]. *)
Theorem absent_axis_folds_everything x (dt : option dtype) (keepdims : bool)
    (out : buffer V) :
  (∃ r, statistical.sum x AxNone dt keepdims out = Ok (r, out)
     ∧ dtype_of r = statistical.resolve_dtype x dt
     ∧ shape r = []
     ∧ values r
       = [foldl vadd vzero (values (torch.to x (statistical.resolve_dtype x dt)))])
  ∧ (∃ r, statistical.prod x AxNone dt keepdims = Ok r
       ∧ dtype_of r = statistical.resolve_dtype x dt
       ∧ shape r = []
       ∧ values r
         = [foldl vmul vone (values (torch.to x (statistical.resolve_dtype x dt)))]).
Proof.
  set (d := statistical.resolve_dtype x dt).
  assert (Hr : rank (torch.to x d) = rank x) by (unfold rank; by rewrite to_shape).
  split.
  - unfold statistical.sum, torch.sum. simpl.
    eexists. split; [reflexivity|]. split; [done|].
    apply (reduce_every torch.sum_lane (torch.to x d) (seq 0 (rank x)) false d).
    intros q Hq. apply seq_every. by rewrite <- Hr.
  - unfold statistical.prod, torch.prod_all. simpl.
    eexists. split; [reflexivity|]. split; [done|].
    apply (reduce_every torch.prod_lane (torch.to x d) (seq 0 (rank x)) false d).
    intros q Hq. apply seq_every. by rewrite <- Hr.
Qed.

Lemma range_wrap_dims x :
  rank x ≠ 0 → torch.wrap_dims (rank x) (range (length (shape x))) = Ok (seq 0 (rank x)).
Proof.
  intros Hr. apply wrap_dims_Ok; [apply names_axes_range|]. left.
  unfold rank, range in *. by destruct (shape x).
Qed.

(** With no axis given, mean, std and var of a floating-point tensor
    reduce over every axis and do honour keepdims: the result has one
    element, computed from the whole tensor, in a shape of rank 0 or,
    under keepdims, of the rank of the input with every extent 1.  Of a
    tensor that is not floating-point they raise RuntimeError.  The mean
    of a 0-d tensor is the tensor itself, whatever its dtype.  mean is
    given no buffer or one of the dtype of the input. *)
Theorem absent_axis_honours_keepdims x (keepdims : bool) :
  (is_floating (dtype_of x) = true →
   (rank x ≠ 0 → ∀ out, accepts_out out (dtype_of x) = true →
      ∃ r, statistical.mean x AxNone keepdims out = Ok (write_out out r)
        ∧ shape r = (if keepdims then replicate (rank x) 1 else [])
        ∧ values r = [torch.mean_lane (values x)])
   ∧ (∀ (unbiased : bool) out, ∃ r,
        statistical.var x AxNone (if unbiased then 1%Q else 0%Q) keepdims out
        = Ok (r, out)
        ∧ shape r = (if keepdims then replicate (rank x) 1 else [])
        ∧ values r = [torch.var_lane unbiased (values x)])
   ∧ (∀ (unbiased : bool) out, ∃ r,
        statistical.std x AxNone (if unbiased then 1%Q else 0%Q) keepdims out
        = Ok (r, out)
        ∧ shape r = (if keepdims then replicate (rank x) 1 else [])
        ∧ values r = [vsqrt (torch.var_lane unbiased (values x))])
   ∧ (∀ correction out, ∃ r,
        statistical.var x AxNone correction keepdims out = Ok (r, out)
        ∧ shape r = (if keepdims then replicate (rank x) 1 else []))
   ∧ (∀ correction out, ∃ r,
        statistical.std x AxNone correction keepdims out = Ok (r, out)
        ∧ shape r = (if keepdims then replicate (rank x) 1 else [])))
  ∧ (is_floating (dtype_of x) = false →
     (rank x ≠ 0 → ∀ out, statistical.mean x AxNone keepdims out = Raise RuntimeError)
     ∧ (∀ correction out,
          statistical.var x AxNone correction keepdims out = Raise RuntimeError)
     ∧ (∀ correction out,
          statistical.std x AxNone correction keepdims out = Raise RuntimeError))
  ∧ (rank x = 0 → ∀ out, statistical.mean x AxNone keepdims out = Ok (write_out out x)).
Proof.
  pose proof (names_axes_range x) as Hn.
  assert (Hsh : ∀ native scale c,
     shape (estimator native scale x (seq 0 (rank x)) c keepdims)
     = if keepdims then replicate (rank x) 1 else []).
  { intros native scale c. rewrite estimator_shape.
    apply reduced_shape_every. intros q Hq. apply seq_every. unfold rank. lia. }
  assert (Hmean : rank x ≠ 0 → ∀ out, statistical.mean x AxNone keepdims out
            = torch.mean x (AxList (range (length (shape x)))) keepdims out).
  { intros Hr out. unfold statistical.mean.
    assert (Hl : eq_empty_list (AxList (range (length (shape x)))) = false).
    { unfold rank, range in *. by destruct (shape x). }
    simpl eq_empty_tuple. by rewrite Hl. }
  split; [|split].
  - intros Hf.
    assert (Hv : ∀ c out, statistical.var x AxNone c keepdims out
       = Ok (estimator torch.var_lane of_Q x (seq 0 (rank x)) c keepdims, out)).
    { intros c out. by apply var_estimator. }
    assert (Hs : ∀ c out, statistical.std x AxNone c keepdims out
       = Ok (estimator torch.std_lane (λ q, vsqrt (of_Q q)) x (seq 0 (rank x)) c
               keepdims, out)).
    { intros c out. by apply std_estimator. }
    split; [|split; [|split; [|split]]].
    + intros Hr out Hacc. rewrite (Hmean Hr).
      rewrite (mean_Ok x (AxList (range (length (shape x)))) keepdims out
                 (seq 0 (rank x)) Hf Hacc (range_wrap_dims x Hr)).
      eexists. split; [reflexivity|].
      apply reduce_every. intros q Hq. by apply seq_every.
    + intros unbiased out. eexists. split; [apply Hv|]. split; [apply Hsh|].
      unfold estimator.
      destruct unbiased; simpl; apply reduce_every; intros q Hq; by apply seq_every.
    + intros unbiased out. eexists. split; [apply Hs|]. split; [apply Hsh|].
      unfold estimator.
      destruct unbiased; simpl; apply reduce_every; intros q Hq; by apply seq_every.
    + intros c out. eexists. split; [apply Hv|apply Hsh].
    + intros c out. eexists. split; [apply Hs|apply Hsh].
  - intros Hf. split; [|split].
    + intros Hr out. rewrite (Hmean Hr). by apply mean_refuses.
    + intros c out. by apply (var_refuses x AxNone _ _ _ (seq 0 (rank x))).
    + intros c out. by apply (std_refuses x AxNone _ _ _ (seq 0 (rank x))).
  - intros Hr out. unfold statistical.mean, rank in *.
    destruct (shape x); [|done]. simpl. by destruct out.
Qed.

(** An empty list as axis is not the empty tuple.  mean returns its
    argument, and so does prod, without the conversion that the empty
    tuple gets; sum, min, max, std and var reduce over every axis, and
    the custom branch of std and var takes the reduced size to be 1.
    min and max are taken of a tensor that has elements, with no buffer
    or one of the dtype of the input; std and var of a floating-point
    tensor: of any other they raise RuntimeError. *)
Theorem empty_list_axis_reduces_everything x (keepdims : bool) :
  (∀ out, statistical.mean x (AxList []) keepdims out = Ok (write_out out x))
  ∧ (∀ dt, statistical.prod x (AxList []) dt keepdims = Ok x)
  ∧ (∀ dt out, ∃ r, statistical.sum x (AxList []) dt keepdims out = Ok (r, out)
       ∧ shape r = (if keepdims then replicate (rank x) 1 else [])
       ∧ values r
         = [foldl vadd vzero (values (torch.to x (statistical.resolve_dtype x dt)))])
  ∧ (0 ∉ shape x → ∀ out, accepts_out out (dtype_of x) = true →
     (∃ r, statistical.min x (AxList []) keepdims out = Ok (write_out out r)
        ∧ shape r = (if keepdims then replicate (rank x) 1 else [])
        ∧ values r = [torch.min_lane (values x)])
     ∧ (∃ r, statistical.max x (AxList []) keepdims out = Ok (write_out out r)
          ∧ shape r = (if keepdims then replicate (rank x) 1 else [])
          ∧ values r = [torch.max_lane (values x)]))
  ∧ (is_floating (dtype_of x) = true →
     (∀ (unbiased : bool) out, ∃ r,
        statistical.var x (AxList []) (if unbiased then 1%Q else 0%Q) keepdims out
        = Ok (r, out)
        ∧ shape r = (if keepdims then replicate (rank x) 1 else [])
        ∧ values r = [torch.var_lane unbiased (values x)])
     ∧ (∀ (unbiased : bool) out, ∃ r,
          statistical.std x (AxList []) (if unbiased then 1%Q else 0%Q) keepdims out
          = Ok (r, out)
          ∧ shape r = (if keepdims then replicate (rank x) 1 else [])
          ∧ values r = [vsqrt (torch.var_lane unbiased (values x))])
     ∧ (∀ correction out,
          Qeq_bool correction 0 = false → Qeq_bool correction 1 = false →
          Qle_bool (1 - correction) 0 = false →
          (∃ r, statistical.var x (AxList []) correction keepdims out = Ok (r, out)
             ∧ shape r = (if keepdims then replicate (rank x) 1 else [])
             ∧ values r
               = [vmul (torch.var_lane false (values x))
                    (of_Q (1 / (1 - correction))%Q)])
          ∧ (∃ r, statistical.std x (AxList []) correction keepdims out = Ok (r, out)
               ∧ shape r = (if keepdims then replicate (rank x) 1 else [])
               ∧ values r
                 = [vmul (vsqrt (torch.var_lane false (values x)))
                      (vsqrt (of_Q (1 / (1 - correction))%Q))])))
  ∧ (is_floating (dtype_of x) = false →
     ∀ correction out,
       statistical.var x (AxList []) correction keepdims out = Raise RuntimeError
       ∧ statistical.std x (AxList []) correction keepdims out = Raise RuntimeError).
Proof.
  assert (He : ∀ q, q < rank x → q ∈ seq 0 (rank x)) by (intros q; apply seq_every).
  assert (Hone : ∀ (f : list V → V) (r : tensor V),
            shape r = (if keepdims then replicate (rank x) 1 else []) →
            values r = [f (values x)] →
            ∀ s, values (torch.mul r s) = [vmul (f (values x)) s]).
  { intros f r Hsh Hval s. unfold values in *. simpl. rewrite Hsh in *.
    destruct keepdims; [rewrite indices_ones in *|]; simpl in *;
      by injection Hval as ->. }
  split; [|split; [|split; [|split; [|split]]]].
  - intros out. unfold statistical.mean. simpl. by destruct out.
  - intros dt. by unfold statistical.prod.
  - intros dt out. unfold statistical.sum, torch.sum. simpl.
    eexists. split; [reflexivity|].
    set (d := statistical.resolve_dtype x dt).
    assert (Hr : rank (torch.to x d) = rank x) by (unfold rank; by rewrite to_shape).
    destruct (reduce_every torch.sum_lane (torch.to x d) (seq 0 (rank x)) keepdims d)
      as [A B]; [intros q Hq; apply seq_every; by rewrite <- Hr|].
    rewrite Hr in A. split; [exact A|exact B].
  - intros H0 out Hacc.
    assert (Hw : ∀ dim, torch.dims_of dim = [] →
              torch.wrap_dims (rank x) (torch.dims_of dim) = Ok (seq 0 (rank x))).
    { by intros dim ->. }
    assert (Hext : ∀ f dim keep, torch.dims_of dim = [] →
              ∃ r, torch.extremum f x dim keep out = Ok (write_out out r)
                ∧ shape r = (if keep then replicate (rank x) 1 else [])
                ∧ values r = [f (values x)]).
    { intros f dim keep Hd. unfold torch.extremum. rewrite Hacc, (Hw dim Hd). simpl.
      rewrite bool_decide_eq_false_2 by done. simpl.
      eexists. split; [reflexivity|]. by apply reduce_every. }
    unfold statistical.min, statistical.max, torch.amin, torch.amax. simpl.
    destruct keepdims; simpl; split; by apply Hext.
  - intros Hf.
    assert (Hvar : ∀ ub, ∃ r, torch.var x [] ub keepdims = Ok r
              ∧ shape r = (if keepdims then replicate (rank x) 1 else [])
              ∧ values r = [torch.var_lane ub (values x)]).
    { intros ub. unfold torch.var. rewrite Hf. simpl.
      eexists. split; [reflexivity|]. by apply reduce_every. }
    assert (Hstd : ∀ ub, ∃ r, torch.std x [] ub keepdims = Ok r
              ∧ shape r = (if keepdims then replicate (rank x) 1 else [])
              ∧ values r = [vsqrt (torch.var_lane ub (values x))]).
    { intros ub. unfold torch.std. rewrite Hf. simpl.
      eexists. split; [reflexivity|].
      by apply (reduce_every (torch.std_lane ub) x (seq 0 (rank x)) keepdims). }
    split; [|split].
    + intros unbiased out. destruct (Hvar unbiased) as (r & Hr & Hrest).
      exists r. split; [|done]. unfold statistical.var. simpl.
      destruct unbiased; simpl; by rewrite Hr.
    + intros unbiased out. destruct (Hstd unbiased) as (r & Hr & Hrest).
      exists r. split; [|done]. unfold statistical.std. simpl.
      destruct unbiased; simpl; by rewrite Hr.
    + intros c out H0 H1 Hle.
      destruct (Hvar false) as (rv & Hrv & Hshv & Hvalv).
      destruct (Hstd false) as (rs & Hrs & Hshs & Hvals).
      split.
      * unfold statistical.var, statistical.reduced_size. simpl.
        rewrite H0, H1. simpl. change (inject_Z (Z.of_nat 1)) with 1%Q.
        rewrite Hle, Hrv. simpl. eexists. split; [reflexivity|].
        assert (Hd : dtype_of (torch.mul rv (of_Q (1 / (1 - c))%Q)) = dtype_of x).
        { unfold torch.var in Hrv. rewrite Hf in Hrv. simpl in Hrv.
          by injection Hrv as <-. }
        unfold torch.to. rewrite bool_decide_eq_true_2 by done.
        split; [done|]. by apply (Hone (torch.var_lane false)).
      * unfold statistical.std, statistical.reduced_size. simpl.
        rewrite H0, H1. simpl. change (inject_Z (Z.of_nat 1)) with 1%Q.
        rewrite Hle, Hrs. simpl. eexists. split; [reflexivity|].
        split; [done|].
        by apply (Hone (λ l, vsqrt (torch.var_lane false l))).
  - intros Hf c out.
    unfold statistical.var, statistical.std, statistical.reduced_size, torch.var,
      torch.std.
    simpl. rewrite Hf. simpl. split; by repeat case_match.
Qed.

End every_axis.

(** ** keepdims *)

Lemma fmap_bind_comm {A B C} (f : B → C) (g : A → list B) (l : list A) :
  f <$> (l ≫= g) = l ≫= (λ a, f <$> g a).
Proof.
  induction l as [|a l IH]; [done|]. by rewrite !bind_cons, fmap_app, IH.
Qed.

Lemma weave_drop_kept (p : nat) (sh D ridx sub : list nat) :
  torch.weave p sh D true ridx sub
  = torch.weave p sh D false (drop_kept p sh D ridx) sub.
Proof.
  revert p ridx sub. induction sh as [|n sh IH]; intros p ridx sub; [done|].
  simpl. case_bool_decide; simpl; by rewrite IH.
Qed.

Lemma indices_drop_kept (p : nat) (sh D : list nat) :
  drop_kept p sh D <$> indices (torch.reduced_shape p sh D true)
  = indices (torch.reduced_shape p sh D false).
Proof.
  revert p. induction sh as [|n sh IH]; intros p; [done|].
  simpl. case_bool_decide; simpl.
  - rewrite app_nil_r, <- list_fmap_compose, <- IH.
    by apply list_fmap_ext.
  - rewrite fmap_bind_comm. apply list_bind_ext; [|done]. intros i.
    rewrite <- IH, <- !list_fmap_compose.
    by apply list_fmap_ext.
Qed.

Section keepdims.
Context {V : Type} `{Backend V}.
Implicit Types (x r : tensor V).

Lemma lane_drop_kept x (D ridx : list nat) :
  torch.lane x D true ridx = torch.lane x D false (drop_kept 0 (shape x) D ridx).
Proof.
  unfold torch.lane. apply list_fmap_ext. intros i sub _.
  by rewrite weave_drop_kept.
Qed.

Lemma reduce_keepdims (f : list V → V) x (D : list nat) (d : dtype) :
  values (torch.reduce f x D true d) = values (torch.reduce f x D false d).
Proof.
  unfold values. simpl. rewrite <- indices_drop_kept, <- list_fmap_compose.
  apply list_fmap_ext. intros i ridx _. simpl. by rewrite lane_drop_kept.
Qed.

Lemma full_keepdims (sh D : list nat) (v : V) (d : dtype) :
  values (torch.full (torch.reduced_shape 0 sh D true) v d)
  = values (torch.full (torch.reduced_shape 0 sh D false) v d).
Proof.
  unfold values. simpl. rewrite <- indices_drop_kept, <- list_fmap_compose. done.
Qed.

Lemma mul_values x (s : V) : values (torch.mul x s) = (λ v, vmul v s) <$> values x.
Proof. unfold values. simpl. by rewrite <- list_fmap_compose. Qed.

Lemma estimator_keepdims native scale x (D : list nat) (correction : Q) :
  values (estimator native scale x D correction true)
  = values (estimator native scale x D correction false).
Proof.
  unfold estimator.
  destruct (Qeq_bool correction 0); [apply reduce_keepdims|].
  destruct (Qeq_bool correction 1); [apply reduce_keepdims|].
  destruct (Qle_bool _ 0); [apply full_keepdims|].
  by rewrite !mul_values, reduce_keepdims.
Qed.

(** keepdims changes the shape of a reduction and nothing else: over
    explicitly given axes, min, max, mean, sum, std and var hold the same
    elements in the same order, of the same dtype, with and without it,
    whenever they return.  sum always returns, and mean, std and var do
    on a floating-point tensor. *)
Theorem keepdims_keeps_values x (axis : axis_arg) (D : list nat) :
  axis ≠ AxNone → statistical.as_tuple axis ≠ [] →
  names_axes x (statistical.as_tuple axis) D →
  (∀ out r b r' b',
     statistical.min x axis true out = Ok (r, b) →
     statistical.min x axis false out = Ok (r', b') →
     dtype_of r = dtype_of r' ∧ values r = values r')
  ∧ (∀ out r b r' b',
       statistical.max x axis true out = Ok (r, b) →
       statistical.max x axis false out = Ok (r', b') →
       dtype_of r = dtype_of r' ∧ values r = values r')
  ∧ (∀ out r b r' b',
       statistical.mean x axis true out = Ok (r, b) →
       statistical.mean x axis false out = Ok (r', b') →
       dtype_of r = dtype_of r' ∧ values r = values r')
  ∧ (∀ dt out, ∃ r b r' b',
       statistical.sum x axis dt true out = Ok (r, b)
       ∧ statistical.sum x axis dt false out = Ok (r', b')
       ∧ dtype_of r = dtype_of r' ∧ values r = values r')
  ∧ (is_floating (dtype_of x) = true →
     (∃ r r',
        statistical.mean x axis true None = Ok (r, None)
        ∧ statistical.mean x axis false None = Ok (r', None)
        ∧ dtype_of r = dtype_of r' ∧ values r = values r')
     ∧ (∀ correction out, ∃ r r',
          statistical.std x axis correction true out = Ok (r, out)
          ∧ statistical.std x axis correction false out = Ok (r', out)
          ∧ dtype_of r = dtype_of r' ∧ values r = values r')
     ∧ (∀ correction out, ∃ r r',
          statistical.var x axis correction true out = Ok (r, out)
          ∧ statistical.var x axis correction false out = Ok (r', out)
          ∧ dtype_of r = dtype_of r' ∧ values r = values r')).
Proof.
  intros Hnone Hl Hn.
  pose proof (explicit_axes_wrap x axis D Hnone Hl Hn) as Hw.
  assert (Ht : eq_empty_tuple axis = false) by (by destruct axis as [| |[]|]).
  assert (Hel : eq_empty_list axis = false) by (by destruct axis as [| | |[]]).
  assert (Hax : axes_of x axis = statistical.as_tuple axis) by (by destruct axis).
  assert (Hgate : negb false && py_not axis && ne_zero axis = false).
  { destruct axis as [|a|[]|[]]; simpl in *; try done. by destruct (a =? 0)%Z. }
  assert (Hdt : ∀ native scale c keep,
            dtype_of (estimator native scale x D c keep) = dtype_of x).
  { intros native scale c keep. unfold estimator.
    destruct (Qeq_bool c 0); [done|]. destruct (Qeq_bool c 1); [done|].
    by destruct (Qle_bool _ 0). }
  assert (Hmean : ∀ keep out, statistical.mean x axis keep out
                              = torch.mean x axis keep out).
  { intros keep out. unfold statistical.mean.
    replace (match axis with AxNone => _ | _ => axis end) with axis by (by destruct axis).
    by rewrite Ht, Hel. }
  assert (Hext : ∀ f out r b r' b',
            torch.extremum f x axis true out = Ok (r, b) →
            torch.extremum f x axis false out = Ok (r', b') →
            dtype_of r = dtype_of r' ∧ values r = values r').
  { intros f out r b r' b' (_ & D1 & HD1 & Hr)%extremum_returns
      (_ & D2 & HD2 & Hr')%extremum_returns.
    rewrite Hw in HD1, HD2. injection HD1 as <-. injection HD2 as <-.
    destruct out; injection Hr as -> _; injection Hr' as -> _;
      (split; [done|apply reduce_keepdims]). }
  split; [|split; [|split; [|split]]].
  - intros out r b r' b'. unfold statistical.min. rewrite Ht, Hgate. simpl.
    apply Hext.
  - intros out r b r' b'. unfold statistical.max. rewrite Ht, Hgate. simpl.
    apply Hext.
  - intros out r b r' b'. rewrite !Hmean. unfold torch.mean. rewrite Hw.
    destruct (is_floating (dtype_of x)); simpl; [|discriminate].
    destruct out as [buf|].
    + destruct (is_floating (dtype_of buf)); [|discriminate].
      intros [= <- _] [= <- _]. split; [done|apply reduce_keepdims].
    + intros [= <- _] [= <- _]. split; [done|apply reduce_keepdims].
  - intros dt out. unfold statistical.sum. rewrite Ht. unfold torch.sum.
    destruct axis as [|a|l|l]; [done|..]; simpl in *; rewrite Hw; simpl;
      eexists _, _, _, _; (split; [reflexivity|]); (split; [reflexivity|]);
      (split; [done|apply reduce_keepdims]).
  - intros Hf. split; [|split].
    + rewrite !Hmean, !(mean_Ok x axis _ None D Hf eq_refl Hw). simpl.
      eexists _, _. split; [reflexivity|]. split; [reflexivity|].
      split; [done|apply reduce_keepdims].
    + intros correction out. rewrite <- Hax in Hn. eexists _, _.
      split; [by apply std_estimator|]. split; [by apply std_estimator|].
      split; [by rewrite !Hdt|apply estimator_keepdims].
    + intros correction out. rewrite <- Hax in Hn. eexists _, _.
      split; [by apply var_estimator|]. split; [by apply var_estimator|].
      split; [by rewrite !Hdt|apply estimator_keepdims].
Qed.

End keepdims.

Lemma keepdims_keeps_values_witness :
  ∃ r b r' b',
    statistical.sum x234 (AxTuple [0; -1]%Z) None true None = Ok (r, b)
    ∧ statistical.sum x234 (AxTuple [0; -1]%Z) None false None = Ok (r', b')
    ∧ dtype_of r = dtype_of r' ∧ values r = values r'.
Proof.
  assert (Hn : AxTuple [0; -1]%Z ≠ AxNone) by discriminate.
  assert (Hl : statistical.as_tuple (AxTuple [0; -1]%Z) ≠ []) by discriminate.
  destruct (keepdims_keeps_values x234 (AxTuple [0; -1]%Z) [0; 2] Hn Hl x234_axes)
    as (_ & _ & _ & Hsum & _).
  exact (Hsum None None).
Defined.

(** ** prod over a sequence of axes *)

Lemma reduced_shape_ext (sh : list nat) (p : nat) (D D' : list nat) (keep : bool) :
  (∀ q, p ≤ q → q ∈ D ↔ q ∈ D') →
  torch.reduced_shape p sh D keep = torch.reduced_shape p sh D' keep.
Proof.
  revert p. induction sh as [|n sh IH]; intros p Hq; [done|]. simpl.
  rewrite (IH (S p)) by (intros q Hle; apply Hq; lia).
  destruct (decide (p ∈ D)) as [Hin|Hin].
  - rewrite !bool_decide_eq_true_2; [done| |done]. by apply Hq.
  - rewrite !bool_decide_eq_false_2; [done| |done]. intros Hin'. apply Hin. by apply Hq.
Qed.

Lemma reduced_shape_passed (sh : list nat) (p : nat) (D : list nat) (keep : bool) :
  (∀ d, d ∈ D → d < p) → torch.reduced_shape p sh D keep = sh.
Proof.
  revert p. induction sh as [|n sh IH]; intros p Hd; [done|]. simpl.
  rewrite bool_decide_eq_false_2 by (intros Hp%Hd; lia).
  rewrite IH; [done|]. intros d Hin%Hd. lia.
Qed.

Lemma reduced_shape_kept (sh : list nat) (p k : nat) (D : list nat) :
  p ≤ k →
  torch.reduced_shape p (<[k - p := 1]> sh) D true
  = torch.reduced_shape p sh (k :: D) true.
Proof.
  revert p. induction sh as [|n sh IH]; intros p Hk; [done|].
  destruct (decide (k = p)) as [->|Hne].
  - rewrite Nat.sub_diag. simpl.
    rewrite (bool_decide_eq_true_2 (p ∈ p :: D)) by (by left).
    rewrite (reduced_shape_ext sh (S p) (p :: D) D).
    + by case_bool_decide.
    + intros q Hq. rewrite elem_of_cons. split; [|by right]. intros [->|?]; [lia|done].
  - replace (k - p) with (S (k - S p)) by lia. simpl.
    rewrite IH by lia.
    destruct (decide (p ∈ D)) as [Hin|Hin].
    + rewrite !bool_decide_eq_true_2; [done|by right|done].
    + rewrite !bool_decide_eq_false_2; [done| |done].
      rewrite elem_of_cons. intros [?|?]; [lia|done].
Qed.

Lemma reduced_shape_deleted (sh : list nat) (p k : nat) (D : list nat) :
  p ≤ k → (∀ d, d ∈ D → d < k) →
  torch.reduced_shape p (delete (k - p) sh) D false
  = torch.reduced_shape p sh (k :: D) false.
Proof.
  revert p. induction sh as [|n sh IH]; intros p Hk Hd; [done|].
  destruct (decide (k = p)) as [->|Hne].
  - rewrite Nat.sub_diag. simpl.
    rewrite (bool_decide_eq_true_2 (p ∈ p :: D)) by (by left). simpl.
    rewrite !reduced_shape_passed; [done| |done].
    intros d [->|Hin%Hd]%elem_of_cons; lia.
  - replace (k - p) with (S (k - S p)) by lia. simpl.
    rewrite IH by (done || lia).
    destruct (decide (p ∈ D)) as [Hin|Hin].
    + rewrite !bool_decide_eq_true_2; [done|by right|done].
    + rewrite !bool_decide_eq_false_2; [done| |done].
      rewrite elem_of_cons. intros [?|?]; [lia|done].
Qed.

Lemma reduced_shape_length (sh : list nat) (p : nat) (D : list nat) :
  length (torch.reduced_shape p sh D true) = length sh.
Proof.
  revert p. induction sh as [|n sh IH]; intros p; [done|]. simpl.
  case_bool_decide; simpl; by rewrite IH.
Qed.

Section prod_loop.
Context {V : Type} `{Backend V}.
Implicit Types (x r : tensor V).

Lemma prod_one x (a : Z) (k : nat) (keep : bool) (dt : dtype) :
  torch.wrap_dim (rank x) a = Ok k →
  torch.prod x a keep dt = Ok (torch.reduce torch.prod_lane (torch.to x dt) [k] keep dt).
Proof. intros Ha. unfold torch.prod. by rewrite Ha. Qed.

Lemma prod_loop_keepdims (n : nat) (l : list Z) (D : list nat) (dt : dtype) :
  Forall2 (λ a k, torch.wrap_dim n a = Ok k ∧ k < n) l D →
  ∀ x, rank x = n →
    ∃ r, for_in l (λ x i, torch.prod x i true dt) x = Ok r
      ∧ shape r = torch.reduced_shape 0 (shape x) D true.
Proof.
  induction 1 as [|a k l D [Ha Hk] _ IH]; intros x Hx.
  - exists x. split; [done|]. by rewrite reduced_shape_passed by (by intros d ?%elem_of_nil).
  - simpl. rewrite <- Hx in Ha. rewrite (prod_one x a k true dt Ha). simpl.
    set (x1 := torch.reduce torch.prod_lane (torch.to x dt) [k] true dt).
    destruct (IH x1) as (r & Hr & Hs).
    { unfold rank, x1 in *. simpl. by rewrite reduced_shape_length, to_shape. }
    exists r. split; [done|]. rewrite Hs. unfold x1. simpl. rewrite to_shape.
    rewrite <- (reduced_shape_kept (shape x) 0 k D) by lia.
    rewrite <- (reduced_shape_kept (shape x) 0 k []) by lia.
    by rewrite (reduced_shape_passed _ 0 []) by (by intros d ?%elem_of_nil).
Qed.

Lemma prod_loop_descending (D : list nat) (dt : dtype) :
  StronglySorted (λ k k', k' < k) D →
  ∀ x, (∀ k, k ∈ D → k < rank x) →
    ∃ r, for_in (Z.of_nat <$> D) (λ x i, torch.prod x i false dt) x = Ok r
      ∧ shape r = torch.reduced_shape 0 (shape x) D false.
Proof.
  induction 1 as [|k D _ IH Hlt]; intros x Hx.
  - exists x. split; [done|]. by rewrite reduced_shape_passed by (by intros d ?%elem_of_nil).
  - simpl.
    assert (Hk : k < rank x) by (apply Hx; by left).
    rewrite (prod_one x _ k false dt (wrap_dim_of_nat _ _ Hk)). simpl.
    set (x1 := torch.reduce torch.prod_lane (torch.to x dt) [k] false dt).
    assert (Hs1 : shape x1 = delete k (shape x)).
    { unfold x1. simpl. rewrite to_shape.
      rewrite <- (reduced_shape_deleted (shape x) 0 k []) by (lia || by intros d ?%elem_of_nil).
      rewrite Nat.sub_0_r.
      by rewrite (reduced_shape_passed _ 0 []) by (by intros d ?%elem_of_nil). }
    destruct (IH x1) as (r & Hr & Hs).
    { intros k' Hk'. unfold rank. rewrite Hs1, length_delete.
      - rewrite Forall_forall in Hlt. specialize (Hlt k' Hk'). unfold rank in Hk. lia.
      - by apply lookup_lt_is_Some_2. }
    exists r. split; [done|]. rewrite Hs, Hs1.
    rewrite <- (reduced_shape_deleted (shape x) 0 k D); [by rewrite Nat.sub_0_r|lia|].
    by apply Forall_forall.
Qed.

(** prod reduces the axes of a sequence one after the other.  With
    keepdims the rank stays, every axis keeps its number, and the result
    has the shape of the joint reduction: extent 1 at each named axis.
    An axis may be named twice. *)
Theorem prod_keepdims_shape x (l : list Z) (D : list nat) (dt : option dtype) :
  Forall2 (λ a k, torch.wrap_dim (rank x) a = Ok k ∧ k < rank x) l D →
  (∃ r, statistical.prod x (AxTuple l) dt true = Ok r
     ∧ shape r = torch.reduced_shape 0 (shape x) D true)
  ∧ (∃ r, statistical.prod x (AxList l) dt true = Ok r
       ∧ shape r = torch.reduced_shape 0 (shape x) D true).
Proof.
  intros Hf. unfold statistical.prod.
  destruct (prod_loop_keepdims (rank x) l D (statistical.resolve_dtype x dt) Hf x eq_refl)
    as (r & Hr & Hs).
  split; [|by exists r].
  destruct l as [|a l]; [|simpl; by exists r].
  apply Forall2_nil_inv_l in Hf as ->. simpl. eexists. split; [done|].
  by rewrite to_shape, reduced_shape_passed by (by intros d ?%elem_of_nil).
Qed.

(** Without keepdims every pass of the loop removes an axis and the
    later numbers count in what is left.  Axes that are given from the
    back to the front, as strictly decreasing non-negative numbers, keep
    their meaning: prod then has the shape of the joint reduction. *)
Theorem prod_descending_axes_shape x (D : list nat) (dt : option dtype) :
  StronglySorted (λ k k', k' < k) D → (∀ k, k ∈ D → k < rank x) →
  (∃ r, statistical.prod x (AxTuple (Z.of_nat <$> D)) dt false = Ok r
     ∧ shape r = torch.reduced_shape 0 (shape x) D false)
  ∧ (∃ r, statistical.prod x (AxList (Z.of_nat <$> D)) dt false = Ok r
       ∧ shape r = torch.reduced_shape 0 (shape x) D false).
Proof.
  intros Hs Hb. unfold statistical.prod.
  destruct (prod_loop_descending D (statistical.resolve_dtype x dt) Hs x Hb)
    as (r & Hr & Hsh).
  split; [|by exists r].
  destruct D as [|k D]; [|simpl; by exists r].
  simpl. eexists. split; [done|].
  by rewrite to_shape, reduced_shape_passed by (by intros d ?%elem_of_nil).
Qed.

End prod_loop.

Lemma prod_keepdims_shape_witness :
  ∃ r, statistical.prod x234 (AxTuple [0; -3; 2]%Z) None true = Ok r
    ∧ shape r = [1; 3; 1].
Proof.
  assert (Hf : Forall2 (λ a k, torch.wrap_dim (rank x234) a = Ok k ∧ k < rank x234)
                 [0; -3; 2]%Z [0; 0; 2]).
  { repeat constructor; unfold rank; simpl; lia. }
  destruct (prod_keepdims_shape x234 [0; -3; 2]%Z [0; 0; 2] None Hf) as [Ht _].
  exact Ht.
Defined.

Lemma prod_descending_axes_shape_witness :
  ∃ r, statistical.prod x234 (AxTuple [2; 0]%Z) None false = Ok r
    ∧ shape r = [3].
Proof.
  assert (Hs : StronglySorted (λ k k', k' < k) [2; 0]).
  { repeat constructor. }
  assert (Hb : ∀ k, k ∈ [2; 0] → k < rank x234).
  { intros k Hk. unfold rank. simpl.
    apply elem_of_cons in Hk as [->|Hk]; [lia|].
    apply elem_of_cons in Hk as [->|Hk]; [lia|]. by apply elem_of_nil in Hk. }
  destruct (prod_descending_axes_shape x234 [2; 0] None Hs Hb) as [Ht _].
  exact Ht.
Defined.

(** ** A reduction and its scan *)

Lemma lane_shape_passed (sh : list nat) (p : nat) (D : list nat) :
  (∀ d, d ∈ D → d < p) → torch.lane_shape p sh D = [].
Proof.
  revert p. induction sh as [|n sh IH]; intros p Hd; [done|]. simpl.
  rewrite bool_decide_eq_false_2 by (intros Hp%Hd; lia).
  apply IH. intros d Hin%Hd. lia.
Qed.

Lemma lane_shape_one (sh : list nat) (p k : nat) :
  p ≤ k < p + length sh → torch.lane_shape p sh [k] = [sh !!! (k - p)].
Proof.
  revert p. induction sh as [|n sh IH]; intros p Hk; simpl in *; [lia|].
  destruct (decide (k = p)) as [->|Hne].
  - rewrite bool_decide_eq_true_2 by (by left). rewrite Nat.sub_diag. simpl.
    by rewrite lane_shape_passed by (intros d ->%list_elem_of_singleton; lia).
  - rewrite bool_decide_eq_false_2 by (intros ?%list_elem_of_singleton; lia).
    rewrite IH by lia. by replace (k - p) with (S (k - S p)) by lia.
Qed.

Lemma weave_passed (sh : list nat) (p : nat) (D : list nat) (keep : bool)
    (ridx sub : list nat) :
  (∀ d, d ∈ D → d < p) → length ridx = length sh →
  torch.weave p sh D keep ridx sub = ridx.
Proof.
  revert p ridx. induction sh as [|n sh IH]; intros p ridx Hd Hlen; simpl.
  - by destruct ridx.
  - destruct ridx as [|i ridx]; [done|]. simpl in *.
    rewrite bool_decide_eq_false_2 by (intros Hp%Hd; lia).
    rewrite IH; [done| |lia]. intros d Hin%Hd. lia.
Qed.

Lemma weave_one (sh : list nat) (p k j : nat) (ridx : list nat) :
  p ≤ k < p + length sh → length ridx = length sh →
  torch.weave p sh [k] true ridx [j] = <[k - p := j]> ridx.
Proof.
  revert p ridx. induction sh as [|n sh IH]; intros p ridx Hk Hlen; simpl in *; [lia|].
  destruct ridx as [|i ridx]; [done|]. simpl in *.
  destruct (decide (k = p)) as [->|Hne].
  - rewrite bool_decide_eq_true_2 by (by left). rewrite Nat.sub_diag. simpl.
    rewrite weave_passed; [done| |lia]. intros d ->%list_elem_of_singleton. lia.
  - rewrite bool_decide_eq_false_2 by (intros ?%list_elem_of_singleton; lia).
    rewrite IH by lia. by replace (k - p) with (S (k - S p)) by lia.
Qed.

Lemma indices_one (n : nat) : indices [n] = (λ j, [j]) <$> seq 0 n.
Proof.
  simpl. generalize 0 as s. induction n as [|n IH]; intros s; [done|].
  simpl. by rewrite IH.
Qed.

Section fold_and_scan.
Context {V : Type} `{Backend V}.
Implicit Types (x r : tensor V).

Lemma foldl_scan_at (op : V → V → V) (e : V) (g : nat → V) (m : nat) :
  (∀ v, op e v = v) → foldl op e (g <$> seq 0 (S m)) = torch.scan_at op g m.
Proof.
  intros He. induction m as [|m IH]; [simpl; apply He|].
  rewrite seq_S, fmap_app, foldl_app, IH. done.
Qed.

Lemma lane_one x (k : nat) (ridx : list nat) :
  k < rank x → length ridx = rank x →
  torch.lane x [k] true ridx
  = (λ j, item x (<[k := j]> ridx)) <$> seq 0 (shape x !!! k).
Proof.
  intros Hk Hlen. unfold torch.lane, rank in *.
  rewrite lane_shape_one by lia. rewrite Nat.sub_0_r, indices_one, <- list_fmap_compose.
  apply list_fmap_ext. intros i j _. simpl.
  by rewrite weave_one, Nat.sub_0_r by lia.
Qed.

Lemma to_item x (d : dtype) (idx : list nat) :
  (∀ v, cast (dtype_of x) (dtype_of x) v = v) →
  item (torch.to x d) idx = cast (dtype_of x) d (item x idx).
Proof.
  intros Hc. unfold torch.to. case_bool_decide as Hd; [|done].
  by rewrite <- Hd, Hc.
Qed.

Lemma reduce_is_last_of_scan (op : V → V → V) (e : V) x (axis : Z) (k : nat)
    (d : dtype) (idx : list nat) :
  (∀ v, op e v = v) → (∀ v, cast (dtype_of x) (dtype_of x) v = v) →
  torch.wrap_dim (rank x) axis = Ok k → k < rank x → idx ∈ indices (shape x) →
  ∃ c, torch.scan op x axis d = Ok c
    ∧ item (torch.reduce (foldl op e) (torch.to x d) [k] true d) (<[k := 0]> idx)
      = item c (<[k := shape x !!! k - 1]> idx).
Proof.
  intros He Hc Hw Hk Hidx. rewrite (scan_Ok op x axis k d Hw).
  eexists. split; [reflexivity|]. simpl.
  pose proof (indices_length _ _ Hidx) as Hlen.
  pose proof (indices_bound _ _ k Hidx Hk) as Hb.
  assert (Hr : rank (torch.to x d) = rank x) by (unfold rank; by rewrite to_shape).
  rewrite lane_one by (rewrite ?length_insert, Hr; done).
  rewrite to_shape.
  destruct (shape x !!! k) as [|m] eqn:Hn; [lia|].
  rewrite (foldl_scan_at op e _ m He).
  replace (S m - 1) with m by lia.
  rewrite list_lookup_total_insert_eq by (unfold rank in Hk; lia).
  apply scan_at_ext. intros j _. by rewrite to_item, !list_insert_insert_eq.
Qed.

(** The total along an axis is the last entry of the running total: a
    reduction folds its lane from the front, as a scan does, so sum with
    keepdims holds what the last slice of cumsum along that axis holds,
    and prod what the last slice of cumprod holds. *)
Theorem total_is_last_of_running_total x (axis : Z) (k : nat) (dt : option dtype) :
  (∀ v, vadd vzero v = v) → (∀ v, vmul vone v = v) →
  (∀ v, cast (dtype_of x) (dtype_of x) v = v) →
  torch.wrap_dim (rank x) axis = Ok k → k < rank x →
  (∃ s c, statistical.sum x (AxInt axis) dt true None = Ok (s, None)
     ∧ statistical.cumsum x axis false false dt None = Ok (c, None)
     ∧ shape s = <[k := 1]> (shape x)
     ∧ ∀ idx, idx ∈ indices (shape x) →
         item s (<[k := 0]> idx) = item c (<[k := shape x !!! k - 1]> idx))
  ∧ (∃ s c, statistical.prod x (AxInt axis) dt true = Ok s
       ∧ statistical.cumprod x axis false false dt None = Ok (c, None)
       ∧ shape s = <[k := 1]> (shape x)
       ∧ ∀ idx, idx ∈ indices (shape x) →
           item s (<[k := 0]> idx) = item c (<[k := shape x !!! k - 1]> idx)).
Proof.
  intros Hadd Hmul Hc Hw Hk.
  set (d := statistical.resolve_dtype x dt).
  assert (Hsh : torch.reduced_shape 0 (shape (torch.to x d)) [k] true
                = <[k := 1]> (shape x)).
  { rewrite to_shape, <- (reduced_shape_kept (shape x) 0 k []) by lia.
    rewrite Nat.sub_0_r. by rewrite reduced_shape_passed by (by intros ? ?%elem_of_nil). }
  assert (Hr : rank (torch.to x d) = rank x) by (unfold rank; by rewrite to_shape).
  split.
  - unfold statistical.sum, statistical.cumsum, torch.cumsum_out, torch.cumsum,
      torch.sum, torch.wrap_dims. simpl. fold d.
    rewrite Hw, (scan_Ok vadd x axis k d Hw). simpl.
    eexists _, _. split; [reflexivity|]. split; [reflexivity|]. split; [exact Hsh|].
    intros idx Hidx.
    destruct (reduce_is_last_of_scan vadd vzero x axis k d idx Hadd Hc Hw Hk Hidx)
      as (c & Hscan & Heq).
    rewrite (scan_Ok vadd x axis k d Hw) in Hscan. injection Hscan as <-. exact Heq.
  - unfold statistical.prod, statistical.cumprod, torch.cumprod_out, torch.cumprod.
    simpl. fold d.
    rewrite (prod_one x axis k true d Hw), (scan_Ok vmul x axis k d Hw). simpl.
    eexists _, _. split; [reflexivity|]. split; [reflexivity|]. split; [exact Hsh|].
    intros idx Hidx.
    destruct (reduce_is_last_of_scan vmul vone x axis k d idx Hmul Hc Hw Hk Hidx)
      as (c & Hscan & Heq).
    rewrite (scan_Ok vmul x axis k d Hw) in Hscan. injection Hscan as <-. exact Heq.
Qed.

End fold_and_scan.

Lemma exact_cast_float_same (v : exact.num) : cast float32 float32 v = v.
Proof. by destruct v. Qed.

Lemma total_is_last_of_running_total_witness :
  ∃ s c, statistical.sum x21 (AxInt (-2)) None true None = Ok (s, None)
    ∧ statistical.cumsum x21 (-2) false false None None = Ok (c, None)
    ∧ shape s = [1; 1]
    ∧ item s [0; 0] = item c [1; 0].
Proof.
  assert (Hw : torch.wrap_dim (rank x21) (-2) = Ok 0) by reflexivity.
  assert (Hk : 0 < rank x21) by (unfold rank; simpl; lia).
  destruct (total_is_last_of_running_total x21 (-2) 0 None
              exact_add_zero exact_mul_one exact_cast_float_same Hw Hk)
    as [(s & c & Hs & Hcs & Hsh & Hit) _].
  exists s, c. split; [done|]. split; [done|]. split; [done|].
  apply (Hit [1; 0]). apply elem_of_indices. repeat constructor; lia.
Defined.

Section buffers.
Context {V : Type} `{Backend V}.
Implicit Types (x r : tensor V).

(** No function reads what the output buffer holds.  sum, std and var,
    and cumprod with a flag set, return the same tensor, or raise the
    same exception, with any buffer as without one.  So do min, max and
    mean with a buffer of the dtype of the input, and cumsum and cumprod
    with a buffer of the dtype of the result. *)
Theorem buffer_is_never_read x (out : buffer V) :
  (∀ axis dt keepdims, fst <$> statistical.sum x axis dt keepdims out
                       = fst <$> statistical.sum x axis dt keepdims None)
  ∧ (∀ axis correction keepdims,
       fst <$> statistical.std x axis correction keepdims out
       = fst <$> statistical.std x axis correction keepdims None)
  ∧ (∀ axis correction keepdims,
       fst <$> statistical.var x axis correction keepdims out
       = fst <$> statistical.var x axis correction keepdims None)
  ∧ (∀ axis exclusive reverse dt,
       exclusive || reverse = true →
       fst <$> statistical.cumprod x axis exclusive reverse dt out
       = fst <$> statistical.cumprod x axis exclusive reverse dt None)
  ∧ (accepts_out out (dtype_of x) = true →
     (∀ axis keepdims, fst <$> statistical.min x axis keepdims out
                       = fst <$> statistical.min x axis keepdims None)
     ∧ (∀ axis keepdims, fst <$> statistical.max x axis keepdims out
                         = fst <$> statistical.max x axis keepdims None)
     ∧ (∀ axis keepdims, fst <$> statistical.mean x axis keepdims out
                         = fst <$> statistical.mean x axis keepdims None))
  ∧ (∀ axis exclusive reverse dt,
       accepts_out out (statistical.resolve_dtype x dt) = true →
       fst <$> statistical.cumsum x axis exclusive reverse dt out
       = fst <$> statistical.cumsum x axis exclusive reverse dt None
       ∧ fst <$> statistical.cumprod x axis exclusive reverse dt out
         = fst <$> statistical.cumprod x axis exclusive reverse dt None).
Proof.
  destruct out as [buf|]; [|done].
  split; [|split; [|split; [|split; [|split]]]].
  - intros axis dt keepdims. unfold statistical.sum.
    destruct (eq_empty_tuple axis); [done|].
    destruct axis; simpl; unfold torch.sum; simpl; try done;
      by destruct (torch.wrap_dims _ _).
  - intros axis correction keepdims. unfold statistical.std.
    destruct (eq_empty_tuple _); [done|].
    destruct (Qeq_bool correction 0); [by destruct (torch.std _ _ _ _)|].
    destruct (Qeq_bool correction 1); [by destruct (torch.std _ _ _ _)|].
    destruct (statistical.reduced_size _ _); simpl; [|done].
    destruct (Qle_bool _ _); by destruct (torch.std _ _ _ _).
  - intros axis correction keepdims. unfold statistical.var.
    destruct (eq_empty_tuple _); [done|].
    destruct (Qeq_bool correction 0); [by destruct (torch.var _ _ _ _)|].
    destruct (Qeq_bool correction 1); [by destruct (torch.var _ _ _ _)|].
    destruct (statistical.reduced_size _ _); simpl; [|done].
    destruct (Qle_bool _ _); by destruct (torch.var _ _ _ _).
  - intros axis exclusive reverse dt Hflag. rewrite !cumprod_emulated, Hflag.
    by destruct (emulated _ _ _ _ _ _ _).
  - intros Hacc.
    assert (He : ∀ f dim keepdim,
              fst <$> torch.extremum f x dim keepdim (Some buf)
              = fst <$> torch.extremum f x dim keepdim None).
    { intros f dim keepdim. unfold torch.extremum. rewrite Hacc. simpl.
      destruct (if bool_decide (0 ∈ shape x) then _ else _); simpl; [|done].
      by destruct (torch.wrap_dims _ _). }
    split; [|split].
    + intros axis keepdims. unfold statistical.min.
      destruct (eq_empty_tuple axis); [done|]. destruct (_ && _); apply He.
    + intros axis keepdims. unfold statistical.max.
      destruct (eq_empty_tuple axis); [done|]. destruct (_ && _); apply He.
    + intros axis keepdims. unfold statistical.mean.
      destruct (_ || _); [done|]. unfold torch.mean.
      destruct (is_floating (dtype_of x)) eqn:Hf; simpl; [|done].
      destruct (torch.wrap_dims _ _); simpl; [|done].
      simpl in Hacc. apply bool_decide_eq_true in Hacc. rewrite Hacc, Hf. simpl.
      unfold torch.to. by rewrite bool_decide_eq_true_2.
  - intros axis exclusive reverse dt _. split.
    + rewrite !cumsum_emulated. by destruct (emulated _ _ _ _ _ _ _).
    + rewrite !cumprod_emulated.
      destruct (emulated _ _ _ _ _ _ _); simpl; [|done]. by destruct (negb _).
Qed.

(** Through the method of an array the sample points cannot be used with
    the defaults: [dx] defaults to 1.0 there, the backend function then
    sees both [x] and [dx], and the method returns [None].  Only an
    explicit [dx=None] integrates over the sample points. *)
Theorem method_trapz_with_sample_points
    (trapezoid_dx : tensor V → Q → option Z → result (tensor V))
    (trapezoid_x : tensor V → tensor V → option Z → result (tensor V))
    (self x : tensor V) axis out :
  array_extensions.trapz trapezoid_dx trapezoid_x self
    (array_extensions.Passed (Some x)) array_extensions.Omitted axis out
  = Ok elementwise.PyNone
  ∧ (∀ dx, array_extensions.trapz trapezoid_dx trapezoid_x self
             (array_extensions.Passed (Some x))
             (array_extensions.Passed (Some dx)) axis out
           = Ok elementwise.PyNone)
  ∧ array_extensions.trapz trapezoid_dx trapezoid_x self
      (array_extensions.Passed (Some x)) (array_extensions.Passed None) axis out
    = elementwise.PyTensor
      <$> trapezoid_x self x (array_extensions.or_default axis (Some (-1)%Z))
  ∧ array_extensions.trapz trapezoid_dx trapezoid_x self
      array_extensions.Omitted array_extensions.Omitted axis out
    = elementwise.PyTensor
      <$> trapezoid_dx self 1%Q (array_extensions.or_default axis (Some (-1)%Z)).
Proof. done. Qed.

End buffers.

(** cumprod of [[1, 2, 3, 4]], exclusive, with a buffer: the buffer is
    handed back as it was. *)
Lemma cumprod_flags_ignore_out_witness :
  snd <$> statistical.cumprod x4 0 true false None (Some buf1) = Ok (Some buf1).
Proof.
  destruct (statistical.cumprod x4 0 true false None (Some buf1)) as [[r b]|e] eqn:Hc.
  - simpl. f_equal.
    exact (cumprod_flags_ignore_out x4 0 true false None (Some buf1) r b eq_refl Hc).
  - vm_compute in Hc. discriminate.
Defined.

(** ** The strategies of the tests *)

(** Whatever [_arrays_idx_n_dtypes] draws, its arrays can be joined along
    [unique_idx]: each has [num_dims] axes with extents 2 or 3, the
    extent drawn for it at [unique_idx], and the axes of [common_shape]
    elsewhere. *)
Theorem drawn_arrays_can_be_joined (d : test_strategies.draws) :
  test_strategies.drawn d →
  (test_strategies._arrays_idx_n_dtypes d).2 = test_strategies.unique_idx d
  ∧ ∀ sh dt, (sh, dt) ∈ (test_strategies._arrays_idx_n_dtypes d).1.1 →
      length sh = test_strategies.num_dims d
      ∧ test_strategies.unique_idx d < length sh
      ∧ sh !!! test_strategies.unique_idx d ∈ test_strategies.unique_dims d
      ∧ delete (test_strategies.unique_idx d) sh = test_strategies.common_shape d
      ∧ Forall (λ n, 2 ≤ n ≤ 3) sh.
Proof.
  intros (Hn & _ & Hlen & Hc & Hu & _ & Hud). split; [done|].
  intros sh dt Hin. simpl in Hin.
  apply list_elem_of_fmap in Hin as ([ud dt'] & [= -> ->] & Hz).
  apply elem_of_zip_l in Hz. simpl in *.
  unfold test_strategies.array_shape.
  assert (Ht : length (take (test_strategies.unique_idx d) (test_strategies.common_shape d))
               = test_strategies.unique_idx d) by (rewrite length_take; lia).
  split; [|split; [|split; [|split]]].
  - rewrite !length_app, Ht, length_drop. simpl. lia.
  - rewrite !length_app, Ht. simpl. lia.
  - rewrite lookup_total_app_r by lia. rewrite Ht, Nat.sub_diag. done.
  - assert (Hdel : ∀ (t dr : list nat) u, length t = u → delete u (t ++ [ud] ++ dr) = t ++ dr)
      by (intros t dr u <-; apply delete_middle).
    rewrite Hdel by done. apply take_drop.
  - rewrite Forall_forall in Hud. apply Forall_app. split; [by apply Forall_take|].
    apply Forall_cons. split; [by apply Hud|by apply Forall_drop].
Qed.

(** The [idxes] that [_array_idxes_n_dtype] draws are a permutation of
    all the axes. *)
Theorem drawn_idxes_permute_the_axes (num_dims : nat) (idxes : list nat) :
  test_strategies.idxes_drawn num_dims idxes → idxes ≡ₚ seq 0 num_dims.
Proof.
  intros (Hlen & Hb & Hnd).
  apply submseteq_length_Permutation; [|by rewrite length_seq, Hlen].
  apply NoDup_submseteq; [done|].
  intros i Hi. rewrite Forall_forall in Hb. specialize (Hb i Hi).
  apply elem_of_seq.
  destruct num_dims; [|lia].
  destruct idxes; [by apply elem_of_nil in Hi|done].
Qed.

Lemma drawn_arrays_can_be_joined_witness :
  (test_strategies._arrays_idx_n_dtypes cat_draws).1.1
  = [([2; 3; 3], float32); ([2; 2; 3], float64)]
  ∧ ∀ sh dt, (sh, dt) ∈ (test_strategies._arrays_idx_n_dtypes cat_draws).1.1 →
      length sh = 3 ∧ delete 1 sh = [2; 3].
Proof.
  assert (Hd : test_strategies.drawn cat_draws).
  { unfold test_strategies.drawn. simpl. repeat split; try lia; repeat constructor; lia. }
  destruct (drawn_arrays_can_be_joined cat_draws Hd) as [_ Hall].
  split; [reflexivity|]. intros sh dt Hin.
  destruct (Hall sh dt Hin) as (Hl & _ & _ & Hc & _). by split.
Defined.

Lemma drawn_idxes_permute_the_axes_witness : [2; 0; 1] ≡ₚ seq 0 3.
Proof.
  apply drawn_idxes_permute_the_axes. repeat split; [repeat constructor; lia|].
  apply NoDup_ListNoDup. repeat constructor; simpl; intuition lia.
Defined.

(** ** Ways to write the axes *)

Section spellings.
Context {V : Type} `{Backend V}.
Implicit Types (x r : tensor V).

(** A list of axes that is not empty does what the tuple of the same
    axes does, and a single axis what the tuple of that axis does, in
    every reduction. *)
Theorem axis_spellings_agree x (a : Z) (l : list Z) (keepdims : bool) (out : buffer V) :
  (statistical.min x (AxList (a :: l)) keepdims out
   = statistical.min x (AxTuple (a :: l)) keepdims out
   ∧ statistical.min x (AxInt a) keepdims out
     = statistical.min x (AxTuple [a]) keepdims out)
  ∧ (statistical.max x (AxList (a :: l)) keepdims out
     = statistical.max x (AxTuple (a :: l)) keepdims out
     ∧ statistical.max x (AxInt a) keepdims out
       = statistical.max x (AxTuple [a]) keepdims out)
  ∧ (statistical.mean x (AxList (a :: l)) keepdims out
     = statistical.mean x (AxTuple (a :: l)) keepdims out
     ∧ statistical.mean x (AxInt a) keepdims out
       = statistical.mean x (AxTuple [a]) keepdims out)
  ∧ (∀ dt, statistical.sum x (AxList (a :: l)) dt keepdims out
           = statistical.sum x (AxTuple (a :: l)) dt keepdims out
           ∧ statistical.sum x (AxInt a) dt keepdims out
             = statistical.sum x (AxTuple [a]) dt keepdims out)
  ∧ (∀ dt, statistical.prod x (AxList (a :: l)) dt keepdims
           = statistical.prod x (AxTuple (a :: l)) dt keepdims
           ∧ statistical.prod x (AxInt a) dt keepdims
             = statistical.prod x (AxTuple [a]) dt keepdims)
  ∧ (∀ correction, statistical.std x (AxList (a :: l)) correction keepdims out
                   = statistical.std x (AxTuple (a :: l)) correction keepdims out
                   ∧ statistical.std x (AxInt a) correction keepdims out
                     = statistical.std x (AxTuple [a]) correction keepdims out)
  ∧ (∀ correction, statistical.var x (AxList (a :: l)) correction keepdims out
                   = statistical.var x (AxTuple (a :: l)) correction keepdims out
                   ∧ statistical.var x (AxInt a) correction keepdims out
                     = statistical.var x (AxTuple [a]) correction keepdims out).
Proof.
  assert (Hgate : negb keepdims && (a =? 0)%Z && negb (a =? 0)%Z = false).
  { by destruct keepdims, (a =? 0)%Z. }
  split; [|split; [|split; [|split; [|split; [|split]]]]].
  - unfold statistical.min. simpl. by rewrite Hgate, andb_false_r.
  - unfold statistical.max. simpl. by rewrite Hgate, andb_false_r.
  - done.
  - done.
  - intros dt. split; [done|]. unfold statistical.prod. simpl.
    by destruct (torch.prod _ _ _ _).
  - done.
  - done.
Qed.

End spellings.

(** ** nansum *)

Lemma weave_in_range (p : nat) (sh D : list nat) (keep : bool) (ridx sub : list nat) :
  Forall2 lt ridx (torch.reduced_shape p sh D keep) →
  Forall2 lt sub (torch.lane_shape p sh D) →
  Forall2 lt (torch.weave p sh D keep ridx sub) sh.
Proof.
  revert p ridx sub. induction sh as [|n sh IH]; intros p ridx sub Hr Hs; simpl in *.
  - constructor.
  - destruct (bool_decide (p ∈ D)).
    + inversion Hs as [|j n' sub' ls Hj Hs']; subst. simpl.
      constructor; [done|]. apply IH; [|done].
      destruct keep; simpl in *; [|done].
      by inversion Hr; subst.
    + inversion Hr as [|i n' ridx' rs Hi Hr']; subst. simpl.
      constructor; [done|]. by apply IH.
Qed.

Lemma filter_all {A} (f : A → bool) (l : list A) :
  (∀ a, a ∈ l → f a = true) → List.filter f l = l.
Proof.
  induction l as [|a l IH]; intros Hf; [done|]. simpl.
  rewrite (Hf a) by (by left). f_equal. apply IH. intros b Hb. apply Hf. by right.
Qed.

Section nansum.
Context {V : Type} `{Backend V}.
Variable isnan : V → bool.
Implicit Types (x r : tensor V).

Lemma lane_elements x (D : list nat) (keep : bool) (ridx : list nat) (v : V) :
  ridx ∈ indices (torch.reduced_shape 0 (shape x) D keep) →
  v ∈ torch.lane x D keep ridx → v ∈ values x.
Proof.
  intros Hr Hv. unfold torch.lane in Hv.
  apply list_elem_of_fmap in Hv as (sub & -> & Hsub).
  unfold values. apply list_elem_of_fmap. eexists. split; [reflexivity|].
  apply elem_of_indices. apply weave_in_range; by apply elem_of_indices.
Qed.

Lemma nansum_reduce x (D : list nat) (keep : bool) (d : dtype) :
  (∀ v, v ∈ values x → isnan v = false) →
  values (torch.reduce (torch.nansum_lane isnan) x D keep d)
  = values (torch.reduce torch.sum_lane x D keep d).
Proof.
  intros Hn. unfold values. simpl. apply list_fmap_ext.
  intros i ridx Hr%list_elem_of_lookup_2. unfold torch.nansum_lane.
  rewrite filter_all; [done|]. intros v Hv.
  by rewrite (Hn v (lane_elements x D keep ridx v Hr Hv)).
Qed.

(** nansum and sum, given a dtype, on a tensor that holds no NaN once it
    is converted.  They agree whenever the axis is not the empty tuple
    and, if absent, keepdims is off.  For the empty tuple sum returns the
    converted tensor and nansum the sum over every axis; for an absent
    axis under keepdims sum returns a 0-d tensor and nansum keeps the
    rank. *)
Theorem nansum_and_sum x (d : dtype) (keepdims : bool) (out : buffer V) :
  (∀ v, v ∈ values (torch.to x d) → isnan v = false) →
  (∀ axis r, eq_empty_tuple axis = false → (axis = AxNone → keepdims = false) →
     elementwise.nansum isnan x axis (Some d) keepdims out = Ok r →
     ∃ s, statistical.sum x axis (Some d) keepdims out = Ok (s, out) ∧ same r s)
  ∧ (∀ axis s b, eq_empty_tuple axis = false → (axis = AxNone → keepdims = false) →
       statistical.sum x axis (Some d) keepdims out = Ok (s, b) →
       ∃ r, elementwise.nansum isnan x axis (Some d) keepdims out = Ok r ∧ same r s)
  ∧ (∃ r, elementwise.nansum isnan x (AxTuple []) (Some d) keepdims out = Ok r
       ∧ shape r = (if keepdims then replicate (rank x) 1 else [])
       ∧ values r = [foldl vadd vzero (values (torch.to x d))])
  ∧ statistical.sum x (AxTuple []) (Some d) keepdims out = Ok (torch.to x d, out)
  ∧ (∃ r s, elementwise.nansum isnan x AxNone (Some d) true out = Ok r
       ∧ statistical.sum x AxNone (Some d) true out = Ok (s, out)
       ∧ shape r = replicate (rank x) 1 ∧ shape s = []).
Proof.
  intros Hn.
  assert (Hr : rank (torch.to x d) = rank x) by (unfold rank; by rewrite to_shape).
  assert (Hevery : ∀ q, q < rank (torch.to x d) → q ∈ seq 0 (rank x)).
  { intros q Hq. apply seq_every. by rewrite <- Hr. }
  assert (Hall : ∀ keep,
     shape (torch.reduce (torch.nansum_lane isnan) (torch.to x d) (seq 0 (rank x)) keep d)
     = (if keep then replicate (rank x) 1 else [])
     ∧ values (torch.reduce (torch.nansum_lane isnan) (torch.to x d) (seq 0 (rank x))
                 keep d)
       = [foldl vadd vzero (values (torch.to x d))]).
  { intros keep. rewrite nansum_reduce by done.
    destruct (reduce_every torch.sum_lane (torch.to x d) (seq 0 (rank x)) keep d Hevery)
      as [A B].
    rewrite Hr in A. by split. }
  split; [|split; [|split; [|split]]].
  - intros axis r Ht Hk. unfold elementwise.nansum, torch.nansum, statistical.sum.
    rewrite Ht. unfold statistical.resolve_dtype, as_native_dtype, torch.sum.
    destruct axis as [|a|l|l]; simpl;
      try (rewrite (Hk eq_refl)); simpl;
      try (destruct (torch.wrap_dims _ _) as [D|]; simpl; [|discriminate]);
      intros [= <-]; (eexists; split; [reflexivity|]);
      (split; [done|]); (split; [done|]); by apply nansum_reduce.
  - intros axis s b Ht Hk. unfold elementwise.nansum, torch.nansum, statistical.sum.
    rewrite Ht. unfold statistical.resolve_dtype, as_native_dtype, torch.sum.
    destruct axis as [|a|l|l]; simpl;
      try (rewrite (Hk eq_refl)); simpl;
      try (destruct (torch.wrap_dims _ _) as [D|]; simpl; [|discriminate]);
      intros [= <- <-]; (eexists; split; [reflexivity|]);
      (split; [done|]); (split; [done|]); by apply nansum_reduce.
  - unfold elementwise.nansum, torch.nansum. simpl.
    eexists. split; [reflexivity|]. apply Hall.
  - done.
  - unfold elementwise.nansum, torch.nansum, statistical.sum, torch.sum. simpl.
    eexists _, _. split; [reflexivity|]. split; [reflexivity|].
    split; [apply (Hall true)|].
    simpl. rewrite to_shape.
    apply (reduced_shape_every 0 (shape x) (seq 0 (rank x)) false).
    intros q Hq. apply seq_every. unfold rank. lia.
Qed.

End nansum.

Lemma x234_holds_no_nan (d : dtype) (v : exact.num) :
  v ∈ values (torch.to x234 d) → exact.isnan v = false.
Proof.
  intros Hv. unfold values in Hv. apply list_elem_of_fmap in Hv as (idx & -> & _).
  unfold torch.to. case_bool_decide; simpl; [done|].
  unfold exact.convert, exact.int. by destruct (dtype_kind d).
Qed.

Lemma nansum_and_sum_witness :
  (∃ r s, elementwise.nansum exact.isnan x234 (AxInt 1) (Some float32) false None = Ok r
     ∧ statistical.sum x234 (AxInt 1) (Some float32) false None = Ok (s, None)
     ∧ same r s)
  ∧ (∃ r, elementwise.nansum exact.isnan x234 (AxTuple []) (Some float32) false None
          = Ok r
       ∧ shape r = []).
Proof.
  destruct (nansum_and_sum exact.isnan x234 float32 false None (x234_holds_no_nan float32))
    as (_ & Hs & (r0 & Hr0 & Hsh0 & _) & _).
  split; [|by exists r0].
  destruct (statistical.sum x234 (AxInt 1) (Some float32) false None)
    as [[s b]|e] eqn:Hsum; [|vm_compute in Hsum; discriminate].
  destruct (Hs (AxInt 1) s b eq_refl (λ _, eq_refl) Hsum) as (r & Hr & Hsame).
  exists r, s. split; [done|]. split; [|done].
  f_equal. f_equal. clear -Hsum.
  unfold statistical.sum, torch.sum in Hsum. simpl in Hsum. by injection Hsum as _ <-.
Defined.

(** ** Output dtypes *)

Section output_dtypes.
Context {V : Type} `{Backend V}.
Implicit Types (x r : tensor V).

Lemma var_dtype x (axis : axis_arg) (correction : Q) (keepdims : bool)
    (out : buffer V) r b :
  statistical.var x axis correction keepdims out = Ok (r, b) → dtype_of r = dtype_of x.
Proof.
  unfold statistical.var, torch.var, mbind, result_bind.
  destruct (eq_empty_tuple _); [by intros [= <- _]|].
  destruct (is_floating (dtype_of x)); simpl; [|repeat case_match; discriminate].
  destruct (Qeq_bool correction 0); [next_branch; [|discriminate]; by intros [= <- _]|].
  destruct (Qeq_bool correction 1); [next_branch; [|discriminate]; by intros [= <- _]|].
  destruct (statistical.reduced_size _ _); [|discriminate].
  destruct (Qle_bool _ _); next_branch; try discriminate; intros [= <- _]; [done|].
  apply to_dtype.
Qed.

Lemma std_dtype x (axis : axis_arg) (correction : Q) (keepdims : bool)
    (out : buffer V) r b :
  statistical.std x axis correction keepdims out = Ok (r, b) → dtype_of r = dtype_of x.
Proof.
  unfold statistical.std, torch.std, mbind, result_bind.
  destruct (eq_empty_tuple _); [by intros [= <- _]|].
  destruct (is_floating (dtype_of x)); simpl; [|repeat case_match; discriminate].
  destruct (Qeq_bool correction 0); [next_branch; [|discriminate]; by intros [= <- _]|].
  destruct (Qeq_bool correction 1); [next_branch; [|discriminate]; by intros [= <- _]|].
  destruct (statistical.reduced_size _ _); [|discriminate].
  destruct (Qle_bool _ _); next_branch; try discriminate; by intros [= <- _].
Qed.

(** A dtype that is passed is the dtype of the result of sum, prod,
    cumsum and cumprod, but for prod over an empty list of axes, which
    hands its input back.  std and var take no dtype: their results have
    the dtype of the input, under every correction. *)
Theorem explicit_dtype_is_output_dtype x (d : dtype) :
  (∀ axis keepdims out r b,
     statistical.sum x axis (Some d) keepdims out = Ok (r, b) → dtype_of r = d)
  ∧ (∀ axis keepdims r,
       statistical.prod x axis (Some d) keepdims = Ok r →
       dtype_of r = d ∨ (axis = AxList [] ∧ r = x))
  ∧ (∀ axis exclusive reverse out r b,
       statistical.cumsum x axis exclusive reverse (Some d) out = Ok (r, b) →
       dtype_of r = d)
  ∧ (∀ axis exclusive reverse out r b,
       statistical.cumprod x axis exclusive reverse (Some d) out = Ok (r, b) →
       dtype_of r = d)
  ∧ (∀ axis correction keepdims out r b,
       statistical.std x axis correction keepdims out = Ok (r, b) →
       dtype_of r = dtype_of x)
  ∧ (∀ axis correction keepdims out r b,
       statistical.var x axis correction keepdims out = Ok (r, b) →
       dtype_of r = dtype_of x).
Proof.
  split; [intros axis keepdims out r b; apply (sum_dtype x axis (Some d))|].
  split; [intros axis keepdims r; apply (prod_dtype x axis (Some d))|].
  split; [intros axis ex rev out r b; apply (cumsum_dtype x axis ex rev (Some d))|].
  split; [intros axis ex rev out r b; apply (cumprod_dtype x axis ex rev (Some d))|].
  split; [intros *; apply std_dtype|intros *; apply var_dtype].
Qed.

(** Inferring the output dtype twice infers nothing new, when the default
    dtypes of the backend are of the kind they are the default for.  So
    the sum of a sum, the running total of a sum and the like have the
    dtype of the first result. *)
Theorem infer_dtype_idempotent :
  dtype_kind default_float_dtype = KFloat →
  dtype_kind default_int_dtype = KInt →
  dtype_kind default_uint_dtype = KUint →
  (∀ d, statistical._infer_dtype (statistical._infer_dtype d) = statistical._infer_dtype d)
  ∧ (∀ x axis keepdims out r b axis' keepdims' out' r' b',
       statistical.sum x axis None keepdims out = Ok (r, b) →
       statistical.sum r axis' None keepdims' out' = Ok (r', b') →
       dtype_of r' = dtype_of r)
  ∧ (∀ x axis keepdims out r b axis' exclusive reverse out' r' b',
       statistical.sum x axis None keepdims out = Ok (r, b) →
       statistical.cumsum r axis' exclusive reverse None out' = Ok (r', b') →
       dtype_of r' = dtype_of r).
Proof.
  intros Hf Hi Hu.
  assert (Hdef : ∀ d, infer_default_dtype (infer_default_dtype d) = infer_default_dtype d).
  { intros d. unfold infer_default_dtype at 2.
    destruct (dtype_kind d) eqn:Hd; unfold infer_default_dtype;
      by rewrite ?Hd, ?Hf, ?Hi, ?Hu. }
  assert (Hidem : ∀ d, statistical._infer_dtype (statistical._infer_dtype d)
                       = statistical._infer_dtype d).
  { intros d. destruct (infer_dtype_cases d) as [Hd|(-> & Hv & Hb)]; [by rewrite !Hd|].
    unfold statistical._infer_dtype, as_native_dtype. rewrite Hdef.
    case_bool_decide; [|done]. by rewrite Nat.ltb_irrefl. }
  split; [exact Hidem|]. split.
  - intros x axis keepdims out r b axis' keepdims' out' r' b' Hr Hr'.
    apply sum_dtype in Hr, Hr'. unfold statistical.resolve_dtype, as_native_dtype in *.
    by rewrite Hr', Hr, Hidem.
  - intros x axis keepdims out r b axis' exclusive reverse out' r' b' Hr Hr'.
    apply sum_dtype in Hr. apply cumsum_dtype in Hr'.
    unfold statistical.resolve_dtype, as_native_dtype in *.
    by rewrite Hr', Hr, Hidem.
Qed.

End output_dtypes.

Lemma infer_dtype_idempotent_witness :
  statistical._infer_dtype (V := exact.num)
    (statistical._infer_dtype (V := exact.num) int8)
  = statistical._infer_dtype (V := exact.num) int8
  ∧ statistical._infer_dtype (V := exact.num) int8 = int32.
Proof.
  assert (Hf : dtype_kind (default_float_dtype (V := exact.num)) = KFloat) by reflexivity.
  assert (Hi : dtype_kind (default_int_dtype (V := exact.num)) = KInt) by reflexivity.
  assert (Hu : dtype_kind (default_uint_dtype (V := exact.num)) = KUint) by reflexivity.
  destruct (infer_dtype_idempotent Hf Hi Hu) as [Hd _].
  split; [apply Hd|reflexivity].
Defined.
